(** * Session, storage and API-client logic of the Syntrio platform

    A shallow embedding of the TypeScript sources
    - [sessionManager.ts] (class [SessionManager]),
    - [userStorage.ts]    (class [UserStorageManager]),
    - [tavusApi.ts]       (class [TavusAPI]),
    - [lingoApi.ts]       (class [LingoAPI]),
    - the validator of Lingo API keys (class [LingoValidator]),
    - [AuthContext.tsx]   (the session-expired handler and the flows of the
      provider: mounting, [login], [signup], [logout], [updateProfile]),
    followed by the properties established about them.

    Conventions of the embedding.
    - A JavaScript string is the list of its UTF-16 code units, so that
      [length] is the [.length] of the source.
    - Times are integer milliseconds ([Date.now()]); every duration that
      occurs is far inside the range where floating-point division followed
      by [Math.floor], or by a comparison with 1, agrees with integer
      arithmetic.
    - A synchronous method runs within one reading of the clock: the reading
      is the argument [now].
    - [localStorage] holds one cell per key.  A cell is classified by what
      [JSON.parse] does with its text: it throws, or it yields a value of the
      TypeScript type the reader annotates the result with.  [setItem] and
      [removeItem] succeed; the [catch] blocks around them have nothing to
      catch. *)

From Stdlib Require Import ZArith List String Ascii Bool Lia DecimalString.
From Equations Require Import Equations.
From Equations.Prop Require Import Logic.
Import ListNotations.
Open Scope Z_scope.

(** ** JavaScript strings *)

Module JS.

Definition jsstring : Type := list N.

(** A source literal (ASCII) as a list of code units. *)
Definition lit (s : string) : jsstring :=
  map N_of_ascii (list_ascii_of_string s).

(** [s.length] *)
Definition length (s : jsstring) : Z := Z.of_nat (List.length s).

(** Truthiness of a string: every string but the empty one. *)
Definition truthy (s : jsstring) : bool :=
  match s with [] => false | _ :: _ => true end.

(** [a || b] on strings that may be [undefined]. *)
Definition or_else (a : option jsstring) (b : jsstring) : jsstring :=
  match a with
  | Some s => if truthy s then s else b
  | None => b
  end.

(** White space and line terminators of ECMAScript, as [trim] strips them. *)
Definition isWhiteSpace (c : N) : bool :=
  ((9 <=? c) && (c <=? 13) || (c =? 32) || (c =? 160) || (c =? 5760)
   || (8192 <=? c) && (c <=? 8202) || (c =? 8232) || (c =? 8233)
   || (c =? 8239) || (c =? 8287) || (c =? 12288) || (c =? 65279))%N.

Fixpoint trimStart (s : jsstring) : jsstring :=
  match s with
  | [] => []
  | c :: r => if isWhiteSpace c then trimStart r else s
  end.

Definition trimEnd (s : jsstring) : jsstring := rev (trimStart (rev s)).

Definition trim (s : jsstring) : jsstring := trimEnd (trimStart s).

Fixpoint eqb (a b : jsstring) : bool :=
  match a, b with
  | [], [] => true
  | x :: a', y :: b' => (x =? y)%N && eqb a' b'
  | _, _ => false
  end.

Fixpoint startsWith (s prefix : jsstring) : bool :=
  match prefix, s with
  | [], _ => true
  | p :: prefix', c :: s' => (p =? c)%N && startsWith s' prefix'
  | _ :: _, [] => false
  end.

(** [s.includes(needle)] *)
Fixpoint includes (s needle : jsstring) : bool :=
  startsWith s needle
  || match s with
     | [] => false
     | _ :: s' => includes s' needle
     end.

(** A number in a template literal: [`${n}`] for an integer [n]. *)
Definition ofZ (n : Z) : jsstring := lit (NilZero.string_of_int (Z.to_int n)).

(** [s.substring(start, end)]: both indices are clamped to the string and
    taken in order. *)
Definition substring (s : jsstring) (start finish : Z) : jsstring :=
  let clamp i := Z.to_nat (Z.min (Z.max 0 i) (length s)) in
  let a := clamp start in
  let b := clamp finish in
  firstn (Nat.max a b - Nat.min a b) (skipn (Nat.min a b) s).

(** [s.repeat(count)] for a count that is not negative. *)
Definition repeat (s : jsstring) (count : Z) : jsstring :=
  List.concat (List.repeat s (Z.to_nat count)).

(** [s.split(sep)[0]] for a separator of one code unit: the text before
    its first occurrence. *)
Fixpoint beforeFirst (sep : N) (s : jsstring) : jsstring :=
  match s with
  | [] => []
  | c :: r => if (c =? sep)%N then [] else c :: beforeFirst sep r
  end.

(** The base64 alphabet: the character of a six-bit value. *)
Definition base64Char (v : N) : N :=
  (if v <? 26 then 65 + v
   else if v <? 52 then 97 + (v - 26)
   else if v <? 62 then 48 + (v - 52)
   else if v =? 62 then 43 else 47)%N.

(** Base64 of a sequence of bytes, three bytes to four characters, padded
    with [=]. *)
Fixpoint base64 (bytes : list N) : jsstring :=
  match bytes with
  | [] => []
  | a :: rest =>
      match rest with
      | [] =>
          [base64Char (a / 4); base64Char ((a mod 4) * 16); 61; 61]%N
      | b :: rest' =>
          match rest' with
          | [] =>
              [base64Char (a / 4); base64Char ((a mod 4) * 16 + b / 16);
               base64Char ((b mod 16) * 4); 61]%N
          | c :: more =>
              ([base64Char (a / 4); base64Char ((a mod 4) * 16 + b / 16);
                base64Char ((b mod 16) * 4 + c / 64); base64Char (c mod 64)]%N)
              ++ base64 more
          end
      end
  end.

(** [btoa(s)]: the base64 of the code units of [s], each taken as a byte;
    it throws ([None]) when a code unit is above 255. *)
Definition btoa (s : jsstring) : option jsstring :=
  if forallb (fun c => c <=? 255)%N s then Some (base64 s) else None.

End JS.

Abbreviation jsstring := JS.jsstring.

(** ** [localStorage] *)

Module Storage.

(** What a key holds: [Garbled text] is a text on which [JSON.parse] throws
    (the empty text among them); [Encoded v] is [JSON.stringify v]. *)
Inductive Item (A : Type) : Type :=
| Garbled (text : jsstring)
| Encoded (v : A).
Arguments Garbled {A} text.
Arguments Encoded {A} v.

(** [interface StoredUser] *)
Record StoredUser : Type := mkStoredUser {
  su_id : jsstring;
  su_email : jsstring;
  su_name : jsstring;
  su_password : jsstring;
  su_createdAt : jsstring;
  su_updatedAt : jsstring
}.

(** [interface UserProfile] *)
Record UserProfile : Type := mkUserProfile {
  up_id : jsstring;
  up_email : jsstring;
  up_name : jsstring;
  up_createdAt : jsstring;
  up_updatedAt : jsstring
}.

(** [interface SessionData] *)
Record SessionData : Type := mkSessionData {
  userId : jsstring;
  email : jsstring;
  name : jsstring;
  loginTime : Z;
  lastActivity : Z;
  expiresAt : Z;
  sessionId : jsstring;
  deviceInfo : jsstring
}.

(** [interface WorkInProgress]; [voiceSettings] has type [any] and is kept
    as its serialized text. *)
Record WorkInProgress : Type := mkWorkInProgress {
  textContent : jsstring;
  selectedLanguage : jsstring;
  voiceSettings : jsstring;
  timestamp : Z
}.

(** The four keys of the application:
    ['voiceverse_users'], ['voiceverse_current_user'],
    ['voiceverse_session'], ['voiceverse_work_backup']. *)
Record LocalStorage : Type := mkLocalStorage {
  USERS_KEY : option (Item (list StoredUser));
  CURRENT_USER_KEY : option (Item UserProfile);
  SESSION_KEY : option (Item SessionData);
  WORK_BACKUP_KEY : option (Item WorkInProgress)
}.

Definition empty : LocalStorage := mkLocalStorage None None None None.

Definition set_USERS_KEY (v : option (Item (list StoredUser))) (ls : LocalStorage) :=
  mkLocalStorage v (CURRENT_USER_KEY ls) (SESSION_KEY ls) (WORK_BACKUP_KEY ls).

Definition set_CURRENT_USER_KEY (v : option (Item UserProfile)) (ls : LocalStorage) :=
  mkLocalStorage (USERS_KEY ls) v (SESSION_KEY ls) (WORK_BACKUP_KEY ls).

Definition set_SESSION_KEY (v : option (Item SessionData)) (ls : LocalStorage) :=
  mkLocalStorage (USERS_KEY ls) (CURRENT_USER_KEY ls) v (WORK_BACKUP_KEY ls).

Definition set_WORK_BACKUP_KEY (v : option (Item WorkInProgress)) (ls : LocalStorage) :=
  mkLocalStorage (USERS_KEY ls) (CURRENT_USER_KEY ls) (SESSION_KEY ls) v.

(** The outcome of [const text = localStorage.getItem(k); if (!text) ...;
    JSON.parse(text)], the opening of every reader in the sources. *)
Inductive Read (A : Type) : Type :=
| Missing            (* [getItem] gave [null] or the empty text *)
| Throws             (* [JSON.parse] threw *)
| Parsed (v : A).
Arguments Missing {A}.
Arguments Throws {A}.
Arguments Parsed {A} v.

Definition read {A : Type} (cell : option (Item A)) : Read A :=
  match cell with
  | None => Missing
  | Some (Garbled text) => if JS.truthy text then Throws else Missing
  | Some (Encoded v) => Parsed v
  end.

End Storage.

Import Storage.

(** ** Callbacks of the session manager *)

(** A call the manager makes to one of the callbacks the application set. *)
Inductive Notification : Type :=
| WarningShown (timeRemaining : Z)   (* [{show: true, timeRemaining, ...}] *)
| WarningHidden                      (* [{show: false, timeRemaining: 0, ...}] *)
| SessionExpired.                    (* the session-expired callback *)

(** ** [class SessionManager] *)

Module SessionManager.

Definition SESSION_DURATION : Z := 24 * 60 * 60 * 1000.
Definition WARNING_TIME : Z := 5 * 60 * 1000.
Definition ACTIVITY_THRESHOLD : Z := 30 * 1000.

(** The private fields.  A timer is the time at which its [setTimeout]
    is due; a callback field tells whether the application has set it. *)
Record Fields : Type := mkFields {
  activityTimer : option Z;
  warningTimer : option Z;
  expiryTimer : option Z;
  lastActivityTime : Z;
  sessionWarningCallback : bool;
  sessionExpiredCallback : bool
}.

(** The manager in its environment: the storage it reads and writes, its
    fields, and the calls it has made to its callbacks (latest first). *)
Record World : Type := mkWorld {
  storage : LocalStorage;
  fields : Fields;
  notified : list Notification
}.

Definition with_storage (f : LocalStorage -> LocalStorage) (w : World) : World :=
  mkWorld (f (storage w)) (fields w) (notified w).

Definition with_fields (f : Fields -> Fields) (w : World) : World :=
  mkWorld (storage w) (f (fields w)) (notified w).

Definition notify (n : Notification) (w : World) : World :=
  mkWorld (storage w) (fields w) (n :: notified w).

(** [handleSessionExpired] of [AuthContext.tsx], the callback the
    application sets: besides React state it calls
    [userStorage.clearCurrentUser()]. *)
Definition handleSessionExpired (w : World) : World :=
  with_storage (set_CURRENT_USER_KEY None) (notify SessionExpired w).

(** [clearTimers()] *)
Definition clearTimers (w : World) : World :=
  with_fields (fun f =>
    mkFields None None None (lastActivityTime f)
             (sessionWarningCallback f) (sessionExpiredCallback f)) w.

(** [clearSession()] *)
Definition clearSession (w : World) : World :=
  clearTimers (with_storage (set_SESSION_KEY None) w).

(** [backupWorkInProgress(workData?)] *)
Definition backupWorkInProgress (now : Z) (workData : option WorkInProgress)
  (w : World) : World :=
  match workData with
  | Some d =>
      with_storage (set_WORK_BACKUP_KEY (Some (Encoded
        (mkWorkInProgress (textContent d) (selectedLanguage d)
                          (voiceSettings d) now)))) w
  | None => w
  end.

(** [expireSession()] *)
Definition expireSession (now : Z) (w : World) : World :=
  let w := backupWorkInProgress now None w in
  let w := clearSession w in
  let w := clearTimers w in
  if sessionExpiredCallback (fields w) then handleSessionExpired w else w.

(** [saveSession(sessionData)] *)
Definition saveSession (sessionData : SessionData) (w : World) : World :=
  with_storage (set_SESSION_KEY (Some (Encoded sessionData))) w.

(** [getCurrentSession()] *)
Definition getCurrentSession (now : Z) (w : World) : option SessionData * World :=
  match read (SESSION_KEY (storage w)) with
  | Missing => (None, w)
  | Parsed session =>
      if now >? expiresAt session then (None, expireSession now w)
      else (Some session, w)
  | Throws => (None, clearSession w)
  end.

(** [updateSessionActivity()] *)
Definition updateSessionActivity (now : Z) (w : World) : World :=
  match getCurrentSession now w with
  | (None, w) => w
  | (Some session, w) =>
      let expires :=
        if expiresAt session - now <? SESSION_DURATION / 2
        then now + SESSION_DURATION
        else expiresAt session in
      saveSession
        (mkSessionData (userId session) (email session) (name session)
           (loginTime session) now expires
           (sessionId session) (deviceInfo session)) w
  end.

(** [handleUserActivity()] *)
Definition handleUserActivity (now : Z) (w : World) : World :=
  if now - lastActivityTime (fields w) >? ACTIVITY_THRESHOLD then
    let w := with_fields (fun f =>
      mkFields (activityTimer f) (warningTimer f) (expiryTimer f) now
               (sessionWarningCallback f) (sessionExpiredCallback f)) w in
    updateSessionActivity now w
  else w.

(** [showSessionWarning()] *)
Definition showSessionWarning (now : Z) (w : World) : World :=
  match getCurrentSession now w with
  | (None, w) => w
  | (Some session, w) =>
      let timeRemaining := Z.max 0 (expiresAt session - now) in
      if sessionWarningCallback (fields w)
      then notify (WarningShown timeRemaining) w
      else w
  end.

(** [hideSessionWarning()] *)
Definition hideSessionWarning (w : World) : World :=
  if sessionWarningCallback (fields w) then notify WarningHidden w else w.

(** [startSessionTimers(session)] *)
Definition startSessionTimers (now : Z) (session : SessionData) (w : World) : World :=
  let w := clearTimers w in
  let timeUntilWarning := expiresAt session - now - WARNING_TIME in
  let timeUntilExpiry := expiresAt session - now in
  let w :=
    if timeUntilWarning >? 0 then
      with_fields (fun f =>
        mkFields (activityTimer f) (Some (now + timeUntilWarning)) (expiryTimer f)
                 (lastActivityTime f)
                 (sessionWarningCallback f) (sessionExpiredCallback f)) w
    else if timeUntilExpiry >? 0 then showSessionWarning now w
    else w in
  if timeUntilExpiry >? 0 then
    with_fields (fun f =>
      mkFields (activityTimer f) (warningTimer f) (Some (now + timeUntilExpiry))
               (lastActivityTime f)
               (sessionWarningCallback f) (sessionExpiredCallback f)) w
  else w.

(** [createSession(userId, email, name)]; the generated session id and the
    device descriptor come from the browser and are arguments here. *)
Definition createSession (now : Z) (generatedId device : jsstring)
  (userId email name : jsstring) (w : World) : SessionData * World :=
  let sessionData :=
    mkSessionData userId email name now now (now + SESSION_DURATION)
                  generatedId device in
  let w := saveSession sessionData w in
  let w := startSessionTimers now sessionData w in
  (sessionData, w).

(** [extendSession()] *)
Definition extendSession (now : Z) (w : World) : bool * World :=
  match getCurrentSession now w with
  | (None, w) => (false, w)
  | (Some session, w) =>
      let session :=
        mkSessionData (userId session) (email session) (name session)
          (loginTime session) now (now + SESSION_DURATION)
          (sessionId session) (deviceInfo session) in
      let w := saveSession session w in
      let w := startSessionTimers now session w in
      (true, w)
  end.

(** [checkExistingSession()] *)
Definition checkExistingSession (now : Z) (w : World) : World :=
  match getCurrentSession now w with
  | (Some session, w) => startSessionTimers now session w
  | (None, w) => w
  end.

(** [restoreWorkInProgress()] *)
Definition restoreWorkInProgress (now : Z) (w : World)
  : option WorkInProgress * World :=
  match read (WORK_BACKUP_KEY (storage w)) with
  | Missing => (None, w)
  | Parsed workData =>
      let isRecent := now - timestamp workData <? 24 * 60 * 60 * 1000 in
      (if isRecent then Some workData else None, w)
  | Throws => (None, w)
  end.

(** [clearWorkBackup()] *)
Definition clearWorkBackup (w : World) : World :=
  with_storage (set_WORK_BACKUP_KEY None) w.

(** [getTimeRemaining()] *)
Definition getTimeRemaining (now : Z) (w : World) : Z * World :=
  match getCurrentSession now w with
  | (None, w) => (0, w)
  | (Some session, w) => (Z.max 0 (expiresAt session - now), w)
  end.

(** [formatTimeRemaining(milliseconds)]: [Math.floor] of a quotient by a
    positive constant is [/], and [%] keeps the sign of the dividend, as
    [Z.rem] does. *)
Definition formatTimeRemaining (milliseconds : Z) : jsstring :=
  let hours := milliseconds / (1000 * 60 * 60) in
  let minutes := Z.rem milliseconds (1000 * 60 * 60) / (1000 * 60) in
  if hours >? 0 then
    JS.ofZ hours ++ JS.lit "h " ++ JS.ofZ minutes ++ JS.lit "m"
  else if minutes >? 0 then
    JS.ofZ minutes ++ JS.lit "m"
  else JS.lit "<1m".

(** [isSessionValid()] *)
Definition isSessionValid (now : Z) (w : World) : bool * World :=
  match getCurrentSession now w with
  | (None, w) => (false, w)
  | (Some session, w) => (now <? expiresAt session, w)
  end.

(** The callbacks of the two [setTimeout]s of [startSessionTimers]. *)
Definition warningTimerFires (now : Z) (w : World) : World :=
  showSessionWarning now w.

Definition expiryTimerFires (now : Z) (w : World) : World :=
  expireSession now w.

(** [constructor()]: the fields as they are initialised, the activity
    listeners registered (their calls are [handleUserActivity] above), then
    [checkExistingSession()]. *)
Definition constructor (now : Z) (ls : LocalStorage) : World :=
  checkExistingSession now
    (mkWorld ls (mkFields None None None now false false) []).

End SessionManager.

(** ** [class UserStorageManager]: the readers and the pointer *)

Module UserStorageManager.

(** [getAllUsers()] *)
Definition getAllUsers (ls : LocalStorage) : list StoredUser * LocalStorage :=
  match read (USERS_KEY ls) with
  | Missing => ([], ls)
  | Parsed users => (users, ls)
  | Throws => ([], ls)
  end.

(** [setCurrentUser(user)] *)
Definition setCurrentUser (user : UserProfile) (ls : LocalStorage) : LocalStorage :=
  set_CURRENT_USER_KEY (Some (Encoded user)) ls.

(** [getCurrentUser()] *)
Definition getCurrentUser (ls : LocalStorage) : option UserProfile * LocalStorage :=
  match read (CURRENT_USER_KEY ls) with
  | Missing => (None, ls)
  | Parsed currentUser => (Some currentUser, ls)
  | Throws => (None, ls)
  end.

(** [clearCurrentUser()] *)
Definition clearCurrentUser (ls : LocalStorage) : LocalStorage :=
  set_CURRENT_USER_KEY None ls.

(** [clearAllData()] *)
Definition clearAllData (ls : LocalStorage) : LocalStorage :=
  set_CURRENT_USER_KEY None (set_USERS_KEY None ls).

(** [saveAllUsers(users)] *)
Definition saveAllUsers (users : list StoredUser) (ls : LocalStorage) : LocalStorage :=
  set_USERS_KEY (Some (Encoded users)) ls.

(** [hashPassword(password)]; [None] when [btoa] throws. *)
Definition hashPassword (password : jsstring) : option jsstring :=
  JS.btoa (password ++ JS.lit "voiceverse_salt").

(** [verifyPassword(password, hashedPassword)]; [None] when [btoa] throws. *)
Definition verifyPassword (password hashedPassword : jsstring) : option bool :=
  match hashPassword password with
  | Some hashed => Some (JS.eqb hashed hashedPassword)
  | None => None
  end.

(** What [createUser], [authenticateUser] and [updateUser] return. *)
Record Result : Type := mkResult {
  success : bool;
  error : option jsstring;
  user : option UserProfile
}.

Definition failure (message : jsstring) : Result :=
  mkResult false (Some message) None.

(** The profile of a stored user: the record without its password. *)
Definition profileOf (u : StoredUser) : UserProfile :=
  mkUserProfile (su_id u) (su_email u) (su_name u) (su_createdAt u) (su_updatedAt u).

(** [users[users.findIndex(p)] = f(users[...])]: the first element that
    satisfies [p], replaced. *)
Fixpoint replaceFirst (p : StoredUser -> bool) (f : StoredUser -> StoredUser)
  (users : list StoredUser) : list StoredUser :=
  match users with
  | [] => []
  | u :: rest => if p u then f u :: rest else u :: replaceFirst p f rest
  end.

(** [updateUser(userId, updates)]; [isoNow] is [new Date().toISOString()]. *)
Definition updateUser (isoNow : jsstring) (userId : jsstring)
  (newName : option jsstring) (ls : LocalStorage) : Result * LocalStorage :=
  let nameError :=
    match newName with
    | Some n =>
        if negb (JS.truthy (JS.trim n)) then Some (JS.lit "Full name is required")
        else if JS.length (JS.trim n) <? 2 then
          Some (JS.lit "Full name must be at least 2 characters long")
        else None
    | None => None
    end in
  match nameError with
  | Some message => (failure message, ls)
  | None =>
      let (users, ls) := getAllUsers ls in
      match find (fun u => JS.eqb (su_id u) userId) users with
      | None => (failure (JS.lit "User not found"), ls)
      | Some found =>
          let updated :=
            mkStoredUser (su_id found) (su_email found)
              (match newName with Some n => JS.trim n | None => su_name found end)
              (su_password found) (su_createdAt found) isoNow in
          let ls := saveAllUsers
                      (replaceFirst (fun u => JS.eqb (su_id u) userId)
                         (fun _ => updated) users) ls in
          let (currentUser, ls) := getCurrentUser ls in
          let ls :=
            match currentUser with
            | Some current =>
                if JS.eqb (up_id current) userId
                then setCurrentUser (profileOf updated) ls
                else ls
            | None => ls
            end in
          (mkResult true None (Some (profileOf updated)), ls)
      end
  end.

(** The methods that compare e-mail addresses call
    [String.prototype.toLowerCase], whose case table belongs to the
    JavaScript engine: it is a parameter here. *)
Section CaseFolding.

Variable toLowerCase : jsstring -> jsstring.

(** [emailExists(email)] *)
Definition emailExists (email : jsstring) (ls : LocalStorage) : bool * LocalStorage :=
  let (users, ls) := getAllUsers ls in
  (existsb (fun u => JS.eqb (toLowerCase (su_email u)) (toLowerCase email)) users, ls).

(** [createUser(name, email, password)]; [generatedId] is what
    [generateUserId()] makes of the clock and [Math.random()], [isoNow] is
    [new Date().toISOString()]. *)
Definition createUser (generatedId isoNow : jsstring)
  (name email password : jsstring) (ls : LocalStorage) : Result * LocalStorage :=
  if negb (JS.truthy (JS.trim name)) then
    (failure (JS.lit "Full name is required"), ls)
  else if JS.length (JS.trim name) <? 2 then
    (failure (JS.lit "Full name must be at least 2 characters long"), ls)
  else if negb (JS.truthy (JS.trim email)) then
    (failure (JS.lit "Email address is required"), ls)
  else if negb (JS.includes email (JS.lit "@"))
          || negb (JS.includes email (JS.lit ".")) then
    (failure (JS.lit "Please enter a valid email address"), ls)
  else if negb (JS.truthy password) then
    (failure (JS.lit "Password is required"), ls)
  else if JS.length password <? 6 then
    (failure (JS.lit "Password must be at least 6 characters long"), ls)
  else
    let (taken, ls) := emailExists email ls in
    if taken then
      (failure (JS.lit "An account with this email address already exists"), ls)
    else
      let (users, ls) := getAllUsers ls in
      match hashPassword password with
      | None => (failure (JS.lit "Failed to create account. Please try again."), ls)
      | Some hashed =>
          let newUser :=
            mkStoredUser generatedId (JS.trim (toLowerCase email)) (JS.trim name)
              hashed isoNow isoNow in
          let ls := saveAllUsers (users ++ [newUser]) ls in
          (mkResult true None (Some (profileOf newUser)), ls)
      end.

(** [authenticateUser(email, password)] *)
Definition authenticateUser (email password : jsstring) (ls : LocalStorage)
  : Result * LocalStorage :=
  if negb (JS.truthy (JS.trim email)) then
    (failure (JS.lit "Please enter your email address"), ls)
  else if negb (JS.truthy password) then
    (failure (JS.lit "Please enter your password"), ls)
  else
    let (users, ls) := getAllUsers ls in
    match find (fun u => JS.eqb (toLowerCase (su_email u))
                           (JS.trim (toLowerCase email))) users with
    | None => (failure (JS.lit "No account found with this email address"), ls)
    | Some found =>
        match verifyPassword password (su_password found) with
        | None => (failure (JS.lit "Authentication failed. Please try again."), ls)
        | Some false => (failure (JS.lit "Incorrect password. Please try again."), ls)
        | Some true => (mkResult true None (Some (profileOf found)), ls)
        end
    end.

End CaseFolding.

End UserStorageManager.

(** ** [AuthContext.tsx]: the provider's use of the two managers *)

Module AuthContext.

(** The React state of the provider that the flows below set. *)
Record State : Type := mkState {
  user : option UserProfile;
  isAuthenticated : bool;
  isLoading : bool
}.

(** The state a provider starts with. *)
Definition initialState : State := mkState None false true.

(** What [login], [signup] and [updateProfile] resolve to. *)
Record Outcome : Type := mkOutcome {
  success : bool;
  error : option jsstring
}.

(** The two [set...Callback] calls that open the effect of the provider. *)
Definition registerCallbacks (w : SessionManager.World) : SessionManager.World :=
  SessionManager.with_fields (fun f =>
    SessionManager.mkFields
      (SessionManager.activityTimer f) (SessionManager.warningTimer f)
      (SessionManager.expiryTimer f) (SessionManager.lastActivityTime f)
      true true) w.

(** [initializeAuth()], run on the state a provider starts with. *)
Definition initializeAuth (now : Z) (w : SessionManager.World)
  : State * SessionManager.World :=
  let stale (w : SessionManager.World) :=
    let w := SessionManager.clearSession w in
    let w := SessionManager.with_storage UserStorageManager.clearCurrentUser w in
    (mkState None false false, w) in
  let (currentSession, w) := SessionManager.getCurrentSession now w in
  let (currentUser, ls) := UserStorageManager.getCurrentUser (SessionManager.storage w) in
  let w := SessionManager.with_storage (fun _ => ls) w in
  match currentSession, currentUser with
  | Some _, Some u =>
      let (valid, w) := SessionManager.isSessionValid now w in
      if valid then (mkState (Some u) true false, w) else stale w
  | _, _ => stale w
  end.

(** The effect of the provider when it mounts. *)
Definition mount (now : Z) (w : SessionManager.World)
  : State * SessionManager.World :=
  initializeAuth now (registerCallbacks w).

(** [logout()]; it sets the warning state to hidden with the setter the
    manager holds as its warning callback. *)
Definition logout (a : State) (w : SessionManager.World)
  : State * SessionManager.World :=
  let w := SessionManager.clearSession w in
  let w := SessionManager.with_storage UserStorageManager.clearCurrentUser w in
  (mkState None false (isLoading a), SessionManager.notify WarningHidden w).

Section CaseFolding.

Variable toLowerCase : jsstring -> jsstring.

(** What [login] and [signup] do with the result of the profile store. *)
Definition enter (now : Z) (sessionId device : jsstring)
  (result : UserStorageManager.Result) (a : State) (w : SessionManager.World)
  : Outcome * State * SessionManager.World :=
  match UserStorageManager.success result, UserStorageManager.user result with
  | true, Some u =>
      let (_, w) := SessionManager.createSession now sessionId device
                      (up_id u) (up_email u) (up_name u) w in
      let w := SessionManager.with_storage (UserStorageManager.setCurrentUser u) w in
      (mkOutcome true None, mkState (Some u) true (isLoading a), w)
  | _, _ => (mkOutcome false (UserStorageManager.error result), a, w)
  end.

(** [login(email, password)] *)
Definition login (now : Z) (sessionId device : jsstring)
  (email password : jsstring) (a : State) (w : SessionManager.World)
  : Outcome * State * SessionManager.World :=
  let (result, ls) := UserStorageManager.authenticateUser toLowerCase email password
                        (SessionManager.storage w) in
  enter now sessionId device result a (SessionManager.with_storage (fun _ => ls) w).

(** [signup(name, email, password)] *)
Definition signup (now : Z) (userId isoNow sessionId device : jsstring)
  (name email password : jsstring) (a : State) (w : SessionManager.World)
  : Outcome * State * SessionManager.World :=
  let (result, ls) := UserStorageManager.createUser toLowerCase userId isoNow
                        name email password (SessionManager.storage w) in
  enter now sessionId device result a (SessionManager.with_storage (fun _ => ls) w).

End CaseFolding.

(** [updateProfile(updates)] *)
Definition updateProfile (isoNow : jsstring) (newName : jsstring)
  (a : State) (w : SessionManager.World)
  : Outcome * State * SessionManager.World :=
  match user a with
  | None => (mkOutcome false (Some (JS.lit "No user logged in")), a, w)
  | Some u =>
      let (result, ls) := UserStorageManager.updateUser isoNow (up_id u)
                            (Some newName) (SessionManager.storage w) in
      let w := SessionManager.with_storage (fun _ => ls) w in
      match UserStorageManager.success result, UserStorageManager.user result with
      | true, Some u' =>
          (mkOutcome true None, mkState (Some u') (isAuthenticated a) (isLoading a), w)
      | _, _ => (mkOutcome false (UserStorageManager.error result), a, w)
      end
  end.

End AuthContext.

(** ** The network, as both API clients see it *)

Module Http.

(** A thrown JavaScript [Error]. *)
Record Error : Type := mkError {
  err_name : jsstring;
  err_message : jsstring
}.

(** The properties the clients read off a parsed response body. *)
Record Payload : Type := mkPayload {
  p_error : option jsstring;
  p_message : option jsstring;
  p_detail : option jsstring;
  p_conversation_id : option jsstring;
  p_conversation_url : option jsstring;
  p_status : option jsstring;
  p_participants : option Z;
  p_duration : option Z;
  p_expires_at : option jsstring;
  p_translated_text : option jsstring;
  p_detected_language : option jsstring
}.

Definition noPayload : Payload :=
  mkPayload None None None None None None None None None None None.

(** A response body: a text that is not JSON (with the message of the
    [SyntaxError] parsing it raises), the JSON [null], or a JSON value whose
    properties can be read. *)
Inductive Body : Type :=
| NotJson (text : jsstring) (syntaxError : jsstring)
| JsonNull
| JsonValue (o : Payload).

(** What one [fetch] comes to: a response, or a rejection. *)
Inductive Outcome : Type :=
| Response (status : Z) (body : Body)
| Rejected (e : Error).

(** One [fetch]: how long it takes, and its outcome if it is not aborted. *)
Record Exchange : Type := mkExchange {
  took : Z;
  outcome : Outcome
}.

(** The network answers the [k]-th [fetch] issued. *)
Definition Network : Type := nat -> Exchange.

Inductive Method : Type := GET | POST | DELETE.

(** [response.ok] *)
Definition ok (status : Z) : bool := (200 <=? status) && (status <=? 299).

(** The rejection of a [fetch] whose [AbortController] fired. *)
Definition abortError : Error :=
  mkError (JS.lit "AbortError") (JS.lit "signal is aborted without reason").

(** Reading a property of [null]. *)
Definition nullPropertyError : Error :=
  mkError (JS.lit "TypeError") (JS.lit "Cannot read properties of null").

(** What a value a method gives: it returns, or it throws. *)
Inductive Completion (A : Type) : Type :=
| Returns (v : A)
| Raises (e : Error).
Arguments Returns {A} v.
Arguments Raises {A} e.

(** What one pass through the body of [makeRequest] decides: the call is
    settled, or it waits and calls itself with [attempt + 1]. *)
Inductive Pass (A : Type) : Type :=
| Settled (c : Completion A)
| RetryAfter (ms : Z).
Arguments Settled {A} c.
Arguments RetryAfter {A} ms.

End Http.

Import Http.

(** ** [class TavusAPI] *)

Module TavusAPI.

Definition timeout : Z := 30000.
Definition maxRetries : nat := 3.
Definition retryDelay : Z := 2000.
Definition rateLimit : Z := 50.

(** [interface ConversationRequest]; [properties] only travels to the
    provider. *)
Record ConversationRequest : Type := mkConversationRequest {
  replica_id : jsstring;
  conversation_name : jsstring;
  custom_greeting : jsstring;
  conversational_context : option jsstring
}.

(** [interface ConversationResponse] *)
Record ConversationResponse : Type := mkConversationResponse {
  success : bool;
  conversation_id : option jsstring;
  conversation_url : option jsstring;
  status : option jsstring;
  error : option jsstring;
  expires_at : option jsstring
}.

(** [interface ConversationStatus] *)
Record ConversationStatus : Type := mkConversationStatus {
  cs_conversation_id : jsstring;
  cs_status : option jsstring;
  cs_conversation_url : option jsstring;
  cs_participants : Z;
  cs_duration : Z;
  cs_error : option jsstring;
  cs_expires_at : option jsstring
}.

(** [interface ConversationUsage] *)
Record ConversationUsage : Type := mkConversationUsage {
  total_minutes_used : Z;
  total_minutes_available : Z;
  remaining_minutes : Z;
  current_month_usage : Z
}.

(** The mutable fields of the client. *)
Record Fields : Type := mkFields {
  requestCount : Z;
  lastResetTime : Z;
  conversationUsage : ConversationUsage
}.

(** The client in its environment: its fields, the clock, and the requests
    it has put on the network (latest first). *)
Record World : Type := mkWorld {
  fields : Fields;
  clock : Z;
  sent : list (Method * jsstring)
}.

Definition failure (message : jsstring) : ConversationResponse :=
  mkConversationResponse false None None None (Some message) None.

(** [checkRateLimit()] *)
Definition checkRateLimit (now : Z) (f : Fields) : bool * Fields :=
  let f :=
    if now - lastResetTime f >=? 1000 * 60 * 60
    then mkFields 0 now (conversationUsage f)
    else f in
  (requestCount f <? rateLimit, f).

(** [validateConversationRequest(request)]: the error of the request, if
    it has one. *)
Definition validateConversationRequest (request : ConversationRequest)
  : option jsstring :=
  if negb (JS.truthy (replica_id request))
     || (JS.length (JS.trim (replica_id request)) =? 0) then
    Some (JS.lit "Replica ID is required for conversation creation")
  else if negb (JS.truthy (conversation_name request))
     || (JS.length (JS.trim (conversation_name request)) =? 0) then
    Some (JS.lit "Conversation name is required")
  else if negb (JS.truthy (custom_greeting request))
     || (JS.length (JS.trim (custom_greeting request)) =? 0) then
    Some (JS.lit "Custom greeting is required for conversation")
  else if JS.length (custom_greeting request) >? 500 then
    Some (JS.lit "Custom greeting exceeds maximum length of 500 characters")
  else if match conversational_context request with
          | Some context => JS.truthy context && (JS.length context >? 2000)
          | None => false
          end then
    Some (JS.lit "Conversational context exceeds maximum length of 2000 characters")
  else None.

(** The message [makeRequest] makes of a response that is not [ok]. *)
Definition httpErrorMessage (status : Z) (body : Body) : jsstring :=
  let fallback := JS.lit "Conversation request failed" in
  let errorMessage :=
    match body with
    | JsonValue o =>
        JS.or_else (p_error o)
          (JS.or_else (p_message o) (JS.or_else (p_detail o) fallback))
    | JsonNull => JS.lit "null"
    | NotJson text _ => JS.or_else (Some text) fallback
    end in
  if status =? 401 then
    JS.lit "Invalid API key. Please check your Tavus API key."
  else if status =? 429 then
    JS.lit "Rate limit exceeded. Please try again later."
  else if status =? 400 then
    JS.lit "Invalid request parameters: " ++ errorMessage
  else if status =? 402 then
    JS.lit "Insufficient credits or conversation minutes. Please check your Tavus account."
  else if status =? 404 then
    JS.lit "Replica not found. Please check your replica ID."
  else if (status =? 500) || (status =? 502) || (status =? 503) || (status =? 504) then
    JS.lit "Tavus service is temporarily unavailable. Please try again later."
  else errorMessage.

(** The [catch] block of [makeRequest]. *)
Definition caught (attempt : nat) (e : Error) : Pass (option Payload) :=
  if JS.eqb (err_name e) (JS.lit "AbortError") then
    if (attempt <=? maxRetries)%nat
    then RetryAfter (retryDelay * Z.of_nat attempt)
    else Settled (Raises (mkError (JS.lit "Error")
           (JS.lit "Conversation request timed out. Please try again.")))
  else if JS.includes (err_message e) (JS.lit "Failed to fetch")
       || JS.includes (err_message e) (JS.lit "NetworkError") then
    if (attempt <=? maxRetries)%nat
    then RetryAfter (retryDelay * Z.of_nat attempt)
    else Settled (Raises (mkError (JS.lit "Error")
           (JS.lit "Unable to connect to conversation service. Please check your internet connection.")))
  else Settled (Raises e).

(** The [try] block of [makeRequest] once the [fetch] has come back; a value
    of [None] is the JSON [null]. *)
Definition answered (attempt : nat) (o : Outcome) : Pass (option Payload) :=
  match o with
  | Rejected e => caught attempt e
  | Response status body =>
      if negb (ok status) then
        if (status >=? 500) && (attempt <=? maxRetries)%nat
        then RetryAfter (retryDelay * Z.of_nat attempt)
        else caught attempt
               (mkError (JS.lit "Error") (httpErrorMessage status body))
      else if status =? 204 then Settled (Returns (Some noPayload))
      else match body with
           | JsonValue o => Settled (Returns (Some o))
           | JsonNull => Settled (Returns None)
           | NotJson _ why => caught attempt (mkError (JS.lit "SyntaxError") why)
           end
  end.

(** One pass through [makeRequest(endpoint, method, body, apiKey, attempt)],
    up to the point where it returns, throws, or is about to wait and call
    itself. *)
Definition pass (net : Network) (endpoint : jsstring) (method : Method)
  (attempt : nat) (w : World) : Pass (option Payload) * World :=
  let (withinLimit, f) := checkRateLimit (clock w) (fields w) in
  if negb withinLimit then
    (Settled (Raises (mkError (JS.lit "Error")
        (JS.lit "Rate limit exceeded. Please try again later."))),
     mkWorld f (clock w) (sent w))
  else
    let f := mkFields (requestCount f + 1) (lastResetTime f) (conversationUsage f) in
    let exchange := net (List.length (sent w)) in
    let sent' := (method, endpoint) :: sent w in
    if took exchange >=? timeout then
      (caught attempt abortError, mkWorld f (clock w + timeout) sent')
    else
      (answered attempt (outcome exchange),
       mkWorld f (clock w + took exchange) sent').

(** [delay(ms)] *)
Definition delay (ms : Z) (w : World) : World :=
  mkWorld (fields w) (clock w + ms) (sent w).

(** [makeRequest(endpoint, method, body, apiKey, attempt)] *)
Equations? makeRequest (net : Network) (endpoint : jsstring) (method : Method)
  (attempt : nat) (w : World) : Completion (option Payload) * World
  by wf (S maxRetries - attempt)%nat lt :=
makeRequest net endpoint method attempt w
  with inspect (pass net endpoint method attempt w) := {
  | exist _ (Settled c, w') _ := (c, w');
  | exist _ (RetryAfter ms, w') _ :=
      makeRequest net endpoint method (S attempt) (delay ms w') }.
Proof.
  assert (Hle : (attempt <= maxRetries)%nat).
  { unfold pass in e.
    destruct (checkRateLimit (clock w) (fields w)) as [withinLimit f].
    assert (Hc : forall x, caught attempt x = RetryAfter ms ->
                           (attempt <= maxRetries)%nat).
    { intros x Hx. unfold caught in Hx.
      destruct (attempt <=? maxRetries)%nat eqn:Hb;
        [ apply Nat.leb_le; exact Hb | ].
      repeat match type of Hx with
             | (if ?b then _ else _) = _ => destruct b
             end; discriminate. }
    destruct (negb withinLimit); [ discriminate | ].
    destruct (took (net (List.length (sent w))) >=? timeout).
    - inversion e; subst. eapply Hc; eassumption.
    - inversion e as [[Ha Hw]]. clear Hw e.
      unfold answered in Ha.
      destruct (outcome (net (List.length (sent w)))) as [st body | x];
        [ | eapply Hc; eassumption ].
      destruct (negb (ok st)).
      + destruct (attempt <=? maxRetries)%nat eqn:Hb;
          [ apply Nat.leb_le; exact Hb | ].
        rewrite andb_false_r in Ha. eapply Hc; eassumption.
      + destruct (st =? 204); [ discriminate | ].
        destruct body; try discriminate. eapply Hc; eassumption. }
  unfold maxRetries in *.
  destruct attempt as [|[|[|[|n]]]]; simpl; lia.
Qed.

(** [updateUsageTracking()] *)
Definition updateUsageTracking (w : World) : World :=
  let f := fields w in
  let u := conversationUsage f in
  mkWorld
    (mkFields (requestCount f) (lastResetTime f)
       (mkConversationUsage (total_minutes_used u) (total_minutes_available u)
          (remaining_minutes u) (current_month_usage u + 1)))
    (clock w) (sent w).

(** [createConversation(request)].  The body it sends (the trimmed fields,
    the context it formats and the greeting it derives) reaches the provider
    only; the network above answers by the order of the requests. *)
Definition createConversation (net : Network) (request : ConversationRequest)
  (w : World) : ConversationResponse * World :=
  match validateConversationRequest request with
  | Some message => (failure message, w)
  | None =>
      if remaining_minutes (conversationUsage (fields w)) <=? 0 then
        (failure (JS.lit
           "No conversation minutes remaining. Please check your Tavus account."), w)
      else
        match makeRequest net (JS.lit "/conversations") POST 1 w with
        | (Returns (Some data), w) =>
            let w := updateUsageTracking w in
            (mkConversationResponse true
               (p_conversation_id data) (p_conversation_url data)
               (Some (JS.or_else (p_status data) (JS.lit "creating")))
               None (p_expires_at data), w)
        | (Returns None, w) => (failure (err_message nullPropertyError), w)
        | (Raises e, w) => (failure (err_message e), w)
        end
  end.

(** [a || 0] on a number that may be [undefined]. *)
Definition or_zero (a : option Z) : Z :=
  match a with Some n => n | None => 0 end.

(** [getConversationStatus(conversationId)] *)
Definition getConversationStatus (net : Network) (conversationId : jsstring)
  (w : World) : option ConversationStatus * World :=
  match makeRequest net (JS.lit "/conversations/" ++ conversationId) GET 1 w with
  | (Returns (Some data), w) =>
      (Some (mkConversationStatus conversationId (p_status data)
               (p_conversation_url data)
               (or_zero (p_participants data)) (or_zero (p_duration data))
               (p_error data) (p_expires_at data)), w)
  | (Returns None, w) => (None, w)
  | (Raises _, w) => (None, w)
  end.

(** [getUsageStats()]; [resetTime] is the time the [Date] holds. *)
Record UsageStats : Type := mkUsageStats {
  us_requestCount : Z;
  us_remainingRequests : Z;
  us_resetTime : Z
}.

Definition getUsageStats (f : Fields) : UsageStats :=
  mkUsageStats (requestCount f) (Z.max 0 (rateLimit - requestCount f))
    (lastResetTime f + 60 * 60 * 1000).

(** [resetUsageStats()] *)
Definition resetUsageStats (now : Z) (f : Fields) : Fields :=
  mkFields 0 now (conversationUsage f).

(** [Partial<ConversationUsage>] *)
Record PartialUsage : Type := mkPartialUsage {
  pu_total_minutes_used : option Z;
  pu_total_minutes_available : option Z;
  pu_remaining_minutes : option Z;
  pu_current_month_usage : option Z
}.

(** [getConversationUsage()] *)
Definition getConversationUsage (f : Fields) : ConversationUsage :=
  conversationUsage f.

(** [updateConversationUsage(usage)] *)
Definition updateConversationUsage (usage : PartialUsage) (f : Fields) : Fields :=
  let u := conversationUsage f in
  let pick (given : option Z) (old : Z) :=
    match given with Some v => v | None => old end in
  let used := pick (pu_total_minutes_used usage) (total_minutes_used u) in
  let available :=
    pick (pu_total_minutes_available usage) (total_minutes_available u) in
  mkFields (requestCount f) (lastResetTime f)
    (mkConversationUsage used available (available - used)
       (pick (pu_current_month_usage usage) (current_month_usage u))).

(** [maskApiKey(apiKey)] *)
Definition maskApiKey (apiKey : jsstring) : jsstring :=
  if negb (JS.truthy apiKey) || (JS.length apiKey <=? 8) then JS.lit "***"
  else
    JS.substring apiKey 0 4
    ++ JS.repeat (JS.lit "*") (Z.max 0 (JS.length apiKey - 8))
    ++ JS.substring apiKey (JS.length apiKey - 4) (JS.length apiKey).

(** [static formatDuration(seconds)], for a whole number of seconds. *)
Definition formatDuration (seconds : Z) : jsstring :=
  let hours := seconds / 3600 in
  let minutes := Z.rem seconds 3600 / 60 in
  let secs := Z.rem seconds 60 in
  if hours >? 0 then
    JS.ofZ hours ++ JS.lit "h " ++ JS.ofZ minutes ++ JS.lit "m "
    ++ JS.ofZ secs ++ JS.lit "s"
  else if minutes >? 0 then
    JS.ofZ minutes ++ JS.lit "m " ++ JS.ofZ secs ++ JS.lit "s"
  else JS.ofZ secs ++ JS.lit "s".

End TavusAPI.

(** ** [class LingoAPI] *)

Module LingoAPI.

Definition timeout : Z := 10000.
Definition maxRetries : nat := 3.
Definition retryDelay : Z := 2000.
Definition rateLimit : Z := 100.

(** [interface TranslationRequest] *)
Record TranslationRequest : Type := mkTranslationRequest {
  text : jsstring;
  target_language : jsstring;
  source_language : option jsstring
}.

(** [interface TranslationResponse] *)
Record TranslationResponse : Type := mkTranslationResponse {
  success : bool;
  translated_text : option jsstring;
  error : option jsstring;
  detected_language : option jsstring
}.

(** [interface LanguageOption]; the flag and the native name are given by
    their code units. *)
Record LanguageOption : Type := mkLanguageOption {
  code : jsstring;
  name : jsstring;
  flag : jsstring;
  nativeName : jsstring
}.

Definition supportedLanguages : list LanguageOption := [
  mkLanguageOption (JS.lit "en") (JS.lit "English")
    ([55356; 56826; 55356; 56824]%N)
    (JS.lit "English");
  mkLanguageOption (JS.lit "es") (JS.lit "Spanish")
    ([55356; 56810; 55356; 56824]%N)
    ([69; 115; 112; 97; 241; 111; 108]%N);
  mkLanguageOption (JS.lit "fr") (JS.lit "French")
    ([55356; 56811; 55356; 56823]%N)
    ([70; 114; 97; 110; 231; 97; 105; 115]%N);
  mkLanguageOption (JS.lit "de") (JS.lit "German")
    ([55356; 56809; 55356; 56810]%N)
    (JS.lit "Deutsch");
  mkLanguageOption (JS.lit "it") (JS.lit "Italian")
    ([55356; 56814; 55356; 56825]%N)
    (JS.lit "Italiano");
  mkLanguageOption (JS.lit "pt") (JS.lit "Portuguese")
    ([55356; 56807; 55356; 56823]%N)
    ([80; 111; 114; 116; 117; 103; 117; 234; 115]%N);
  mkLanguageOption (JS.lit "ja") (JS.lit "Japanese")
    ([55356; 56815; 55356; 56821]%N)
    ([26085; 26412; 35486]%N);
  mkLanguageOption (JS.lit "ko") (JS.lit "Korean")
    ([55356; 56816; 55356; 56823]%N)
    ([54620; 44397; 50612]%N);
  mkLanguageOption (JS.lit "zh") (JS.lit "Chinese")
    ([55356; 56808; 55356; 56819]%N)
    ([20013; 25991]%N);
  mkLanguageOption (JS.lit "ar") (JS.lit "Arabic")
    ([55356; 56824; 55356; 56806]%N)
    ([1575; 1604; 1593; 1585; 1576; 1610; 1577]%N)
].

(** The mutable fields of the client. *)
Record Fields : Type := mkFields {
  requestCount : Z;
  lastResetTime : Z
}.

(** The client in its environment: its fields, the clock, and the number of
    requests it has put on the network. *)
Record World : Type := mkWorld {
  fields : Fields;
  clock : Z;
  sent : nat
}.

Definition failure (message : jsstring) : TranslationResponse :=
  mkTranslationResponse false None (Some message) None.

(** [getLanguageByCode(code)] *)
Definition getLanguageByCode (c : jsstring) : option LanguageOption :=
  find (fun lang => JS.eqb (code lang) c) supportedLanguages.

(** [checkRateLimit()] *)
Definition checkRateLimit (now : Z) (f : Fields) : bool * Fields :=
  let f :=
    if now - lastResetTime f >=? 1000 * 60 * 60
    then mkFields 0 now
    else f in
  (requestCount f <? rateLimit, f).

(** [validateRequest(request)]: the error of the request, if it has one. *)
Definition validateRequest (request : TranslationRequest) : option jsstring :=
  if negb (JS.truthy (text request))
     || (JS.length (JS.trim (text request)) =? 0) then
    Some (JS.lit "Text content is required for translation")
  else if JS.length (text request) >? 1000 then
    Some (JS.lit "Text content exceeds maximum length of 1000 characters")
  else if negb (JS.truthy (target_language request)) then
    Some (JS.lit "Target language is required")
  else
    match getLanguageByCode (target_language request) with
    | None => Some (JS.lit "Unsupported target language")
    | Some _ =>
        match source_language request with
        | Some source =>
            if JS.truthy source then
              match getLanguageByCode source with
              | None => Some (JS.lit "Unsupported source language")
              | Some _ => None
              end
            else None
        | None => None
        end
    end.

(** The message [makeRequest] makes of a response that is not [ok]. *)
Definition httpErrorMessage (status : Z) (body : Body) : jsstring :=
  let fallback := JS.lit "Translation request failed" in
  let errorMessage :=
    match body with
    | JsonValue o => JS.or_else (p_error o) (JS.or_else (p_message o) fallback)
    | JsonNull => JS.lit "null"
    | NotJson raw _ => JS.or_else (Some raw) fallback
    end in
  if status =? 401 then
    JS.lit "Invalid API key. Please check your Lingo.dev API key."
  else if status =? 429 then
    JS.lit "Rate limit exceeded. Please try again later."
  else if status =? 400 then
    JS.lit "Invalid request parameters: " ++ errorMessage
  else if (status =? 500) || (status =? 502) || (status =? 503) || (status =? 504) then
    JS.lit "Lingo.dev service is temporarily unavailable. Please try again later."
  else errorMessage.

(** The [catch] block of [makeRequest]. *)
Definition caught (attempt : nat) (e : Error) : Pass TranslationResponse :=
  if JS.eqb (err_name e) (JS.lit "AbortError") then
    if (attempt <=? maxRetries)%nat
    then RetryAfter (retryDelay * Z.of_nat attempt)
    else Settled (Returns (failure
           (JS.lit "Translation request timed out. Please try again.")))
  else if JS.includes (err_message e) (JS.lit "Failed to fetch")
       || JS.includes (err_message e) (JS.lit "NetworkError") then
    if (attempt <=? maxRetries)%nat
    then RetryAfter (retryDelay * Z.of_nat attempt)
    else Settled (Returns (failure
           (JS.lit "Unable to connect to translation service. Please check your internet connection.")))
  else Settled (Returns (failure
         (JS.lit "An unexpected error occurred during translation. Please try again."))).

(** The [try] block of [makeRequest] once the [fetch] has come back. *)
Definition answered (attempt : nat) (o : Outcome) : Pass TranslationResponse :=
  match o with
  | Rejected e => caught attempt e
  | Response status body =>
      if negb (ok status) then
        if (status >=? 500) && (attempt <=? maxRetries)%nat
        then RetryAfter (retryDelay * Z.of_nat attempt)
        else Settled (Returns (failure (httpErrorMessage status body)))
      else match body with
           | JsonValue data =>
               match p_translated_text data with
               | Some translated =>
                   if JS.truthy translated then
                     Settled (Returns (mkTranslationResponse true
                       (Some translated) None (p_detected_language data)))
                   else Settled (Returns (failure
                     (JS.lit "Invalid response format from translation service")))
               | None => Settled (Returns (failure
                     (JS.lit "Invalid response format from translation service")))
               end
           | JsonNull => caught attempt nullPropertyError
           | NotJson _ why => caught attempt (mkError (JS.lit "SyntaxError") why)
           end
  end.

(** One pass through [makeRequest(request, apiKey, attempt)], up to the
    point where it returns, throws, or is about to wait and call itself. *)
Definition pass (net : Network) (attempt : nat) (w : World)
  : Pass TranslationResponse * World :=
  let (withinLimit, f) := checkRateLimit (clock w) (fields w) in
  if negb withinLimit then
    (Settled (Raises (mkError (JS.lit "Error")
        (JS.lit "Rate limit exceeded. Please try again later."))),
     mkWorld f (clock w) (sent w))
  else
    let f := mkFields (requestCount f + 1) (lastResetTime f) in
    let exchange := net (sent w) in
    if took exchange >=? timeout then
      (caught attempt abortError, mkWorld f (clock w + timeout) (S (sent w)))
    else
      (answered attempt (outcome exchange),
       mkWorld f (clock w + took exchange) (S (sent w))).

(** [delay(ms)] *)
Definition delay (ms : Z) (w : World) : World :=
  mkWorld (fields w) (clock w + ms) (sent w).

(** [makeRequest(request, apiKey, attempt)] *)
Equations? makeRequest (net : Network) (attempt : nat) (w : World)
  : Completion TranslationResponse * World
  by wf (S maxRetries - attempt)%nat lt :=
makeRequest net attempt w with inspect (pass net attempt w) := {
  | exist _ (Settled c, w') _ := (c, w');
  | exist _ (RetryAfter ms, w') _ := makeRequest net (S attempt) (delay ms w') }.
Proof.
  assert (Hle : (attempt <= maxRetries)%nat).
  { unfold pass in e.
    destruct (checkRateLimit (clock w) (fields w)) as [withinLimit f].
    assert (Hc : forall x, caught attempt x = RetryAfter ms ->
                           (attempt <= maxRetries)%nat).
    { intros x Hx. unfold caught in Hx.
      destruct (attempt <=? maxRetries)%nat eqn:Hb;
        [ apply Nat.leb_le; exact Hb | ].
      repeat match type of Hx with
             | (if ?b then _ else _) = _ => destruct b
             end; discriminate. }
    destruct (negb withinLimit); [ discriminate | ].
    destruct (took (net (sent w)) >=? timeout).
    - inversion e; subst. eapply Hc; eassumption.
    - inversion e as [[Ha Hw]]. clear Hw e.
      unfold answered in Ha.
      destruct (outcome (net (sent w))) as [st body | x];
        [ | eapply Hc; eassumption ].
      destruct (negb (ok st)).
      + destruct (attempt <=? maxRetries)%nat eqn:Hb;
          [ apply Nat.leb_le; exact Hb | ].
        rewrite andb_false_r in Ha. discriminate.
      + destruct body as [raw why | | data]; try (eapply Hc; eassumption).
        destruct (p_translated_text data) as [t|]; [ | discriminate ].
        destruct (JS.truthy t); discriminate. }
  unfold maxRetries in *.
  destruct attempt as [|[|[|[|n]]]]; simpl; lia.
Qed.

(** [translateText(request)] *)
Definition translateText (net : Network) (request : TranslationRequest)
  (w : World) : TranslationResponse * World :=
  match validateRequest request with
  | Some message => (failure message, w)
  | None =>
      if match source_language request with
         | Some source =>
             JS.truthy source && JS.eqb source (target_language request)
         | None => false
         end
      then
        (mkTranslationResponse true (Some (text request)) None
           (source_language request), w)
      else
        match makeRequest net 1 w with
        | (Returns result, w) => (result, w)
        | (Raises _, w) =>
            (failure (JS.lit
               "An unexpected error occurred during translation. Please try again."), w)
        end
  end.

(** [getUsageStats()]; [resetTime] is the time the [Date] holds. *)
Record UsageStats : Type := mkUsageStats {
  us_requestCount : Z;
  us_remainingRequests : Z;
  us_resetTime : Z
}.

Definition getUsageStats (f : Fields) : UsageStats :=
  mkUsageStats (requestCount f) (Z.max 0 (rateLimit - requestCount f))
    (lastResetTime f + 60 * 60 * 1000).

(** [resetUsageStats()] *)
Definition resetUsageStats (now : Z) (f : Fields) : Fields :=
  mkFields 0 now.

End LingoAPI.

(** ** [class LingoValidator] *)

Module LingoValidator.

Definition VALIDATION_TIMEOUT : Z := 10000.
Definition MAX_RETRIES : nat := 2.
Definition RETRY_DELAY : Z := 1000.
Definition MIN_VALIDATION_INTERVAL : Z := 2000.

Inductive ErrorType : Type := format | auth | network.

(** [interface ValidationResult] *)
Record ValidationResult : Type := mkValidationResult {
  isValid : bool;
  errorType : option ErrorType;
  message : jsstring
}.

(** The validator in its environment: its field, the clock, and the
    number of requests it has put on the network. *)
Record World : Type := mkWorld {
  lastValidationTime : Z;
  clock : Z;
  sent : nat
}.

(** A member of the class [[a-zA-Z0-9]]; under the flag [i] (without [u])
    a code unit outside ASCII is never folded onto an ASCII one, so the
    class matches these code units and no other. *)
Definition isAlphanumeric (c : N) : bool :=
  ((48 <=? c) && (c <=? 57) || (65 <=? c) && (c <=? 90)
   || (97 <=? c) && (c <=? 122))%N.

(** A pattern letter under the flag [i]: the letter or its capital. *)
Definition letter (lower c : N) : bool := ((c =? lower) || (c =? lower - 32))%N.

(** [apiKeyFormat.test(s)] for [/^api_[a-zA-Z0-9]+$/i]. *)
Definition apiKeyFormat_test (s : jsstring) : bool :=
  match s with
  | a :: p :: i :: u :: rest =>
      letter 97 a && letter 112 p && letter 105 i && (u =? 95)%N
      && JS.truthy rest && forallb isAlphanumeric rest
  | _ => false
  end.

(** [validateFormat(apiKey)] *)
Definition validateFormat (apiKey : jsstring) : ValidationResult :=
  if negb (JS.truthy apiKey) then
    mkValidationResult false (Some format) (JS.lit "API key is required")
  else
    let trimmedKey := JS.trim apiKey in
    if JS.length trimmedKey =? 0 then
      mkValidationResult false (Some format) (JS.lit "API key cannot be empty")
    else if apiKeyFormat_test trimmedKey then
      mkValidationResult true None (JS.lit "Valid API key format")
    else
      mkValidationResult false (Some format)
        (JS.lit "Invalid API key format. Expected format: api_[alphanumeric characters]").

(** The [catch] block of [validateWithApi]. *)
Definition caught (attempt : nat) (e : Error) : Pass ValidationResult :=
  if JS.eqb (err_name e) (JS.lit "AbortError") then
    if (attempt <=? MAX_RETRIES)%nat then RetryAfter RETRY_DELAY
    else Settled (Returns (mkValidationResult false (Some network)
           (JS.lit "Validation request timed out. Please check your internet connection")))
  else if JS.includes (err_message e) (JS.lit "Failed to fetch")
       || JS.includes (err_message e) (JS.lit "NetworkError") then
    if (attempt <=? MAX_RETRIES)%nat then RetryAfter RETRY_DELAY
    else Settled (Returns (mkValidationResult false (Some network)
           (JS.lit "Unable to connect to Lingo.dev API. Please check your internet connection")))
  else Settled (Returns (mkValidationResult false (Some network)
         (JS.lit "Network error occurred during validation. Please try again"))).

(** The [try] block of [validateWithApi] once the [fetch] has come back. *)
Definition answered (attempt : nat) (o : Outcome) : Pass ValidationResult :=
  match o with
  | Rejected e => caught attempt e
  | Response status _ =>
      if ok status then
        Settled (Returns (mkValidationResult true None
          (JS.lit "API key validated successfully")))
      else if (status =? 401) || (status =? 403) then
        Settled (Returns (mkValidationResult false (Some auth)
          (JS.lit "Invalid API key. Please verify your Lingo.dev API key")))
      else if status =? 429 then
        Settled (Returns (mkValidationResult false (Some network)
          (JS.lit "Rate limit exceeded. Please try again later")))
      else if (status =? 500) || (status =? 502) || (status =? 503)
              || (status =? 504) then
        if (attempt <=? MAX_RETRIES)%nat then RetryAfter RETRY_DELAY
        else Settled (Returns (mkValidationResult false (Some network)
          (JS.lit "Lingo.dev service is temporarily unavailable. Please try again later")))
      else
        Settled (Returns (mkValidationResult false (Some auth)
          (JS.lit "API validation failed with status " ++ JS.ofZ status)))
  end.

(** One pass through [validateWithApi(apiKey, attempt)], up to the point
    where it returns or is about to wait and call itself. *)
Definition pass (net : Network) (attempt : nat) (w : World)
  : Pass ValidationResult * World :=
  let exchange := net (sent w) in
  if took exchange >=? VALIDATION_TIMEOUT then
    (caught attempt abortError,
     mkWorld (lastValidationTime w) (clock w + VALIDATION_TIMEOUT) (S (sent w)))
  else
    (answered attempt (outcome exchange),
     mkWorld (lastValidationTime w) (clock w + took exchange) (S (sent w))).

(** [delay(ms)] *)
Definition delay (ms : Z) (w : World) : World :=
  mkWorld (lastValidationTime w) (clock w + ms) (sent w).

(** [validateWithApi(apiKey, attempt)] *)
Equations? validateWithApi (net : Network) (attempt : nat) (w : World)
  : Completion ValidationResult * World
  by wf (S MAX_RETRIES - attempt)%nat lt :=
validateWithApi net attempt w with inspect (pass net attempt w) := {
  | exist _ (Settled c, w') _ := (c, w');
  | exist _ (RetryAfter ms, w') _ := validateWithApi net (S attempt) (delay ms w') }.
Proof.
  assert (Hle : (attempt <= MAX_RETRIES)%nat).
  { unfold pass in e.
    assert (Hc : forall x, caught attempt x = RetryAfter ms ->
                           (attempt <= MAX_RETRIES)%nat).
    { intros x Hx. unfold caught in Hx.
      destruct (attempt <=? MAX_RETRIES)%nat eqn:Hb;
        [ apply Nat.leb_le; exact Hb | ].
      repeat match type of Hx with
             | (if ?b then _ else _) = _ => destruct b
             end; discriminate. }
    destruct (took (net (sent w)) >=? VALIDATION_TIMEOUT).
    - inversion e; subst. eapply Hc; eassumption.
    - inversion e as [[Ha Hw]]. clear Hw e.
      unfold answered in Ha.
      destruct (outcome (net (sent w))) as [st body | x];
        [ | eapply Hc; eassumption ].
      destruct (attempt <=? MAX_RETRIES)%nat eqn:Hb;
        [ apply Nat.leb_le; exact Hb | ].
      repeat match type of Ha with
             | (if ?b then _ else _) = _ => destruct b
             end; discriminate. }
  unfold MAX_RETRIES in *.
  destruct attempt as [|[|[|n]]]; simpl; lia.
Qed.

(** [checkRateLimit()]; [Math.ceil] of a quotient by 1000 is the negated
    floor of the negated quotient. *)
Definition checkRateLimit (now : Z) (w : World) : ValidationResult :=
  if now - lastValidationTime w <? MIN_VALIDATION_INTERVAL then
    let remainingTime :=
      - ((- (MIN_VALIDATION_INTERVAL - (now - lastValidationTime w))) / 1000) in
    mkValidationResult false (Some network)
      (JS.lit "Please wait " ++ JS.ofZ remainingTime
       ++ JS.lit " seconds before validating again")
  else mkValidationResult true None (JS.lit "Rate limit check passed").

(** [validateApiKey(apiKey)] *)
Definition validateApiKey (net : Network) (apiKey : jsstring) (w : World)
  : ValidationResult * World :=
  let rateLimitCheck := checkRateLimit (clock w) w in
  if negb (isValid rateLimitCheck) then (rateLimitCheck, w)
  else
    let formatResult := validateFormat apiKey in
    if negb (isValid formatResult) then (formatResult, w)
    else
      match validateWithApi net 1 (mkWorld (clock w) (clock w) (sent w)) with
      | (Returns apiResult, w) => (apiResult, w)
      | (Raises _, w) =>
          (mkValidationResult false (Some network)
             (JS.lit "An unexpected error occurred during validation. Please try again"),
           w)
      end.

(** [validateFormatOnly(apiKey)] *)
Definition validateFormatOnly (apiKey : jsstring) : ValidationResult :=
  validateFormat apiKey.

(** [detectKeyFormat(apiKey)]: whether the answer is ['lingo']. *)
Definition detectKeyFormat (apiKey : jsstring) : bool :=
  if negb (JS.truthy apiKey) then false
  else apiKeyFormat_test (JS.trim apiKey).

End LingoValidator.

(** ** Series of request attempts *)

Module Scenario.

(** The conversation client when its clock reads [t]. *)
Definition tavusAt (t : Z) (w : TavusAPI.World) : TavusAPI.World :=
  TavusAPI.mkWorld (TavusAPI.fields w) t (TavusAPI.sent w).

(** Request attempts of the conversation client, one after the other: each
    is a pass through [makeRequest] that starts when the clock reads the
    given time, with the given attempt number. *)
Fixpoint tavusAttempts (net : Network) (endpoint : jsstring) (method : Method)
  (arrivals : list (Z * nat)) (w : TavusAPI.World)
  : list (Pass (option Payload)) * TavusAPI.World :=
  match arrivals with
  | [] => ([], w)
  | (t, attempt) :: rest =>
      let (p, w) := TavusAPI.pass net endpoint method attempt (tavusAt t w) in
      let (ps, w) := tavusAttempts net endpoint method rest w in
      (p :: ps, w)
  end.

(** The translation client when its clock reads [t]. *)
Definition lingoAt (t : Z) (w : LingoAPI.World) : LingoAPI.World :=
  LingoAPI.mkWorld (LingoAPI.fields w) t (LingoAPI.sent w).

(** Request attempts of the translation client, one after the other. *)
Fixpoint lingoAttempts (net : Network) (arrivals : list (Z * nat))
  (w : LingoAPI.World) : list (Pass LingoAPI.TranslationResponse) * LingoAPI.World :=
  match arrivals with
  | [] => ([], w)
  | (t, attempt) :: rest =>
      let (p, w) := LingoAPI.pass net attempt (lingoAt t w) in
      let (ps, w) := lingoAttempts net rest w in
      (p :: ps, w)
  end.

(** Every attempt of a series starts less than one hour after [t0]. *)
Definition withinHourOf (t0 : Z) (arrivals : list (Z * nat)) : bool :=
  forallb (fun x => fst x - t0 <? 60 * 60 * 1000) arrivals.

(** What [makeRequest] throws when the limiter refuses an attempt. *)
Definition rateLimitExceeded : Error :=
  mkError (JS.lit "Error") (JS.lit "Rate limit exceeded. Please try again later.").







(** A case folding to run the profile store with: it lowers the letters
    [A] to [Z] and keeps every other code unit. *)
Definition asciiLower (s : jsstring) : jsstring :=
  map (fun c => if (65 <=? c) && (c <=? 90) then c + 32 else c)%N s.

(** A reload of the page: the module of the session manager makes its
    singleton at [loaded], over what the storage holds, and the provider
    mounts at [mounted]. *)
Definition reload (loaded mounted : Z) (ls : LocalStorage)
  : AuthContext.State * SessionManager.World :=
  AuthContext.mount mounted (SessionManager.constructor loaded ls).

End Scenario.

(** ** Reference definitions, worded as the specification words them *)

Module Spec.

Definition HOUR : Z := 60 * 60 * 1000.
Definition MINUTE : Z := 60 * 1000.

(** The display of a remaining time: [<1m] for a duration that is not
    positive; otherwise [Hh Mm] when there is at least one whole hour, [Mm]
    when there is at least one whole minute, and [<1m] below that. *)
Definition timeRemainingDisplay (ms : Z) : jsstring :=
  if ms <=? 0 then JS.lit "<1m"
  else if 1 <=? ms / HOUR then
    JS.ofZ (ms / HOUR) ++ JS.lit "h " ++ JS.ofZ ((ms / MINUTE) mod 60) ++ JS.lit "m"
  else if 1 <=? ms / MINUTE then
    JS.ofZ (ms / MINUTE) ++ JS.lit "m"
  else JS.lit "<1m".

(** A field of a request is present when it holds more than white space. *)
Definition present (s : jsstring) : bool :=
  match JS.trim s with [] => false | _ :: _ => true end.

(** The rules of a conversation request, in their order: what each one
    demands, and the message for the request that violates it. *)
Definition conversationRules
  : list ((TavusAPI.ConversationRequest -> bool) * jsstring) := [
  (fun r => present (TavusAPI.replica_id r),
   JS.lit "Replica ID is required for conversation creation");
  (fun r => present (TavusAPI.conversation_name r),
   JS.lit "Conversation name is required");
  (fun r => present (TavusAPI.custom_greeting r),
   JS.lit "Custom greeting is required for conversation");
  (fun r => JS.length (TavusAPI.custom_greeting r) <=? 500,
   JS.lit "Custom greeting exceeds maximum length of 500 characters");
  (fun r => match TavusAPI.conversational_context r with
            | Some context => JS.length context <=? 2000
            | None => true
            end,
   JS.lit "Conversational context exceeds maximum length of 2000 characters")
].

(** The message of the first rule a request violates. *)
Definition firstViolation (r : TavusAPI.ConversationRequest) : option jsstring :=
  match find (fun rule => negb (fst rule r)) conversationRules with
  | Some rule => Some (snd rule)
  | None => None
  end.

(** A cell from which nothing can be read: the key is missing, or its text
    is not JSON. *)
Definition unreadable {A : Type} (cell : option (Item A)) : Prop :=
  forall v, cell <> Some (Encoded v).

(** An exchange that fails: it is aborted by the time-out of the client,
    the [fetch] is rejected, or the status is outside 2xx. *)
Definition fails (timeout : Z) (x : Exchange) : bool :=
  (took x >=? timeout)
  || match outcome x with
     | Rejected _ => true
     | Response status _ => negb (ok status)
     end.

(** The rules of a translation request, in their order: what each one
    demands, and the message for the request that violates it. *)
Definition translationRules
  : list ((LingoAPI.TranslationRequest -> bool) * jsstring) := [
  (fun r => present (LingoAPI.text r),
   JS.lit "Text content is required for translation");
  (fun r => JS.length (LingoAPI.text r) <=? 1000,
   JS.lit "Text content exceeds maximum length of 1000 characters");
  (fun r => JS.truthy (LingoAPI.target_language r),
   JS.lit "Target language is required");
  (fun r => existsb (fun lang => JS.eqb (LingoAPI.code lang) (LingoAPI.target_language r))
              LingoAPI.supportedLanguages,
   JS.lit "Unsupported target language");
  (fun r => match LingoAPI.source_language r with
            | Some source =>
                negb (JS.truthy source)
                || existsb (fun lang => JS.eqb (LingoAPI.code lang) source)
                     LingoAPI.supportedLanguages
            | None => true
            end,
   JS.lit "Unsupported source language")
].

(** The message of the first rule a translation request violates. *)
Definition firstTranslationViolation (r : LingoAPI.TranslationRequest)
  : option jsstring :=
  match find (fun rule => negb (fst rule r)) translationRules with
  | Some rule => Some (snd rule)
  | None => None
  end.

(** A well-formed answer of the translation client: a success with a
    translated text that is not empty and no error, or a failure with a
    message and nothing else. *)
Definition wellFormed (resp : LingoAPI.TranslationResponse) : Prop :=
  (exists translated,
      translated <> []
      /\ LingoAPI.success resp = true
      /\ LingoAPI.translated_text resp = Some translated
      /\ LingoAPI.error resp = None)
  \/ (exists message, resp = LingoAPI.failure message).

(** Reading base64 back: the six-bit value of a character, and the bytes
    of a padded text. *)
Definition base64Value (c : N) : N :=
  (if (65 <=? c) && (c <=? 90) then c - 65
   else if (97 <=? c) && (c <=? 122) then c - 97 + 26
   else if (48 <=? c) && (c <=? 57) then c - 48 + 52
   else if c =? 43 then 62 else 63)%N.

Fixpoint unbase64 (text : jsstring) : list N :=
  match text with
  | c1 :: c2 :: c3 :: c4 :: rest =>
      let v1 := base64Value c1 in
      let v2 := base64Value c2 in
      let v3 := base64Value c3 in
      let v4 := base64Value c4 in
      (if c3 =? 61 then [v1 * 4 + v2 / 16]
       else if c4 =? 61 then [v1 * 4 + v2 / 16; (v2 mod 16) * 16 + v3 / 4]
       else [v1 * 4 + v2 / 16; (v2 mod 16) * 16 + v3 / 4; (v3 mod 4) * 64 + v4]
            ++ unbase64 rest)%N
  | _ => []
  end.

(** What anyone who reads a stored password hash can compute from it. *)
Definition recoverPassword (hashed : jsstring) : jsstring :=
  let plain := unbase64 hashed in
  firstn (List.length plain - 15) plain.

(** A string [btoa] accepts: every code unit is at most 255. *)
Definition latin1 (s : jsstring) : bool := forallb (fun c => c <=? 255)%N s.

(** The rules for the fields of a registration, in their order. *)
Definition registrationRules
  : list ((jsstring * jsstring * jsstring -> bool) * jsstring) := [
  (fun '(name, _, _) => present name,
   JS.lit "Full name is required");
  (fun '(name, _, _) => 2 <=? JS.length (JS.trim name),
   JS.lit "Full name must be at least 2 characters long");
  (fun '(_, email, _) => present email,
   JS.lit "Email address is required");
  (fun '(_, email, _) =>
     JS.includes email (JS.lit "@") && JS.includes email (JS.lit "."),
   JS.lit "Please enter a valid email address");
  (fun '(_, _, password) => JS.truthy password,
   JS.lit "Password is required");
  (fun '(_, _, password) => 6 <=? JS.length password,
   JS.lit "Password must be at least 6 characters long")
].

(** The message of the first rule the fields of a registration violate. *)
Definition firstRegistrationViolation (name email password : jsstring)
  : option jsstring :=
  match find (fun rule => negb (fst rule (name, email, password)))
          registrationRules with
  | Some rule => Some (snd rule)
  | None => None
  end.

(** Whether [updateUser] accepts the name of an update: a name that is
    not given is accepted, a given one must have two characters after
    trimming. *)
Definition nameAccepted (newName : option jsstring) : bool :=
  match newName with
  | Some n => present n && (2 <=? JS.length (JS.trim n))
  | None => true
  end.

(** What a reload of the page finds to resume: the stored profile, when
    the stored session is readable, has not reached its expiry, and the
    profile is readable. *)
Definition resumable (now : Z) (ls : LocalStorage) : option UserProfile :=
  match read (SESSION_KEY ls), read (CURRENT_USER_KEY ls) with
  | Parsed s, Parsed u => if now <? expiresAt s then Some u else None
  | _, _ => None
  end.

End Spec.

(** * Properties *)

(** ** Time-remaining display *)

Lemma rem_div_nonpos (a b c : Z) :
  a <= 0 -> 0 < b -> 0 < c -> Z.rem a b / c <= 0.
Proof.
  intros Ha Hb Hc.
  assert (Hr : Z.rem a b <= 0) by (apply Z.rem_nonpos; lia).
  apply Z.div_le_upper_bound; lia.
Qed.

Lemma minutes_within_hour (ms : Z) :
  0 <= ms -> Z.rem ms (1000 * 60 * 60) / (1000 * 60) = (ms / Spec.MINUTE) mod 60.
Proof.
  intros Hms. rewrite Z.rem_mod_nonneg by lia.
  change (1000 * 60 * 60) with (Spec.MINUTE * 60).
  change (1000 * 60) with Spec.MINUTE.
  unfold Spec.MINUTE.
  rewrite Z.rem_mul_r by lia.
  rewrite (Z.mul_comm (60 * 1000) ((ms / (60 * 1000)) mod 60)).
  rewrite Z.div_add by lia.
  rewrite Z.div_small by (apply Z.mod_pos_bound; lia).
  reflexivity.
Qed.

(** C9.  [formatTimeRemaining] is a function of the duration alone, and its
    value is the display of the specification: [<1m] for every duration
    that is not positive, [Hh Mm] from one whole hour on, [Mm] from one whole
    minute on, [<1m] below. *)
Theorem formatTimeRemaining_display (ms : Z) :
  SessionManager.formatTimeRemaining ms = Spec.timeRemainingDisplay ms.
Proof.
  unfold SessionManager.formatTimeRemaining, Spec.timeRemainingDisplay.
  destruct (Z.leb_spec ms 0) as [Hneg | Hpos].
  - assert (Hh : ms / (1000 * 60 * 60) <= 0)
      by (apply Z.div_le_upper_bound; lia).
    pose proof (rem_div_nonpos ms (1000 * 60 * 60) (1000 * 60) Hneg) as Hm.
    destruct (Z.gtb_spec (ms / (1000 * 60 * 60)) 0); [ lia | ].
    destruct (Z.gtb_spec (Z.rem ms (1000 * 60 * 60) / (1000 * 60)) 0);
      [ lia | reflexivity ].
  - rewrite minutes_within_hour by lia.
    change (1000 * 60 * 60) with Spec.HOUR.
    destruct (Z.gtb_spec (ms / Spec.HOUR) 0) as [Hh | Hh];
      destruct (Z.leb_spec 1 (ms / Spec.HOUR)) as [Hh' | Hh']; try lia.
    + reflexivity.
    + assert (Hsmall : (ms / Spec.MINUTE) mod 60 = ms / Spec.MINUTE).
      { apply Z.mod_small. split.
        - apply Z.div_pos; unfold Spec.MINUTE; lia.
        - apply Z.div_lt_upper_bound; [ unfold Spec.MINUTE; lia | ].
          assert (ms / Spec.HOUR = 0) as H0.
          { pose proof (Z.div_pos ms Spec.HOUR).
            unfold Spec.HOUR in *. lia. }
          apply Z.div_small_iff in H0; unfold Spec.HOUR, Spec.MINUTE in *; lia. }
      rewrite Hsmall.
      destruct (Z.gtb_spec (ms / Spec.MINUTE) 0);
        destruct (Z.leb_spec 1 (ms / Spec.MINUTE)); try lia; reflexivity.
Qed.

(** ** Work-in-progress backup *)

Lemma restoreWorkInProgress_reads_only (now : Z) (w : SessionManager.World) :
  snd (SessionManager.restoreWorkInProgress now w) = w.
Proof.
  unfold SessionManager.restoreWorkInProgress.
  destruct (read (WORK_BACKUP_KEY (SessionManager.storage w))); reflexivity.
Qed.

(** C7.  With a snapshot [d] in the backup slot, [restoreWorkInProgress]
    returns [d] exactly when [now - timestamp d] is below 24 hours and
    returns [null] exactly when it is not; either way the world, and with it
    the slot, is what it was. *)
Theorem restoreWorkInProgress_fresh_iff
  (now : Z) (w : SessionManager.World) (d : WorkInProgress) :
  WORK_BACKUP_KEY (SessionManager.storage w) = Some (Encoded d) ->
  (fst (SessionManager.restoreWorkInProgress now w) = Some d
     <-> now - timestamp d < 24 * Spec.HOUR)
  /\ (fst (SessionManager.restoreWorkInProgress now w) = None
     <-> ~ now - timestamp d < 24 * Spec.HOUR)
  /\ snd (SessionManager.restoreWorkInProgress now w) = w
  /\ WORK_BACKUP_KEY
       (SessionManager.storage (snd (SessionManager.restoreWorkInProgress now w)))
     = Some (Encoded d).
Proof.
  intros Hcell.
  rewrite restoreWorkInProgress_reads_only.
  unfold SessionManager.restoreWorkInProgress. rewrite Hcell. cbn [read].
  change (24 * 60 * 60 * 1000) with (24 * Spec.HOUR).
  cbv zeta. cbn [fst snd].
  destruct (Z.ltb_spec (now - timestamp d) (24 * Spec.HOUR)) as [Hlt | Hge].
  - repeat split; auto; intro; try discriminate; try contradiction.
  - repeat split; auto; intro; try discriminate; lia.
Qed.

Lemma restoreWorkInProgress_fresh_iff_witness :
  let d := mkWorkInProgress (JS.lit "draft") (JS.lit "en-US") (JS.lit "{}") 1000 in
  let w := SessionManager.mkWorld
             (mkLocalStorage None None None (Some (Encoded d)))
             (SessionManager.mkFields None None None 0 false false) [] in
  fst (SessionManager.restoreWorkInProgress 5000 w) = Some d
  /\ fst (SessionManager.restoreWorkInProgress (1000 + 24 * Spec.HOUR) w) = None.
Proof.
  intros d w. split.
  - apply (restoreWorkInProgress_fresh_iff 5000 w d eq_refl). reflexivity.
  - apply (restoreWorkInProgress_fresh_iff (1000 + 24 * Spec.HOUR) w d eq_refl).
    vm_compute. intro H. discriminate H.
Defined.

(** C10.  [backupWorkInProgress] without a snapshot changes nothing, and
    [expireSession], which calls it so, leaves the backup slot as it found
    it. *)
Theorem backup_without_snapshot_keeps_slot (now : Z) (w : SessionManager.World) :
  SessionManager.backupWorkInProgress now None w = w
  /\ WORK_BACKUP_KEY (SessionManager.storage (SessionManager.expireSession now w))
     = WORK_BACKUP_KEY (SessionManager.storage w).
Proof.
  split; [ reflexivity | ].
  unfold SessionManager.expireSession. simpl SessionManager.backupWorkInProgress.
  cbv zeta.
  destruct (SessionManager.sessionExpiredCallback
              (SessionManager.fields
                 (SessionManager.clearTimers (SessionManager.clearSession w))));
    reflexivity.
Qed.

(** ** Validity and expiry of the stored session *)

(** What [isSessionValid] answers: [true] exactly for a stored session whose
    expiry lies after [now]. *)
Lemma isSessionValid_true_iff (now : Z) (w : SessionManager.World) :
  fst (SessionManager.isSessionValid now w) = true
  <-> exists s, SESSION_KEY (SessionManager.storage w) = Some (Encoded s)
                /\ now < expiresAt s.
Proof.
  unfold SessionManager.isSessionValid, SessionManager.getCurrentSession.
  destruct (SESSION_KEY (SessionManager.storage w)) as [[text | s] |] eqn:Hcell;
    cbn [read].
  - destruct (JS.truthy text); simpl;
      (split; [ intros H; discriminate H | intros [s [Hs _]]; discriminate Hs ]).
  - destruct (Z.gtb_spec now (expiresAt s)) as [Hgt | Hle]; cbn [fst].
    + split; [ intros H; discriminate H | ].
      intros [s' [Hs' Hlt]]. inversion Hs'; subst. lia.
    + split.
      * intros Hlt. exists s. split; [ reflexivity | ].
        apply Z.ltb_lt. exact Hlt.
      * intros [s' [Hs' Hlt]]. inversion Hs'; subst. apply Z.ltb_lt. exact Hlt.
  - simpl. split; [ intros H; discriminate H | intros [s [Hs _]]; discriminate Hs ].
Qed.


(** C1, at the instant of expiry.  With a session [s] stored and
    [now = expiresAt s], [isSessionValid] answers [false], yet the record
    stays in storage and [getCurrentSession] still returns [s]: the record
    is removed only once [now > expiresAt s]. *)
Theorem session_kept_at_expiry_instant
  (w : SessionManager.World) (s : SessionData) :
  SESSION_KEY (SessionManager.storage w) = Some (Encoded s) ->
  SessionManager.getCurrentSession (expiresAt s) w = (Some s, w)
  /\ SessionManager.isSessionValid (expiresAt s) w = (false, w)
  /\ SESSION_KEY (SessionManager.storage
                    (snd (SessionManager.isSessionValid (expiresAt s) w)))
     = Some (Encoded s).
Proof.
  intros Hcell.
  unfold SessionManager.isSessionValid, SessionManager.getCurrentSession.
  rewrite Hcell. cbn [read].
  destruct (Z.gtb_spec (expiresAt s) (expiresAt s)) as [Hgt | _]; [ lia | ].
  rewrite Z.ltb_irrefl. cbn [snd]. auto.
Qed.

Lemma session_kept_at_expiry_instant_witness :
  let s := mkSessionData (JS.lit "user_1") (JS.lit "a@x.com") (JS.lit "Ann")
             0 0 86400000 (JS.lit "session_0_abc") (JS.lit "Linux") in
  let w := SessionManager.mkWorld
             (mkLocalStorage None None (Some (Encoded s)) None)
             (SessionManager.mkFields None (Some 86100000) (Some 86400000)
                0 true true) [] in
  SessionManager.getCurrentSession 86400000 w = (Some s, w)
  /\ SessionManager.isSessionValid 86400000 w = (false, w)
  /\ SESSION_KEY (SessionManager.storage
                    (snd (SessionManager.isSessionValid 86400000 w)))
     = Some (Encoded s).
Proof.
  intros s w.
  exact (session_kept_at_expiry_instant w s eq_refl).
Defined.

(** ** Activity and the timers *)


(** A signal that comes within [ACTIVITY_THRESHOLD] of the last recorded
    activity changes nothing: no write to storage, no field touched. *)
Lemma handleUserActivity_debounced (now : Z) (w : SessionManager.World) :
  now - SessionManager.lastActivityTime (SessionManager.fields w)
    <= SessionManager.ACTIVITY_THRESHOLD ->
  SessionManager.handleUserActivity now w = w.
Proof.
  intros Hsoon. unfold SessionManager.handleUserActivity.
  destruct (Z.gtb_spec
              (now - SessionManager.lastActivityTime (SessionManager.fields w))
              SessionManager.ACTIVITY_THRESHOLD); [ lia | reflexivity ].
Qed.

(** A later signal, with half a session or more still left, records the
    activity and keeps the expiry. *)
Lemma handleUserActivity_records
  (now : Z) (w : SessionManager.World) (s : SessionData) :
  SESSION_KEY (SessionManager.storage w) = Some (Encoded s) ->
  now - SessionManager.lastActivityTime (SessionManager.fields w)
    > SessionManager.ACTIVITY_THRESHOLD ->
  SessionManager.SESSION_DURATION / 2 <= expiresAt s - now ->
  SESSION_KEY (SessionManager.storage (SessionManager.handleUserActivity now w))
  = Some (Encoded
      (mkSessionData (userId s) (email s) (name s) (loginTime s)
         now (expiresAt s) (sessionId s) (deviceInfo s))).
Proof.
  intros Hcell Hidle Hhalf.
  unfold SessionManager.handleUserActivity.
  destruct (Z.gtb_spec
              (now - SessionManager.lastActivityTime (SessionManager.fields w))
              SessionManager.ACTIVITY_THRESHOLD) as [_ | Hno]; [ | lia ].
  unfold SessionManager.updateSessionActivity, SessionManager.getCurrentSession.
  cbn [SessionManager.storage SessionManager.with_fields].
  rewrite Hcell. cbn [read].
  assert (Hlive : now <= expiresAt s)
    by (unfold SessionManager.SESSION_DURATION in Hhalf;
        change (24 * 60 * 60 * 1000 / 2) with 43200000 in Hhalf; lia).
  destruct (Z.gtb_spec now (expiresAt s)) as [Hgt | _]; [ lia | ].
  destruct (Z.ltb_spec (expiresAt s - now) (SessionManager.SESSION_DURATION / 2))
    as [Hlt | _]; [ lia | ].
  reflexivity.
Qed.

(** C2, as the code has it.  A signal that comes more than 30 s after the
    last recorded activity, with less than half a session left, writes
    [lastActivity = now] and [expiresAt = now + SESSION_DURATION] to storage,
    but both timers stay as they were armed; the expiry timer, due at the old
    expiry, then discards the session that was just extended. *)
Theorem activity_extension_keeps_old_timers
  (now : Z) (w : SessionManager.World) (s : SessionData) :
  SESSION_KEY (SessionManager.storage w) = Some (Encoded s) ->
  now <= expiresAt s ->
  now - SessionManager.lastActivityTime (SessionManager.fields w)
    > SessionManager.ACTIVITY_THRESHOLD ->
  expiresAt s - now < SessionManager.SESSION_DURATION / 2 ->
  let w' := SessionManager.handleUserActivity now w in
  SESSION_KEY (SessionManager.storage w')
    = Some (Encoded
        (mkSessionData (userId s) (email s) (name s) (loginTime s)
           now (now + SessionManager.SESSION_DURATION)
           (sessionId s) (deviceInfo s)))
  /\ SessionManager.warningTimer (SessionManager.fields w')
     = SessionManager.warningTimer (SessionManager.fields w)
  /\ SessionManager.expiryTimer (SessionManager.fields w')
     = SessionManager.expiryTimer (SessionManager.fields w)
  /\ SESSION_KEY (SessionManager.storage
                    (SessionManager.expiryTimerFires (expiresAt s) w')) = None.
Proof.
  intros Hcell Hle Hidle Hhalf w'. subst w'.
  unfold SessionManager.handleUserActivity.
  destruct (Z.gtb_spec
              (now - SessionManager.lastActivityTime (SessionManager.fields w))
              SessionManager.ACTIVITY_THRESHOLD) as [_ | Hno]; [ | lia ].
  unfold SessionManager.updateSessionActivity, SessionManager.getCurrentSession.
  cbn [SessionManager.storage SessionManager.with_fields].
  rewrite Hcell. cbn [read].
  destruct (Z.gtb_spec now (expiresAt s)) as [Hgt | _]; [ lia | ].
  destruct (Z.ltb_spec (expiresAt s - now) (SessionManager.SESSION_DURATION / 2))
    as [_ | Hge]; [ | lia ].
  repeat split.
  unfold SessionManager.expiryTimerFires, SessionManager.expireSession.
  cbv zeta. simpl SessionManager.backupWorkInProgress.
  destruct (SessionManager.sessionExpiredCallback _); reflexivity.
Qed.

Lemma activity_extension_keeps_old_timers_witness :
  let s := mkSessionData (JS.lit "user_1") (JS.lit "a@x.com") (JS.lit "Ann")
             0 0 86400000 (JS.lit "session_0_abc") (JS.lit "Linux") in
  let w := SessionManager.mkWorld
             (mkLocalStorage None None (Some (Encoded s)) None)
             (SessionManager.mkFields None (Some 86100000) (Some 86400000)
                0 true true) [] in
  let w' := SessionManager.handleUserActivity 82800000 w in
  SESSION_KEY (SessionManager.storage w')
    = Some (Encoded
        (mkSessionData (JS.lit "user_1") (JS.lit "a@x.com") (JS.lit "Ann")
           0 82800000 169200000 (JS.lit "session_0_abc") (JS.lit "Linux")))
  /\ SessionManager.warningTimer (SessionManager.fields w') = Some 86100000
  /\ SessionManager.expiryTimer (SessionManager.fields w') = Some 86400000
  /\ SESSION_KEY (SessionManager.storage
                    (SessionManager.expiryTimerFires 86400000 w')) = None.
Proof.
  intros s w.
  apply (activity_extension_keeps_old_timers 82800000 w s eq_refl);
    vm_compute; first [ reflexivity | intro H; discriminate H ].
Defined.

(** ** Corrupt or missing storage *)

Lemma unreadable_read {A : Type} (cell : option (Item A)) :
  Spec.unreadable cell -> read cell = Missing \/ read cell = Throws.
Proof.
  intros Hun. destruct cell as [[text | v] |]; simpl.
  - destruct (JS.truthy text); auto.
  - exfalso. apply (Hun v). reflexivity.
  - auto.
Qed.

(** C4, as the code has it.  A reader that finds its key missing or its
    text not JSON returns the absent value ([[]] or [null]) and does not
    throw.  Only [getCurrentSession] then removes a key whose text does not
    parse, and it touches no other key; [getAllUsers], [getCurrentUser] and
    [restoreWorkInProgress] leave storage as it is. *)
Theorem readers_treat_corruption_as_absent (now : Z) (w : SessionManager.World) :
  let ls := SessionManager.storage w in
  (Spec.unreadable (USERS_KEY ls) ->
     UserStorageManager.getAllUsers ls = ([], ls))
  /\ (Spec.unreadable (CURRENT_USER_KEY ls) ->
     UserStorageManager.getCurrentUser ls = (None, ls))
  /\ (Spec.unreadable (WORK_BACKUP_KEY ls) ->
     SessionManager.restoreWorkInProgress now w = (None, w))
  /\ (Spec.unreadable (SESSION_KEY ls) ->
     let r := SessionManager.getCurrentSession now w in
     let ls' := SessionManager.storage (snd r) in
     fst r = None
     /\ (read (SESSION_KEY ls) = Throws -> SESSION_KEY ls' = None)
     /\ (read (SESSION_KEY ls) = Missing -> snd r = w)
     /\ USERS_KEY ls' = USERS_KEY ls
     /\ CURRENT_USER_KEY ls' = CURRENT_USER_KEY ls
     /\ WORK_BACKUP_KEY ls' = WORK_BACKUP_KEY ls).
Proof.
  intros ls. split; [ | split; [ | split ] ].
  - intros Hun. unfold UserStorageManager.getAllUsers.
    destruct (unreadable_read _ Hun) as [-> | ->]; reflexivity.
  - intros Hun. unfold UserStorageManager.getCurrentUser.
    destruct (unreadable_read _ Hun) as [-> | ->]; reflexivity.
  - intros Hun. unfold SessionManager.restoreWorkInProgress. fold ls.
    destruct (unreadable_read _ Hun) as [-> | ->]; reflexivity.
  - intros Hun r ls'. subst r ls'.
    unfold SessionManager.getCurrentSession. fold ls.
    destruct (unreadable_read _ Hun) as [-> | ->];
      cbn [fst snd]; repeat split; try reflexivity; intro H; discriminate H.
Qed.

Lemma readers_treat_corruption_as_absent_witness :
  let junk := JS.lit "{oops" in
  let ls := mkLocalStorage (Some (Garbled junk)) (Some (Garbled junk))
              (Some (Garbled junk)) (Some (Garbled junk)) in
  let w := SessionManager.mkWorld ls
             (SessionManager.mkFields None None None 0 true true) [] in
  UserStorageManager.getAllUsers ls = ([], ls)
  /\ UserStorageManager.getCurrentUser ls = (None, ls)
  /\ SessionManager.restoreWorkInProgress 7 w = (None, w)
  /\ fst (SessionManager.getCurrentSession 7 w) = None
  /\ SESSION_KEY (SessionManager.storage
                    (snd (SessionManager.getCurrentSession 7 w))) = None.
Proof.
  intros junk ls w.
  assert (Hun : forall A (v : A), Some (Garbled junk) <> Some (Encoded v))
    by (intros A v H; discriminate H).
  destruct (readers_treat_corruption_as_absent 7 w) as [Hu [Hc [Hb Hs]]].
  split; [ exact (Hu (Hun _)) | ].
  split; [ exact (Hc (Hun _)) | ].
  split; [ exact (Hb (Hun _)) | ].
  destruct (Hs (Hun _)) as [Hnone [Hclear _]].
  split; [ exact Hnone | exact (Hclear eq_refl) ].
Defined.

(** C4 as stated fails: with a user table, a current-user pointer or a
    backup whose text is not JSON, the read returns the absent value and the
    corrupt text is still under its key afterwards. *)
Lemma corrupt_keys_are_not_cleared :
  let junk := JS.lit "{oops" in
  let ls := mkLocalStorage (Some (Garbled junk)) (Some (Garbled junk))
              None (Some (Garbled junk)) in
  let w := SessionManager.mkWorld ls
             (SessionManager.mkFields None None None 0 true true) [] in
  (fst (UserStorageManager.getAllUsers ls) = []
   /\ USERS_KEY (snd (UserStorageManager.getAllUsers ls)) <> None)
  /\ (fst (UserStorageManager.getCurrentUser ls) = None
   /\ CURRENT_USER_KEY (snd (UserStorageManager.getCurrentUser ls)) <> None)
  /\ (fst (SessionManager.restoreWorkInProgress 7 w) = None
   /\ WORK_BACKUP_KEY (SessionManager.storage
        (snd (SessionManager.restoreWorkInProgress 7 w))) <> None).
Proof.
  cbv zeta. repeat split; intro H; discriminate H.
Qed.

(** ** The request loop of the conversation client *)

Section TavusRequests.

Variable net : Network.
Variable endpoint : jsstring.
Variable method : Method.

(** [makeRequest] is one pass, followed by the next attempt when the pass
    asks for it. *)
Lemma tavus_makeRequest_unfold (attempt : nat) (w : TavusAPI.World) :
  TavusAPI.makeRequest net endpoint method attempt w =
  match TavusAPI.pass net endpoint method attempt w with
  | (Settled c, w') => (c, w')
  | (RetryAfter ms, w') =>
      TavusAPI.makeRequest net endpoint method (S attempt) (TavusAPI.delay ms w')
  end.
Proof.
  rewrite TavusAPI.makeRequest_equation_1.
  generalize (inspect (TavusAPI.pass net endpoint method attempt w)).
  intros [[[c | ms] w'] E]; simpl; rewrite E; reflexivity.
Qed.

Lemma tavus_caught_retry (attempt : nat) (e : Error) (ms : Z) :
  TavusAPI.caught attempt e = RetryAfter ms ->
  (attempt <= TavusAPI.maxRetries)%nat.
Proof.
  unfold TavusAPI.caught. intros H.
  destruct (attempt <=? TavusAPI.maxRetries)%nat eqn:Hb;
    [ apply Nat.leb_le; exact Hb | ].
  repeat match type of H with
         | (if ?b then _ else _) = _ => destruct b
         end; discriminate H.
Qed.

Lemma tavus_caught_never_returns (attempt : nat) (e : Error) (v : option Payload) :
  TavusAPI.caught attempt e <> Settled (Returns v).
Proof.
  unfold TavusAPI.caught. intros H.
  repeat match type of H with
         | (if ?b then _ else _) = _ => destruct b
         end; discriminate H.
Qed.

Lemma tavus_answered_retry (attempt : nat) (o : Outcome) (ms : Z) :
  TavusAPI.answered attempt o = RetryAfter ms ->
  (attempt <= TavusAPI.maxRetries)%nat.
Proof.
  unfold TavusAPI.answered. intros H.
  destruct o as [st body | e]; [ | eapply tavus_caught_retry; eassumption ].
  destruct (negb (ok st)).
  - destruct (attempt <=? TavusAPI.maxRetries)%nat eqn:Hb;
      [ apply Nat.leb_le; exact Hb | ].
    rewrite andb_false_r in H. eapply tavus_caught_retry; eassumption.
  - destruct (st =? 204); [ discriminate H | ].
    destruct body; try discriminate H. eapply tavus_caught_retry; eassumption.
Qed.

(** The limiter: inside the hour that began at the last reset it compares
    the counter with the quota; from one hour on it starts a new hour with
    the counter at zero, and accepts. *)
Lemma tavus_checkRateLimit_inside (now : Z) (f : TavusAPI.Fields) :
  now - TavusAPI.lastResetTime f < Spec.HOUR ->
  TavusAPI.checkRateLimit now f
  = (TavusAPI.requestCount f <? TavusAPI.rateLimit, f).
Proof.
  intros Hin. unfold TavusAPI.checkRateLimit.
  change (1000 * 60 * 60) with Spec.HOUR.
  destruct (Z.geb_spec (now - TavusAPI.lastResetTime f) Spec.HOUR); [ lia | ].
  reflexivity.
Qed.

Lemma tavus_checkRateLimit_reset (now : Z) (f : TavusAPI.Fields) :
  Spec.HOUR <= now - TavusAPI.lastResetTime f ->
  TavusAPI.checkRateLimit now f
  = (true, TavusAPI.mkFields 0 now (TavusAPI.conversationUsage f)).
Proof.
  intros Hout. unfold TavusAPI.checkRateLimit.
  change (1000 * 60 * 60) with Spec.HOUR.
  destruct (Z.geb_spec (now - TavusAPI.lastResetTime f) Spec.HOUR); [ | lia ].
  reflexivity.
Qed.

(** A pass the limiter refuses throws at once: nothing is sent, nothing
    changes. *)
Lemma tavus_pass_refused (attempt : nat) (w : TavusAPI.World) :
  fst (TavusAPI.checkRateLimit (TavusAPI.clock w) (TavusAPI.fields w)) = false ->
  TavusAPI.pass net endpoint method attempt w
  = (Settled (Raises Scenario.rateLimitExceeded), w).
Proof.
  intros Hno. unfold TavusAPI.pass.
  destruct (Z_lt_ge_dec
              (TavusAPI.clock w - TavusAPI.lastResetTime (TavusAPI.fields w))
              Spec.HOUR) as [Hin | Hout].
  - rewrite tavus_checkRateLimit_inside in * by exact Hin.
    cbn [fst] in Hno. rewrite Hno. cbn [negb].
    destruct w; reflexivity.
  - rewrite tavus_checkRateLimit_reset in Hno by lia. discriminate Hno.
Qed.

(** A pass the limiter accepts counts itself and puts exactly one request on
    the network. *)
Lemma tavus_pass_accepted (attempt : nat) (w : TavusAPI.World) :
  fst (TavusAPI.checkRateLimit (TavusAPI.clock w) (TavusAPI.fields w)) = true ->
  let f := snd (TavusAPI.checkRateLimit (TavusAPI.clock w) (TavusAPI.fields w)) in
  let r := TavusAPI.pass net endpoint method attempt w in
  TavusAPI.sent (snd r) = (method, endpoint) :: TavusAPI.sent w
  /\ TavusAPI.fields (snd r)
     = TavusAPI.mkFields (TavusAPI.requestCount f + 1) (TavusAPI.lastResetTime f)
         (TavusAPI.conversationUsage f)
  /\ (fst r = TavusAPI.caught attempt abortError
      \/ fst r = TavusAPI.answered attempt
                    (outcome (net (List.length (TavusAPI.sent w))))
         /\ took (net (List.length (TavusAPI.sent w))) < TavusAPI.timeout).
Proof.
  intros Hyes f r. subst f r. unfold TavusAPI.pass.
  destruct (TavusAPI.checkRateLimit (TavusAPI.clock w) (TavusAPI.fields w))
    as [withinLimit f].
  cbn [fst snd] in *. subst withinLimit. cbn [negb].
  destruct (Z.geb_spec (took (net (List.length (TavusAPI.sent w))))
              TavusAPI.timeout);
    cbn [fst snd TavusAPI.sent TavusAPI.fields]; auto.
Qed.

Lemma tavus_pass_retry (attempt : nat) (w w' : TavusAPI.World) (ms : Z) :
  TavusAPI.pass net endpoint method attempt w = (RetryAfter ms, w') ->
  (attempt <= TavusAPI.maxRetries)%nat
  /\ TavusAPI.sent w' = (method, endpoint) :: TavusAPI.sent w.
Proof.
  intros Hp.
  destruct (fst (TavusAPI.checkRateLimit (TavusAPI.clock w) (TavusAPI.fields w)))
    eqn:Hgate.
  - destruct (tavus_pass_accepted attempt w Hgate) as [Hsent [_ Hfst]].
    rewrite Hp in Hsent, Hfst. cbn [fst snd] in *. split; [ | exact Hsent ].
    destruct Hfst as [Hc | [Ha _]]; symmetry in Hc || symmetry in Ha.
    + eapply tavus_caught_retry; eassumption.
    + eapply tavus_answered_retry; eassumption.
  - rewrite (tavus_pass_refused attempt w Hgate) in Hp. discriminate Hp.
Qed.

(** Induction along the attempts of one call of [makeRequest]. *)
Lemma tavus_makeRequest_ind
  (P : nat -> TavusAPI.World -> Completion (option Payload) * TavusAPI.World -> Prop) :
  (forall attempt w c w',
      TavusAPI.pass net endpoint method attempt w = (Settled c, w') ->
      P attempt w (c, w')) ->
  (forall attempt w ms w',
      TavusAPI.pass net endpoint method attempt w = (RetryAfter ms, w') ->
      (attempt <= TavusAPI.maxRetries)%nat ->
      P (S attempt) (TavusAPI.delay ms w')
        (TavusAPI.makeRequest net endpoint method (S attempt) (TavusAPI.delay ms w')) ->
      P attempt w
        (TavusAPI.makeRequest net endpoint method (S attempt) (TavusAPI.delay ms w'))) ->
  forall attempt w, P attempt w (TavusAPI.makeRequest net endpoint method attempt w).
Proof.
  intros Hsettled Hretry attempt.
  remember (S TavusAPI.maxRetries - attempt)%nat as left eqn:Hleft.
  revert attempt Hleft.
  induction left as [left IH] using lt_wf_ind.
  intros attempt Hleft w.
  rewrite tavus_makeRequest_unfold.
  destruct (TavusAPI.pass net endpoint method attempt w) as [[c | ms] w'] eqn:Hp.
  - apply Hsettled. exact Hp.
  - destruct (tavus_pass_retry attempt w w' ms Hp) as [Hle _].
    apply Hretry; [ exact Hp | exact Hle | ].
    apply (IH (S TavusAPI.maxRetries - S attempt)%nat); [ lia | reflexivity ].
Qed.

End TavusRequests.

Lemma tavus_pass_sent (net : Network) (endpoint : jsstring) (method : Method)
  (attempt : nat) (w : TavusAPI.World) :
  let w' := snd (TavusAPI.pass net endpoint method attempt w) in
  TavusAPI.sent w' = TavusAPI.sent w
  \/ TavusAPI.sent w' = (method, endpoint) :: TavusAPI.sent w.
Proof.
  destruct (fst (TavusAPI.checkRateLimit (TavusAPI.clock w) (TavusAPI.fields w)))
    eqn:Hgate.
  - right. apply (tavus_pass_accepted net endpoint method attempt w Hgate).
  - left. cbv zeta.
    rewrite (tavus_pass_refused net endpoint method attempt w Hgate).
    reflexivity.
Qed.

Lemma repeat_app_cons {A : Type} (x : A) (k : nat) (l : list A) :
  repeat x k ++ x :: l = repeat x (S k) ++ l.
Proof.
  induction k as [| k IH]; simpl; [ reflexivity | ].
  rewrite IH. reflexivity.
Qed.

(** One call of [makeRequest] puts at most [maxRetries + 2 - attempt]
    requests on the network (four for a first attempt), all of them the
    request it was asked to make. *)
Lemma tavus_makeRequest_sends (net : Network) (endpoint : jsstring)
  (method : Method) (attempt : nat) (w : TavusAPI.World) :
  exists k,
    (k <= S (S TavusAPI.maxRetries - attempt))%nat
    /\ TavusAPI.sent (snd (TavusAPI.makeRequest net endpoint method attempt w))
       = repeat (method, endpoint) k ++ TavusAPI.sent w.
Proof.
  apply (tavus_makeRequest_ind net endpoint method
           (fun attempt w r => exists k,
              (k <= S (S TavusAPI.maxRetries - attempt))%nat
              /\ TavusAPI.sent (snd r) = repeat (method, endpoint) k ++ TavusAPI.sent w)).
  - clear. intros attempt w c w' Hp.
    pose proof (tavus_pass_sent net endpoint method attempt w) as Hs.
    rewrite Hp in Hs. cbn [snd] in *.
    destruct Hs as [Hs | Hs]; rewrite Hs.
    + exists 0%nat. split; [ lia | reflexivity ].
    + exists 1%nat. split; [ lia | reflexivity ].
  - clear. intros attempt w ms w' Hp Hle [k [Hk Hs]].
    destruct (tavus_pass_retry net endpoint method attempt w w' ms Hp) as [_ Hsent].
    exists (S k). split.
    + unfold TavusAPI.maxRetries in *. lia.
    + rewrite Hs. cbn [TavusAPI.delay TavusAPI.sent]. rewrite Hsent.
      apply repeat_app_cons.
Qed.

Lemma tavus_answered_failure (attempt : nat) (o : Outcome) (v : option Payload) :
  match o with
  | Rejected _ => true
  | Response status _ => negb (ok status)
  end = true ->
  TavusAPI.answered attempt o <> Settled (Returns v).
Proof.
  intros Hbad. unfold TavusAPI.answered.
  destruct o as [st body | e]; [ | apply tavus_caught_never_returns ].
  rewrite Hbad.
  destruct ((st >=? 500) && (attempt <=? TavusAPI.maxRetries)%nat);
    [ discriminate | apply tavus_caught_never_returns ].
Qed.

(** On a network where every exchange fails, [makeRequest] throws. *)
Lemma tavus_makeRequest_failure (net : Network) (endpoint : jsstring)
  (method : Method) :
  (forall k, Spec.fails TavusAPI.timeout (net k) = true) ->
  forall attempt w,
    exists e,
      fst (TavusAPI.makeRequest net endpoint method attempt w) = Raises e.
Proof.
  intros Hnet.
  apply (tavus_makeRequest_ind net endpoint method
           (fun attempt w r => exists e, fst r = Raises e)).
  - intros attempt w c w' Hp.
    destruct c as [v | e]; [ exfalso | exists e; reflexivity ].
    destruct (fst (TavusAPI.checkRateLimit (TavusAPI.clock w) (TavusAPI.fields w)))
      eqn:Hgate.
    + destruct (tavus_pass_accepted net endpoint method attempt w Hgate)
        as [_ [_ Hfst]].
      rewrite Hp in Hfst. cbn [fst] in Hfst.
      destruct Hfst as [Hc | [Ha Htook]].
      * symmetry in Hc. exact (tavus_caught_never_returns _ _ _ Hc).
      * symmetry in Ha. revert Ha. apply tavus_answered_failure.
        specialize (Hnet (List.length (TavusAPI.sent w))).
        unfold Spec.fails in Hnet.
        destruct (Z.geb_spec (took (net (List.length (TavusAPI.sent w))))
                    TavusAPI.timeout); [ lia | exact Hnet ].
    + rewrite (tavus_pass_refused net endpoint method attempt w Hgate) in Hp.
      discriminate Hp.
  - intros attempt w ms w' _ _ IH. exact IH.
Qed.

(** ** Conversation status *)

(** C3, as the code has it.  [getConversationStatus] makes its GET through
    [makeRequest]: it puts at most four GET requests for the conversation on
    the network (the first attempt and up to three retries) and no other
    request; whenever [makeRequest] throws it returns [null], and so it does
    on a network where every exchange fails by time-out, rejection or a
    status outside 2xx. *)
Theorem getConversationStatus_retries_then_null
  (net : Network) (conversationId : jsstring) (w : TavusAPI.World) :
  let endpoint := JS.lit "/conversations/" ++ conversationId in
  let r := TavusAPI.getConversationStatus net conversationId w in
  (exists k, (k <= 4)%nat
     /\ TavusAPI.sent (snd r) = repeat (GET, endpoint) k ++ TavusAPI.sent w)
  /\ (forall e w',
        TavusAPI.makeRequest net endpoint GET 1 w = (Raises e, w') ->
        r = (None, w'))
  /\ ((forall k, Spec.fails TavusAPI.timeout (net k) = true) -> fst r = None).
Proof.
  intros endpoint r. subst r. unfold TavusAPI.getConversationStatus. fold endpoint.
  split; [ | split ].
  - destruct (tavus_makeRequest_sends net endpoint GET 1 w) as [k [Hk Hs]].
    exists k. split; [ exact Hk | ].
    destruct (TavusAPI.makeRequest net endpoint GET 1 w) as [[[data |] | e] w'];
      exact Hs.
  - intros e w' Hm. rewrite Hm. reflexivity.
  - intros Hnet.
    destruct (tavus_makeRequest_failure net endpoint GET Hnet 1%nat w) as [e He].
    destruct (TavusAPI.makeRequest net endpoint GET 1 w) as [[[data |] | e'] w'];
      cbn [fst] in *; try reflexivity; discriminate He.
Qed.

Lemma getConversationStatus_retries_then_null_witness :
  let net : Network := fun _ => mkExchange 120 (Response 503 JsonNull) in
  let w := TavusAPI.mkWorld
             (TavusAPI.mkFields 0 0 (TavusAPI.mkConversationUsage 0 250 250 0))
             1000 [] in
  fst (TavusAPI.getConversationStatus net (JS.lit "c42") w) = None.
Proof.
  intros net w.
  apply (getConversationStatus_retries_then_null net (JS.lit "c42") w).
  intro k. reflexivity.
Defined.

(** C3 as stated fails: after a 500 the GET is made again, and the second
    answer is the one returned; against a provider that keeps answering 503
    four GETs go out before [null] is returned. *)
Lemma getConversationStatus_retries_after_500 :
  let active := mkPayload None None None None None (Some (JS.lit "active"))
                  None None None None None in
  let net1 : Network := fun k =>
    match k with
    | O => mkExchange 120 (Response 500 JsonNull)
    | S _ => mkExchange 120 (Response 200 (JsonValue active))
    end in
  let net2 : Network := fun _ => mkExchange 120 (Response 503 JsonNull) in
  let w := TavusAPI.mkWorld
             (TavusAPI.mkFields 0 0 (TavusAPI.mkConversationUsage 0 250 250 0))
             1000 [] in
  let get := (GET, JS.lit "/conversations/c42") in
  (TavusAPI.sent (snd (TavusAPI.getConversationStatus net1 (JS.lit "c42") w))
     = [get; get]
   /\ exists st,
        fst (TavusAPI.getConversationStatus net1 (JS.lit "c42") w) = Some st
        /\ TavusAPI.cs_status st = Some (JS.lit "active"))
  /\ (TavusAPI.sent (snd (TavusAPI.getConversationStatus net2 (JS.lit "c42") w))
        = [get; get; get; get]
      /\ fst (TavusAPI.getConversationStatus net2 (JS.lit "c42") w) = None).
Proof.
  cbv zeta. split; split.
  - vm_compute. reflexivity.
  - eexists. split; vm_compute; reflexivity.
  - vm_compute. reflexivity.
  - vm_compute. reflexivity.
Qed.

(** ** The request loop of the translation client *)

Section LingoRequests.

Variable net : Network.

Lemma lingo_makeRequest_unfold (attempt : nat) (w : LingoAPI.World) :
  LingoAPI.makeRequest net attempt w =
  match LingoAPI.pass net attempt w with
  | (Settled c, w') => (c, w')
  | (RetryAfter ms, w') =>
      LingoAPI.makeRequest net (S attempt) (LingoAPI.delay ms w')
  end.
Proof.
  rewrite LingoAPI.makeRequest_equation_1.
  generalize (inspect (LingoAPI.pass net attempt w)).
  intros [[[c | ms] w'] E]; simpl; rewrite E; reflexivity.
Qed.

Lemma lingo_checkRateLimit_inside (now : Z) (f : LingoAPI.Fields) :
  now - LingoAPI.lastResetTime f < Spec.HOUR ->
  LingoAPI.checkRateLimit now f
  = (LingoAPI.requestCount f <? LingoAPI.rateLimit, f).
Proof.
  intros Hin. unfold LingoAPI.checkRateLimit.
  change (1000 * 60 * 60) with Spec.HOUR.
  destruct (Z.geb_spec (now - LingoAPI.lastResetTime f) Spec.HOUR); [ lia | ].
  reflexivity.
Qed.

Lemma lingo_checkRateLimit_reset (now : Z) (f : LingoAPI.Fields) :
  Spec.HOUR <= now - LingoAPI.lastResetTime f ->
  LingoAPI.checkRateLimit now f = (true, LingoAPI.mkFields 0 now).
Proof.
  intros Hout. unfold LingoAPI.checkRateLimit.
  change (1000 * 60 * 60) with Spec.HOUR.
  destruct (Z.geb_spec (now - LingoAPI.lastResetTime f) Spec.HOUR); [ | lia ].
  reflexivity.
Qed.

Lemma lingo_pass_refused (attempt : nat) (w : LingoAPI.World) :
  fst (LingoAPI.checkRateLimit (LingoAPI.clock w) (LingoAPI.fields w)) = false ->
  LingoAPI.pass net attempt w
  = (Settled (Raises Scenario.rateLimitExceeded), w).
Proof.
  intros Hno. unfold LingoAPI.pass.
  destruct (Z_lt_ge_dec
              (LingoAPI.clock w - LingoAPI.lastResetTime (LingoAPI.fields w))
              Spec.HOUR) as [Hin | Hout].
  - rewrite lingo_checkRateLimit_inside in * by exact Hin.
    cbn [fst] in Hno. rewrite Hno. cbn [negb].
    destruct w; reflexivity.
  - rewrite lingo_checkRateLimit_reset in Hno by lia. discriminate Hno.
Qed.

Lemma lingo_pass_accepted (attempt : nat) (w : LingoAPI.World) :
  fst (LingoAPI.checkRateLimit (LingoAPI.clock w) (LingoAPI.fields w)) = true ->
  let f := snd (LingoAPI.checkRateLimit (LingoAPI.clock w) (LingoAPI.fields w)) in
  let r := LingoAPI.pass net attempt w in
  LingoAPI.sent (snd r) = S (LingoAPI.sent w)
  /\ LingoAPI.fields (snd r)
     = LingoAPI.mkFields (LingoAPI.requestCount f + 1) (LingoAPI.lastResetTime f).
Proof.
  intros Hyes f r. subst f r. unfold LingoAPI.pass.
  destruct (LingoAPI.checkRateLimit (LingoAPI.clock w) (LingoAPI.fields w))
    as [withinLimit f].
  cbn [fst snd] in *. subst withinLimit. cbn [negb].
  destruct (took (net (LingoAPI.sent w)) >=? LingoAPI.timeout);
    cbn [fst snd LingoAPI.sent LingoAPI.fields]; auto.
Qed.

End LingoRequests.

(** ** The hourly quota *)

(** Attempts made inside the hour of the last reset, while the quota
    lasts, are all accepted: each is counted and each goes to the network. *)
Lemma tavus_attempts_accepted (net : Network) (endpoint : jsstring)
  (method : Method) (t0 : Z) (arrivals : list (Z * nat)) :
  forall w,
    TavusAPI.lastResetTime (TavusAPI.fields w) = t0 ->
    Scenario.withinHourOf t0 arrivals = true ->
    TavusAPI.requestCount (TavusAPI.fields w) + Z.of_nat (List.length arrivals)
      <= TavusAPI.rateLimit ->
    let w' := snd (Scenario.tavusAttempts net endpoint method arrivals w) in
    TavusAPI.requestCount (TavusAPI.fields w')
      = TavusAPI.requestCount (TavusAPI.fields w) + Z.of_nat (List.length arrivals)
    /\ TavusAPI.lastResetTime (TavusAPI.fields w') = t0
    /\ TavusAPI.sent w'
       = repeat (method, endpoint) (List.length arrivals) ++ TavusAPI.sent w.
Proof.
  induction arrivals as [| [t attempt] rest IH]; intros w Hreset Hin Hroom.
  - cbn. repeat split; [ lia | exact Hreset ].
  - cbn [Scenario.withinHourOf forallb fst] in Hin.
    apply andb_prop in Hin. destruct Hin as [Ht Hrest].
    apply Z.ltb_lt in Ht. change (60 * 60 * 1000) with Spec.HOUR in Ht.
    cbn [List.length] in Hroom. rewrite Nat2Z.inj_succ in Hroom.
    assert (Hgate : TavusAPI.checkRateLimit
                      (TavusAPI.clock (Scenario.tavusAt t w))
                      (TavusAPI.fields (Scenario.tavusAt t w))
                    = (true, TavusAPI.fields w)).
    { cbn [Scenario.tavusAt TavusAPI.clock TavusAPI.fields].
      rewrite tavus_checkRateLimit_inside by (rewrite Hreset; exact Ht).
      f_equal. apply Z.ltb_lt. lia. }
    pose proof (tavus_pass_accepted net endpoint method attempt
                  (Scenario.tavusAt t w)) as Hadm.
    rewrite Hgate in Hadm. specialize (Hadm eq_refl).
    cbn [fst snd Scenario.tavusAt TavusAPI.sent] in Hadm.
    destruct Hadm as [Hsent [Hfields _]].
    cbn [Scenario.tavusAttempts].
    destruct (TavusAPI.pass net endpoint method attempt (Scenario.tavusAt t w))
      as [p w1].
    cbn [snd] in Hsent, Hfields.
    specialize (IH w1).
    destruct (Scenario.tavusAttempts net endpoint method rest w1) as [ps w2].
    cbn [snd] in *.
    rewrite Hfields in IH. cbn [TavusAPI.requestCount TavusAPI.lastResetTime] in IH.
    destruct (IH Hreset Hrest ltac:(lia)) as [Hc [Hr Hs]].
    cbn [List.length]. rewrite Nat2Z.inj_succ.
    rewrite Hc, Hr, Hs, Hsent.
    repeat split; [ lia | ]. apply repeat_app_cons.
Qed.

Lemma lingo_attempts_accepted (net : Network) (t0 : Z) (arrivals : list (Z * nat)) :
  forall w,
    LingoAPI.lastResetTime (LingoAPI.fields w) = t0 ->
    Scenario.withinHourOf t0 arrivals = true ->
    LingoAPI.requestCount (LingoAPI.fields w) + Z.of_nat (List.length arrivals)
      <= LingoAPI.rateLimit ->
    let w' := snd (Scenario.lingoAttempts net arrivals w) in
    LingoAPI.requestCount (LingoAPI.fields w')
      = LingoAPI.requestCount (LingoAPI.fields w) + Z.of_nat (List.length arrivals)
    /\ LingoAPI.lastResetTime (LingoAPI.fields w') = t0
    /\ LingoAPI.sent w' = (List.length arrivals + LingoAPI.sent w)%nat.
Proof.
  induction arrivals as [| [t attempt] rest IH]; intros w Hreset Hin Hroom.
  - cbn. repeat split; [ lia | exact Hreset ].
  - cbn [Scenario.withinHourOf forallb fst] in Hin.
    apply andb_prop in Hin. destruct Hin as [Ht Hrest].
    apply Z.ltb_lt in Ht. change (60 * 60 * 1000) with Spec.HOUR in Ht.
    cbn [List.length] in Hroom. rewrite Nat2Z.inj_succ in Hroom.
    assert (Hgate : LingoAPI.checkRateLimit
                      (LingoAPI.clock (Scenario.lingoAt t w))
                      (LingoAPI.fields (Scenario.lingoAt t w))
                    = (true, LingoAPI.fields w)).
    { cbn [Scenario.lingoAt LingoAPI.clock LingoAPI.fields].
      rewrite lingo_checkRateLimit_inside by (rewrite Hreset; exact Ht).
      f_equal. apply Z.ltb_lt. lia. }
    pose proof (lingo_pass_accepted net attempt (Scenario.lingoAt t w)) as Hadm.
    rewrite Hgate in Hadm. specialize (Hadm eq_refl).
    cbn [fst snd Scenario.lingoAt LingoAPI.sent] in Hadm.
    destruct Hadm as [Hsent Hfields].
    cbn [Scenario.lingoAttempts].
    destruct (LingoAPI.pass net attempt (Scenario.lingoAt t w)) as [p w1].
    cbn [snd] in Hsent, Hfields.
    specialize (IH w1).
    destruct (Scenario.lingoAttempts net rest w1) as [ps w2].
    cbn [snd] in *.
    rewrite Hfields in IH. cbn [LingoAPI.requestCount LingoAPI.lastResetTime] in IH.
    destruct (IH Hreset Hrest ltac:(lia)) as [Hc [Hr Hs]].
    cbn [List.length]. rewrite Nat2Z.inj_succ.
    rewrite Hc, Hr, Hs, Hsent.
    repeat split; lia.
Qed.

Lemma withinHourOf_app (t0 : Z) (xs ys : list (Z * nat)) :
  Scenario.withinHourOf t0 (xs ++ ys) = true ->
  Scenario.withinHourOf t0 xs = true /\ Scenario.withinHourOf t0 ys = true.
Proof.
  unfold Scenario.withinHourOf. rewrite forallb_app. apply andb_prop.
Qed.

(** C5.  Start an hour at [t0] with the counter at zero.  For the
    conversation client (quota 50) and the translation client (quota 100)
    alike: the first [quota] attempts made less than one hour after [t0] all
    go to the network, and the next attempt inside that hour is refused by
    [makeRequest] with nothing sent and nothing changed.  An attempt made
    more than one hour after the last reset finds the counter set back to
    zero, is accepted, and is the first request of the hour that starts
    then. *)
Theorem hourly_quota_enforced_locally :
  (forall (net : Network) (endpoint : jsstring) (method : Method)
          (usage : TavusAPI.ConversationUsage) (already : list (Method * jsstring))
          (t0 : Z) (arrivals : list (Z * nat)) (t : Z) (attempt : nat),
      List.length arrivals = 50%nat ->
      Scenario.withinHourOf t0 (arrivals ++ [(t, attempt)]) = true ->
      let w0 := TavusAPI.mkWorld (TavusAPI.mkFields 0 t0 usage) t0 already in
      let w := Scenario.tavusAt t
                 (snd (Scenario.tavusAttempts net endpoint method arrivals w0)) in
      TavusAPI.sent w = repeat (method, endpoint) 50 ++ already
      /\ TavusAPI.makeRequest net endpoint method attempt w
         = (Raises Scenario.rateLimitExceeded, w))
  /\ (forall (net : Network) (endpoint : jsstring) (method : Method)
          (attempt : nat) (w : TavusAPI.World),
      Spec.HOUR < TavusAPI.clock w - TavusAPI.lastResetTime (TavusAPI.fields w) ->
      let w' := snd (TavusAPI.pass net endpoint method attempt w) in
      TavusAPI.checkRateLimit (TavusAPI.clock w) (TavusAPI.fields w)
        = (true, TavusAPI.mkFields 0 (TavusAPI.clock w)
                   (TavusAPI.conversationUsage (TavusAPI.fields w)))
      /\ TavusAPI.requestCount (TavusAPI.fields w') = 1
      /\ TavusAPI.lastResetTime (TavusAPI.fields w') = TavusAPI.clock w
      /\ TavusAPI.sent w' = (method, endpoint) :: TavusAPI.sent w)
  /\ (forall (net : Network) (already : nat)
          (t0 : Z) (arrivals : list (Z * nat)) (t : Z) (attempt : nat),
      List.length arrivals = 100%nat ->
      Scenario.withinHourOf t0 (arrivals ++ [(t, attempt)]) = true ->
      let w0 := LingoAPI.mkWorld (LingoAPI.mkFields 0 t0) t0 already in
      let w := Scenario.lingoAt t (snd (Scenario.lingoAttempts net arrivals w0)) in
      LingoAPI.sent w = (100 + already)%nat
      /\ LingoAPI.makeRequest net attempt w
         = (Raises Scenario.rateLimitExceeded, w))
  /\ (forall (net : Network) (attempt : nat) (w : LingoAPI.World),
      Spec.HOUR < LingoAPI.clock w - LingoAPI.lastResetTime (LingoAPI.fields w) ->
      let w' := snd (LingoAPI.pass net attempt w) in
      LingoAPI.checkRateLimit (LingoAPI.clock w) (LingoAPI.fields w)
        = (true, LingoAPI.mkFields 0 (LingoAPI.clock w))
      /\ LingoAPI.requestCount (LingoAPI.fields w') = 1
      /\ LingoAPI.lastResetTime (LingoAPI.fields w') = LingoAPI.clock w
      /\ LingoAPI.sent w' = S (LingoAPI.sent w)).
Proof.
  split; [ | split; [ | split ] ].
  - intros net endpoint method usage already t0 arrivals t attempt Hlen Hin w0 w.
    apply withinHourOf_app in Hin. destruct Hin as [Hin Hlast].
    cbn [Scenario.withinHourOf forallb fst] in Hlast.
    rewrite andb_true_r in Hlast. apply Z.ltb_lt in Hlast.
    change (60 * 60 * 1000) with Spec.HOUR in Hlast.
    destruct (tavus_attempts_accepted net endpoint method t0 arrivals w0
                eq_refl Hin) as [Hc [Hr Hs]].
    { rewrite Hlen. cbn. unfold TavusAPI.rateLimit. lia. }
    rewrite Hlen in Hc, Hs. cbn [TavusAPI.sent TavusAPI.fields TavusAPI.requestCount w0] in Hc, Hs.
    split; [ exact Hs | ].
    rewrite tavus_makeRequest_unfold.
    rewrite tavus_pass_refused; [ reflexivity | ].
    subst w. cbn [Scenario.tavusAt TavusAPI.clock TavusAPI.fields].
    rewrite tavus_checkRateLimit_inside by (rewrite Hr; exact Hlast).
    cbn [fst]. rewrite Hc. reflexivity.
  - intros net endpoint method attempt w Hlate w'.
    assert (Hgate := tavus_checkRateLimit_reset (TavusAPI.clock w)
                       (TavusAPI.fields w) ltac:(lia)).
    split; [ exact Hgate | ].
    pose proof (tavus_pass_accepted net endpoint method attempt w) as Hadm.
    rewrite Hgate in Hadm. destruct (Hadm eq_refl) as [Hsent [Hfields _]].
    subst w'. rewrite Hfields, Hsent. repeat split.
  - intros net already t0 arrivals t attempt Hlen Hin w0 w.
    apply withinHourOf_app in Hin. destruct Hin as [Hin Hlast].
    cbn [Scenario.withinHourOf forallb fst] in Hlast.
    rewrite andb_true_r in Hlast. apply Z.ltb_lt in Hlast.
    change (60 * 60 * 1000) with Spec.HOUR in Hlast.
    destruct (lingo_attempts_accepted net t0 arrivals w0 eq_refl Hin)
      as [Hc [Hr Hs]].
    { rewrite Hlen. cbn. unfold LingoAPI.rateLimit. lia. }
    rewrite Hlen in Hc, Hs. cbn [LingoAPI.sent LingoAPI.fields LingoAPI.requestCount w0] in Hc, Hs.
    split; [ exact Hs | ].
    rewrite lingo_makeRequest_unfold.
    rewrite lingo_pass_refused; [ reflexivity | ].
    subst w. cbn [Scenario.lingoAt LingoAPI.clock LingoAPI.fields].
    rewrite lingo_checkRateLimit_inside by (rewrite Hr; exact Hlast).
    cbn [fst]. rewrite Hc. reflexivity.
  - intros net attempt w Hlate w'.
    assert (Hgate := lingo_checkRateLimit_reset (LingoAPI.clock w)
                       (LingoAPI.fields w) ltac:(lia)).
    split; [ exact Hgate | ].
    pose proof (lingo_pass_accepted net attempt w) as Hadm.
    rewrite Hgate in Hadm. destruct (Hadm eq_refl) as [Hsent Hfields].
    subst w'. rewrite Hfields, Hsent. repeat split.
Qed.

Lemma hourly_quota_enforced_locally_witness :
  let net : Network := fun _ => mkExchange 80 (Response 200 (JsonValue noPayload)) in
  let usage := TavusAPI.mkConversationUsage 0 250 250 0 in
  let tavus := Scenario.tavusAt 3000000
    (snd (Scenario.tavusAttempts net (JS.lit "/conversations") POST
            (repeat (60000, 1%nat) 50)
            (TavusAPI.mkWorld (TavusAPI.mkFields 0 0 usage) 0 []))) in
  let lingo := Scenario.lingoAt 3000000
    (snd (Scenario.lingoAttempts net (repeat (60000, 1%nat) 100)
            (LingoAPI.mkWorld (LingoAPI.mkFields 0 0) 0 0%nat))) in
  TavusAPI.makeRequest net (JS.lit "/conversations") POST 1 tavus
    = (Raises Scenario.rateLimitExceeded, tavus)
  /\ LingoAPI.makeRequest net 1 lingo = (Raises Scenario.rateLimitExceeded, lingo)
  /\ TavusAPI.requestCount
       (TavusAPI.fields
          (snd (TavusAPI.pass net (JS.lit "/conversations") POST 1
                  (Scenario.tavusAt 3600001 tavus)))) = 1
  /\ LingoAPI.requestCount
       (LingoAPI.fields
          (snd (LingoAPI.pass net 1 (Scenario.lingoAt 3600001 lingo)))) = 1.
Proof.
  intros net usage tavus lingo.
  destruct hourly_quota_enforced_locally as [Ht [Htr [Hl Hlr]]].
  split; [ | split; [ | split ] ].
  - apply (Ht net (JS.lit "/conversations") POST usage [] 0
             (repeat (60000, 1%nat) 50) 3000000 1%nat); reflexivity.
  - apply (Hl net 0%nat 0 (repeat (60000, 1%nat) 100) 3000000 1%nat); reflexivity.
  - apply (Htr net (JS.lit "/conversations") POST 1%nat
             (Scenario.tavusAt 3600001 tavus)).
    vm_compute. reflexivity.
  - apply (Hlr net 1%nat (Scenario.lingoAt 3600001 lingo)).
    vm_compute. reflexivity.
Defined.

(** ** Validation of a conversation request *)

Lemma length_zero_iff_nil (s : jsstring) :
  (JS.length s =? 0) = match s with [] => true | _ :: _ => false end.
Proof.
  destruct s as [| c s]; [ reflexivity | ].
  unfold JS.length. cbn [List.length].
  apply Z.eqb_neq. lia.
Qed.

(** The test [!s || s.trim().length === 0] of the source is the absence of
    a field. *)
Lemma blank_test (s : jsstring) :
  negb (JS.truthy s) || (JS.length (JS.trim s) =? 0) = negb (Spec.present s).
Proof.
  unfold Spec.present. rewrite length_zero_iff_nil.
  destruct s as [| c s]; [ reflexivity | ].
  cbn [JS.truthy negb orb].
  destruct (JS.trim (c :: s)); reflexivity.
Qed.

Lemma over_length_test (s : jsstring) (n : Z) :
  (JS.length s >? n) = negb (JS.length s <=? n).
Proof.
  rewrite Z.gtb_ltb, Z.leb_antisym. rewrite negb_involutive. reflexivity.
Qed.

Lemma validateConversationRequest_firstViolation (r : TavusAPI.ConversationRequest) :
  TavusAPI.validateConversationRequest r = Spec.firstViolation r.
Proof.
  unfold TavusAPI.validateConversationRequest, Spec.firstViolation,
    Spec.conversationRules.
  rewrite !blank_test, over_length_test.
  cbn [find fst snd].
  destruct (Spec.present (TavusAPI.replica_id r)); cbn [negb]; [ | reflexivity ].
  destruct (Spec.present (TavusAPI.conversation_name r)); cbn [negb]; [ | reflexivity ].
  destruct (Spec.present (TavusAPI.custom_greeting r)); cbn [negb]; [ | reflexivity ].
  destruct (JS.length (TavusAPI.custom_greeting r) <=? 500); cbn [negb];
    [ | reflexivity ].
  destruct (TavusAPI.conversational_context r) as [context |]; [ | reflexivity ].
  rewrite over_length_test.
  destruct context as [| c context]; [ reflexivity | ].
  cbn [JS.truthy andb].
  destruct (JS.length (c :: context) <=? 2000); reflexivity.
Qed.

(** C6.  The validation of [createConversation] is the search for the first
    violated rule in the order replica id, name, greeting, greeting length,
    context length; a request that violates a rule gets the message of the
    first rule it violates, that message alone, and nothing is sent; so a
    request without a replica id gets the replica-id message whatever else
    it lacks. *)
Theorem createConversation_first_violation
  (net : Network) (r : TavusAPI.ConversationRequest) (w : TavusAPI.World) :
  TavusAPI.validateConversationRequest r = Spec.firstViolation r
  /\ (forall message,
        Spec.firstViolation r = Some message ->
        TavusAPI.createConversation net r w = (TavusAPI.failure message, w))
  /\ (Spec.present (TavusAPI.replica_id r) = false ->
      TavusAPI.createConversation net r w
      = (TavusAPI.failure
           (JS.lit "Replica ID is required for conversation creation"), w)).
Proof.
  pose proof (validateConversationRequest_firstViolation r) as Hv.
  split; [ exact Hv | split ].
  - intros message Hm. unfold TavusAPI.createConversation.
    rewrite Hv, Hm. reflexivity.
  - intros Hblank. unfold TavusAPI.createConversation.
    rewrite Hv. unfold Spec.firstViolation, Spec.conversationRules.
    cbn [find fst snd]. rewrite Hblank. reflexivity.
Qed.

Lemma createConversation_first_violation_witness :
  let net : Network := fun _ => mkExchange 80 (Response 200 (JsonValue noPayload)) in
  let w := TavusAPI.mkWorld
             (TavusAPI.mkFields 0 0 (TavusAPI.mkConversationUsage 0 250 250 0))
             1000 [] in
  let r := TavusAPI.mkConversationRequest [] (JS.lit "  ") (JS.lit "Hello!") None in
  TavusAPI.createConversation net r w
  = (TavusAPI.failure
       (JS.lit "Replica ID is required for conversation creation"), w).
Proof.
  intros net w r.
  apply (createConversation_first_violation net r w).
  reflexivity.
Defined.

(** ** Translation into the source language *)

Lemma jsstring_eqb_refl (s : jsstring) : JS.eqb s s = true.
Proof.
  induction s as [| c s IH]; [ reflexivity | ].
  cbn [JS.eqb]. rewrite N.eqb_refl. exact IH.
Qed.

Lemma validateRequest_target_given (r : LingoAPI.TranslationRequest) :
  LingoAPI.validateRequest r = None ->
  JS.truthy (LingoAPI.target_language r) = true.
Proof.
  unfold LingoAPI.validateRequest. intros Hv.
  destruct (negb (JS.truthy (LingoAPI.text r))
            || (JS.length (JS.trim (LingoAPI.text r)) =? 0));
    [ discriminate Hv | ].
  destruct (JS.length (LingoAPI.text r) >? 1000); [ discriminate Hv | ].
  destruct (JS.truthy (LingoAPI.target_language r));
    [ reflexivity | discriminate Hv ].
Qed.

(** C8.  A request that passes validation and names its target language as
    its source gets back its own text, marked with that language, and the
    client is left as it was: nothing is sent, the request counter and the
    hour of the limiter are untouched. *)
Theorem translateText_same_language
  (net : Network) (r : LingoAPI.TranslationRequest) (w : LingoAPI.World)
  (source : jsstring) :
  LingoAPI.validateRequest r = None ->
  LingoAPI.source_language r = Some source ->
  source = LingoAPI.target_language r ->
  let result := LingoAPI.translateText net r w in
  fst result
    = LingoAPI.mkTranslationResponse true (Some (LingoAPI.text r)) None
        (Some source)
  /\ LingoAPI.sent (snd result) = LingoAPI.sent w
  /\ LingoAPI.requestCount (LingoAPI.fields (snd result))
     = LingoAPI.requestCount (LingoAPI.fields w)
  /\ snd result = w.
Proof.
  intros Hv Hs Heq result. subst result. unfold LingoAPI.translateText.
  rewrite Hv, Hs. subst source.
  rewrite (validateRequest_target_given r Hv), jsstring_eqb_refl.
  cbn [andb fst snd]. repeat split.
Qed.

Lemma translateText_same_language_witness :
  let net : Network := fun _ => mkExchange 80 (Rejected abortError) in
  let w := LingoAPI.mkWorld (LingoAPI.mkFields 3 0) 1000 3%nat in
  let r := LingoAPI.mkTranslationRequest (JS.lit "Hello") (JS.lit "en")
             (Some (JS.lit "en")) in
  fst (LingoAPI.translateText net r w)
    = LingoAPI.mkTranslationResponse true (Some (JS.lit "Hello")) None
        (Some (JS.lit "en"))
  /\ LingoAPI.sent (snd (LingoAPI.translateText net r w)) = 3%nat
  /\ LingoAPI.requestCount (LingoAPI.fields (snd (LingoAPI.translateText net r w)))
     = 3
  /\ snd (LingoAPI.translateText net r w) = w.
Proof.
  intros net w r.
  exact (translateText_same_language net r w (JS.lit "en")
           eq_refl eq_refl eq_refl).
Defined.

(** * Further properties of the session manager *)

Lemma expireSession_effect (now : Z) (w : SessionManager.World) :
  let w' := SessionManager.expireSession now w in
  let called := SessionManager.sessionExpiredCallback (SessionManager.fields w) in
  SessionManager.storage w'
    = mkLocalStorage
        (USERS_KEY (SessionManager.storage w))
        (if called then None else CURRENT_USER_KEY (SessionManager.storage w))
        None
        (WORK_BACKUP_KEY (SessionManager.storage w))
  /\ SessionManager.fields w'
     = SessionManager.mkFields None None None
         (SessionManager.lastActivityTime (SessionManager.fields w))
         (SessionManager.sessionWarningCallback (SessionManager.fields w))
         called
  /\ SessionManager.notified w'
     = if called then SessionExpired :: SessionManager.notified w
       else SessionManager.notified w.
Proof.
  destruct w as [ls [at_ wt et la wcb ecb] n].
  unfold SessionManager.expireSession. cbv zeta.
  destruct ecb; cbn; repeat split; reflexivity.
Qed.

(** X1.  A session just created lasts 24 hours: it carries
    [expiresAt = now + SESSION_DURATION], both timers are armed for it (the
    warning five minutes before the expiry), it replaces whatever the slot
    held, and every read up to the expiry returns it and changes nothing. *)
Theorem createSession_then_read
  (now t : Z) (generatedId device userId email name : jsstring)
  (w : SessionManager.World) :
  t <= now + SessionManager.SESSION_DURATION ->
  let s := fst (SessionManager.createSession now generatedId device userId email name w) in
  let w' := snd (SessionManager.createSession now generatedId device userId email name w) in
  s = mkSessionData userId email name now now
        (now + SessionManager.SESSION_DURATION) generatedId device
  /\ SESSION_KEY (SessionManager.storage w') = Some (Encoded s)
  /\ SessionManager.warningTimer (SessionManager.fields w')
     = Some (now + SessionManager.SESSION_DURATION - SessionManager.WARNING_TIME)
  /\ SessionManager.expiryTimer (SessionManager.fields w')
     = Some (now + SessionManager.SESSION_DURATION)
  /\ SessionManager.getCurrentSession t w' = (Some s, w')
  /\ (fst (SessionManager.isSessionValid t w') = true
      <-> t < now + SessionManager.SESSION_DURATION).
Proof.
  intros Ht s w'. subst s w'.
  unfold SessionManager.createSession. cbv zeta. cbn [fst snd].
  unfold SessionManager.startSessionTimers. cbn [expiresAt].
  replace (now + SessionManager.SESSION_DURATION - now - SessionManager.WARNING_TIME)
    with 86100000 by (unfold SessionManager.SESSION_DURATION,
                        SessionManager.WARNING_TIME; lia).
  replace (now + SessionManager.SESSION_DURATION - now)
    with 86400000 by (unfold SessionManager.SESSION_DURATION; lia).
  change (86100000 >? 0) with true. change (86400000 >? 0) with true.
  cbv iota.
  split; [ reflexivity | ].
  split; [ reflexivity | ].
  split; [ cbn; f_equal; unfold SessionManager.SESSION_DURATION,
                           SessionManager.WARNING_TIME; lia | ].
  split; [ cbn; f_equal; unfold SessionManager.SESSION_DURATION; lia | ].
  unfold SessionManager.isSessionValid, SessionManager.getCurrentSession.
  cbn [SessionManager.storage SessionManager.with_fields SessionManager.clearTimers
       SessionManager.saveSession SessionManager.with_storage
       SESSION_KEY set_SESSION_KEY read expiresAt].
  destruct (Z.gtb_spec t (now + SessionManager.SESSION_DURATION)) as [Hgt | _];
    [ lia | ].
  split; [ reflexivity | ].
  cbn [fst]. apply Z.ltb_lt.
Qed.

Lemma createSession_then_read_witness :
  let w := SessionManager.mkWorld
             (mkLocalStorage None None (Some (Garbled (JS.lit "{oops"))) None)
             (SessionManager.mkFields None (Some 5) (Some 6) 0 true true) [] in
  let r := SessionManager.createSession 1000 (JS.lit "session_1000_k3")
             (JS.lit "Linux") (JS.lit "user_1") (JS.lit "a@x.com") (JS.lit "Ann") w in
  SessionManager.getCurrentSession 86401000 (snd r) = (Some (fst r), snd r)
  /\ fst (SessionManager.isSessionValid 86400999 (snd r)) = true.
Proof.
  intros w r.
  split.
  - apply (createSession_then_read 1000 86401000 (JS.lit "session_1000_k3")
             (JS.lit "Linux") (JS.lit "user_1") (JS.lit "a@x.com") (JS.lit "Ann") w).
    vm_compute. intro H. discriminate H.
  - apply (createSession_then_read 1000 86400999 (JS.lit "session_1000_k3")
             (JS.lit "Linux") (JS.lit "user_1") (JS.lit "a@x.com") (JS.lit "Ann") w).
    + vm_compute. intro H. discriminate H.
    + reflexivity.
Defined.



(** X3.  After [expireSession] no session is stored and no timer is armed;
    the user table and the backup are as before; the session-expired
    callback, if one is set, has been called exactly once; and every later
    read finds no session and changes nothing. *)
Theorem expireSession_leaves_no_session (now t : Z) (w : SessionManager.World) :
  let w' := SessionManager.expireSession now w in
  SESSION_KEY (SessionManager.storage w') = None
  /\ USERS_KEY (SessionManager.storage w') = USERS_KEY (SessionManager.storage w)
  /\ WORK_BACKUP_KEY (SessionManager.storage w')
     = WORK_BACKUP_KEY (SessionManager.storage w)
  /\ SessionManager.activityTimer (SessionManager.fields w') = None
  /\ SessionManager.warningTimer (SessionManager.fields w') = None
  /\ SessionManager.expiryTimer (SessionManager.fields w') = None
  /\ SessionManager.notified w'
     = (if SessionManager.sessionExpiredCallback (SessionManager.fields w)
        then [SessionExpired] else []) ++ SessionManager.notified w
  /\ SessionManager.getCurrentSession t w' = (None, w')
  /\ SessionManager.isSessionValid t w' = (false, w')
  /\ SessionManager.extendSession t w' = (false, w').
Proof.
  intros w'.
  destruct (expireSession_effect now w) as [Hs [Hf Hn]]. fold w' in Hs, Hf, Hn.
  assert (Hkey : SESSION_KEY (SessionManager.storage w') = None)
    by (rewrite Hs; reflexivity).
  assert (Hread : SessionManager.getCurrentSession t w' = (None, w'))
    by (unfold SessionManager.getCurrentSession; rewrite Hkey; reflexivity).
  rewrite Hs, Hf, Hn. cbn [USERS_KEY WORK_BACKUP_KEY SESSION_KEY
    SessionManager.activityTimer SessionManager.warningTimer
    SessionManager.expiryTimer].
  repeat split.
  - destruct (SessionManager.sessionExpiredCallback (SessionManager.fields w));
      reflexivity.
  - exact Hread.
  - unfold SessionManager.isSessionValid. rewrite Hread. reflexivity.
  - unfold SessionManager.extendSession. rewrite Hread. reflexivity.
Qed.

Lemma restoreWorkInProgress_fresh_iff_aux
  (now : Z) (w : SessionManager.World) (d : WorkInProgress) :
  WORK_BACKUP_KEY (SessionManager.storage w) = Some (Encoded d) ->
  (fst (SessionManager.restoreWorkInProgress now w) = Some d
     <-> now - timestamp d < 24 * Spec.HOUR)
  /\ (fst (SessionManager.restoreWorkInProgress now w) = None
     <-> ~ now - timestamp d < 24 * Spec.HOUR).
Proof.
  intros Hcell.
  unfold SessionManager.restoreWorkInProgress. rewrite Hcell. cbn [read].
  change (24 * 60 * 60 * 1000) with (24 * Spec.HOUR).
  cbv zeta. cbn [fst snd].
  destruct (Z.ltb_spec (now - timestamp d) (24 * Spec.HOUR)) as [Hlt | Hge].
  - repeat split; auto; intro; try discriminate; try contradiction.
  - repeat split; auto; intro; try discriminate; lia.
Qed.

(** X4.  A snapshot handed to [backupWorkInProgress] at [now] comes back
    from [restoreWorkInProgress] stamped with [now] (the caller's own
    timestamp is dropped) as long as less than 24 hours have passed, and not
    after; a later backup replaces an earlier one; and after
    [clearWorkBackup] nothing is restored.  The other keys are never
    touched. *)
Theorem backup_then_restore
  (now later t : Z) (d d' : WorkInProgress) (w : SessionManager.World) :
  let stamped := mkWorkInProgress (textContent d) (selectedLanguage d)
                   (voiceSettings d) now in
  let w1 := SessionManager.backupWorkInProgress now (Some d) w in
  (fst (SessionManager.restoreWorkInProgress t w1) = Some stamped
     <-> t - now < 24 * Spec.HOUR)
  /\ (fst (SessionManager.restoreWorkInProgress t w1) = None
     <-> 24 * Spec.HOUR <= t - now)
  /\ SessionManager.backupWorkInProgress later (Some d') w1
     = SessionManager.backupWorkInProgress later (Some d') w
  /\ fst (SessionManager.restoreWorkInProgress t (SessionManager.clearWorkBackup w1))
     = None
  /\ USERS_KEY (SessionManager.storage w1) = USERS_KEY (SessionManager.storage w)
  /\ CURRENT_USER_KEY (SessionManager.storage w1)
     = CURRENT_USER_KEY (SessionManager.storage w)
  /\ SESSION_KEY (SessionManager.storage w1) = SESSION_KEY (SessionManager.storage w).
Proof.
  intros stamped w1.
  assert (Hcell : WORK_BACKUP_KEY (SessionManager.storage w1) = Some (Encoded stamped))
    by reflexivity.
  destruct (restoreWorkInProgress_fresh_iff_aux t w1 stamped Hcell) as [Hyes Hno].
  cbn [timestamp stamped] in Hyes, Hno.
  split; [ exact Hyes | ].
  split; [ rewrite Hno; lia | ].
  repeat split.
Qed.

(** X5.  The time remaining is never negative, and it is positive exactly
    when [isSessionValid] answers [true]; for a stored session that is still
    valid it is [expiresAt - now].  Both methods leave the same world
    behind. *)
Theorem timeRemaining_positive_iff_valid (now : Z) (w : SessionManager.World) :
  0 <= fst (SessionManager.getTimeRemaining now w)
  /\ (0 < fst (SessionManager.getTimeRemaining now w)
      <-> fst (SessionManager.isSessionValid now w) = true)
  /\ (forall s,
        SESSION_KEY (SessionManager.storage w) = Some (Encoded s) ->
        now < expiresAt s ->
        fst (SessionManager.getTimeRemaining now w) = expiresAt s - now)
  /\ snd (SessionManager.getTimeRemaining now w)
     = snd (SessionManager.isSessionValid now w).
Proof.
  unfold SessionManager.getTimeRemaining, SessionManager.isSessionValid,
    SessionManager.getCurrentSession.
  destruct (SESSION_KEY (SessionManager.storage w)) as [[text | s] |] eqn:Hcell;
    cbn [read].
  - destruct (JS.truthy text); cbn [fst snd];
      (split; [ lia | split; [ split; [ lia | intro H; discriminate H ] | ] ];
       split; [ intros s Hs; discriminate Hs | reflexivity ]).
  - destruct (Z.gtb_spec now (expiresAt s)) as [Hgt | Hle]; cbn [fst snd].
    + split; [ lia | split; [ split; [ lia | intro H; discriminate H ] | ] ].
      split; [ | reflexivity ].
      intros s' Hs' Hlt. inversion Hs'; subst. lia.
    + split; [ lia | split; [ | split; [ | reflexivity ] ] ].
      * rewrite Z.ltb_lt. lia.
      * intros s' Hs' Hlt. inversion Hs'; subst. lia.
  - cbn [fst snd].
    split; [ lia | split; [ split; [ lia | intro H; discriminate H ] | ] ].
    split; [ intros s Hs; discriminate Hs | reflexivity ].
Qed.

Lemma timeRemaining_positive_iff_valid_witness :
  let s := mkSessionData (JS.lit "user_1") (JS.lit "a@x.com") (JS.lit "Ann")
             0 0 86400000 (JS.lit "session_0_abc") (JS.lit "Linux") in
  let w := SessionManager.mkWorld
             (mkLocalStorage None None (Some (Encoded s)) None)
             (SessionManager.mkFields None None (Some 86400000) 0 true true) [] in
  fst (SessionManager.getTimeRemaining 86000000 w) = 400000.
Proof.
  intros s w.
  destruct (timeRemaining_positive_iff_valid 86000000 w) as [_ [_ [Hlive _]]].
  apply (Hlive s); reflexivity.
Defined.

(** What a read can do to the fields of the manager: nothing, or clear the
    timers. *)
Lemma getCurrentSession_fields (now : Z) (w : SessionManager.World) :
  let f := SessionManager.fields w in
  let f' := SessionManager.fields (snd (SessionManager.getCurrentSession now w)) in
  f' = f
  \/ f' = SessionManager.mkFields None None None
            (SessionManager.lastActivityTime f)
            (SessionManager.sessionWarningCallback f)
            (SessionManager.sessionExpiredCallback f).
Proof.
  unfold SessionManager.getCurrentSession.
  destruct (read (SESSION_KEY (SessionManager.storage w))) as [| | s].
  - left. reflexivity.
  - right. reflexivity.
  - destruct (now >? expiresAt s); [ right | left; reflexivity ].
    cbn [snd]. apply (expireSession_effect now w).
Qed.




Lemma createSession_world
  (now : Z) (generatedId device userId email name : jsstring)
  (w : SessionManager.World) :
  snd (SessionManager.createSession now generatedId device userId email name w)
  = SessionManager.mkWorld
      (set_SESSION_KEY
         (Some (Encoded (mkSessionData userId email name now now
                           (now + SessionManager.SESSION_DURATION)
                           generatedId device)))
         (SessionManager.storage w))
      (SessionManager.mkFields None
         (Some (now + 86100000)) (Some (now + 86400000))
         (SessionManager.lastActivityTime (SessionManager.fields w))
         (SessionManager.sessionWarningCallback (SessionManager.fields w))
         (SessionManager.sessionExpiredCallback (SessionManager.fields w)))
      (SessionManager.notified w).
Proof.
  unfold SessionManager.createSession. cbv zeta. cbn [fst snd].
  unfold SessionManager.startSessionTimers. cbn [expiresAt].
  replace (now + SessionManager.SESSION_DURATION - now - SessionManager.WARNING_TIME)
    with 86100000 by (unfold SessionManager.SESSION_DURATION,
                        SessionManager.WARNING_TIME; lia).
  replace (now + SessionManager.SESSION_DURATION - now)
    with 86400000 by (unfold SessionManager.SESSION_DURATION; lia).
  change (86100000 >? 0) with true. change (86400000 >? 0) with true.
  cbv iota. destruct w as [ls [at_ wt et la wcb ecb] n]. reflexivity.
Qed.

(** X7.  After [createSession] at [now], with the warning callback set, the
    warning timer firing at any time [t] up to the expiry shows the warning
    with [now + SESSION_DURATION - t] remaining, which is [WARNING_TIME]
    when it fires on time, and changes nothing else. *)
Theorem warning_after_createSession
  (now t : Z) (generatedId device userId email name : jsstring)
  (w : SessionManager.World) :
  SessionManager.sessionWarningCallback (SessionManager.fields w) = true ->
  t <= now + SessionManager.SESSION_DURATION ->
  let w1 := snd (SessionManager.createSession now generatedId device userId email name w) in
  let w2 := SessionManager.warningTimerFires t w1 in
  SessionManager.notified w2
    = WarningShown (now + SessionManager.SESSION_DURATION - t)
        :: SessionManager.notified w
  /\ SessionManager.storage w2 = SessionManager.storage w1
  /\ SessionManager.fields w2 = SessionManager.fields w1
  /\ (t = now + SessionManager.SESSION_DURATION - SessionManager.WARNING_TIME ->
      SessionManager.notified w2
      = WarningShown SessionManager.WARNING_TIME :: SessionManager.notified w).
Proof.
  intros Hcb Ht. cbv zeta. rewrite createSession_world.
  unfold SessionManager.warningTimerFires, SessionManager.showSessionWarning,
    SessionManager.getCurrentSession.
  cbn [SessionManager.storage SessionManager.fields SessionManager.notified
       set_SESSION_KEY SESSION_KEY read expiresAt
       SessionManager.sessionWarningCallback].
  destruct (Z.gtb_spec t (now + SessionManager.SESSION_DURATION)) as [Hgt | _];
    [ lia | ].
  rewrite Hcb.
  cbn [SessionManager.notify SessionManager.storage SessionManager.fields
       SessionManager.notified SessionManager.sessionWarningCallback expiresAt].
  rewrite Z.max_r by lia.
  split; [ reflexivity | ]. split; [ reflexivity | ]. split; [ reflexivity | ].
  intros ->. f_equal. f_equal. lia.
Qed.

Lemma warning_after_createSession_witness :
  let w := SessionManager.mkWorld Storage.empty
             (SessionManager.mkFields None None None 0 true true) [] in
  let w1 := snd (SessionManager.createSession 1000 (JS.lit "session_1000_k3")
                   (JS.lit "Linux") (JS.lit "user_1") (JS.lit "a@x.com")
                   (JS.lit "Ann") w) in
  SessionManager.notified (SessionManager.warningTimerFires 86101000 w1)
  = [WarningShown 300000].
Proof.
  intros w w1.
  apply (warning_after_createSession 1000 86101000 (JS.lit "session_1000_k3")
           (JS.lit "Linux") (JS.lit "user_1") (JS.lit "a@x.com") (JS.lit "Ann") w).
  - reflexivity.
  - vm_compute. intro H. discriminate H.
  - reflexivity.
Defined.

Lemma handleUserActivity_idle_clock (t : Z) (w : SessionManager.World) :
  t - SessionManager.lastActivityTime (SessionManager.fields w)
    > SessionManager.ACTIVITY_THRESHOLD ->
  SessionManager.lastActivityTime
    (SessionManager.fields (SessionManager.handleUserActivity t w)) = t.
Proof.
  intros Hidle. unfold SessionManager.handleUserActivity.
  destruct (Z.gtb_spec
              (t - SessionManager.lastActivityTime (SessionManager.fields w))
              SessionManager.ACTIVITY_THRESHOLD) as [_ | Hno]; [ | lia ].
  unfold SessionManager.updateSessionActivity.
  match goal with
  | |- context [SessionManager.getCurrentSession t ?w0] =>
      pose proof (getCurrentSession_fields t w0) as Hf;
      destruct (SessionManager.getCurrentSession t w0) as [[s |] w']
  end; cbn [snd SessionManager.saveSession SessionManager.with_storage
            SessionManager.fields SessionManager.with_fields] in *;
    destruct Hf as [-> | ->]; reflexivity.
Qed.

(** X8.  Activity signals are coalesced: once a signal has been taken (it
    came more than 30 s after the last one taken), every further signal
    within 30 s of it changes nothing, however many there are; in
    particular they cause no further write to storage. *)
Theorem activity_signals_coalesce
  (t : Z) (later : list Z) (w : SessionManager.World) :
  t - SessionManager.lastActivityTime (SessionManager.fields w)
    > SessionManager.ACTIVITY_THRESHOLD ->
  forallb (fun t' => t' - t <=? SessionManager.ACTIVITY_THRESHOLD) later = true ->
  fold_left (fun w t' => SessionManager.handleUserActivity t' w) later
    (SessionManager.handleUserActivity t w)
  = SessionManager.handleUserActivity t w.
Proof.
  intros Hidle Hsoon.
  pose proof (handleUserActivity_idle_clock t w Hidle) as Hclock.
  induction later as [| t' later IH]; [ reflexivity | ].
  cbn [forallb] in Hsoon. apply andb_prop in Hsoon. destruct Hsoon as [Ht' Hrest].
  apply Z.leb_le in Ht'.
  cbn [fold_left].
  rewrite handleUserActivity_debounced by (rewrite Hclock; exact Ht').
  apply IH. exact Hrest.
Qed.

Lemma activity_signals_coalesce_witness :
  let s := mkSessionData (JS.lit "user_1") (JS.lit "a@x.com") (JS.lit "Ann")
             0 0 86400000 (JS.lit "session_0_abc") (JS.lit "Linux") in
  let w := SessionManager.mkWorld
             (mkLocalStorage None None (Some (Encoded s)) None)
             (SessionManager.mkFields None None (Some 86400000) 0 true true) [] in
  fold_left (fun w t' => SessionManager.handleUserActivity t' w)
    [40000; 50000; 70000] (SessionManager.handleUserActivity 40000 w)
  = SessionManager.handleUserActivity 40000 w.
Proof.
  intros s w.
  apply (activity_signals_coalesce 40000 [40000; 50000; 70000] w); reflexivity.
Defined.

(** * Further properties of the two API clients *)

Section LingoLoop.

Variable net : Network.

Lemma lingo_caught_retry (attempt : nat) (e : Error) (ms : Z) :
  LingoAPI.caught attempt e = RetryAfter ms ->
  (attempt <= LingoAPI.maxRetries)%nat.
Proof.
  unfold LingoAPI.caught. intros H.
  destruct (attempt <=? LingoAPI.maxRetries)%nat eqn:Hb;
    [ apply Nat.leb_le; exact Hb | ].
  repeat match type of H with
         | (if ?b then _ else _) = _ => destruct b
         end; discriminate H.
Qed.

Lemma lingo_caught_returns (attempt : nat) (e : Error) (c : Completion LingoAPI.TranslationResponse) :
  LingoAPI.caught attempt e = Settled c ->
  exists message, c = Returns (LingoAPI.failure message).
Proof.
  unfold LingoAPI.caught. intros H.
  repeat match type of H with
         | (if ?b then _ else _) = _ => destruct b
         end; inversion H; eexists; reflexivity.
Qed.

Lemma lingo_answered_retry (attempt : nat) (o : Outcome) (ms : Z) :
  LingoAPI.answered attempt o = RetryAfter ms ->
  (attempt <= LingoAPI.maxRetries)%nat.
Proof.
  unfold LingoAPI.answered. intros H.
  destruct o as [st body | e]; [ | eapply lingo_caught_retry; eassumption ].
  destruct (negb (ok st)).
  - destruct (attempt <=? LingoAPI.maxRetries)%nat eqn:Hb;
      [ apply Nat.leb_le; exact Hb | ].
    rewrite andb_false_r in H. discriminate H.
  - destruct body as [raw why | | data]; try (eapply lingo_caught_retry; eassumption).
    destruct (p_translated_text data) as [tr |]; [ | discriminate H ].
    destruct (JS.truthy tr); discriminate H.
Qed.

(** What an accepted pass comes to. *)
Lemma lingo_pass_accepted_outcome (attempt : nat) (w : LingoAPI.World) :
  fst (LingoAPI.checkRateLimit (LingoAPI.clock w) (LingoAPI.fields w)) = true ->
  let r := LingoAPI.pass net attempt w in
  (fst r = LingoAPI.caught attempt abortError
   /\ LingoAPI.timeout <= took (net (LingoAPI.sent w))
   /\ LingoAPI.clock (snd r) = LingoAPI.clock w + LingoAPI.timeout)
  \/ (fst r = LingoAPI.answered attempt (outcome (net (LingoAPI.sent w)))
      /\ took (net (LingoAPI.sent w)) < LingoAPI.timeout
      /\ LingoAPI.clock (snd r) = LingoAPI.clock w + took (net (LingoAPI.sent w))).
Proof.
  intros Hyes r. subst r. unfold LingoAPI.pass.
  destruct (LingoAPI.checkRateLimit (LingoAPI.clock w) (LingoAPI.fields w))
    as [withinLimit f].
  cbn [fst snd] in *. subst withinLimit. cbn [negb].
  destruct (Z.geb_spec (took (net (LingoAPI.sent w))) LingoAPI.timeout);
    cbn [fst snd LingoAPI.clock]; [ left | right ]; repeat split; lia.
Qed.

Lemma lingo_pass_retry (attempt : nat) (w w' : LingoAPI.World) (ms : Z) :
  LingoAPI.pass net attempt w = (RetryAfter ms, w') ->
  (attempt <= LingoAPI.maxRetries)%nat
  /\ LingoAPI.sent w' = S (LingoAPI.sent w).
Proof.
  intros Hp.
  destruct (fst (LingoAPI.checkRateLimit (LingoAPI.clock w) (LingoAPI.fields w)))
    eqn:Hgate.
  - destruct (lingo_pass_accepted net attempt w Hgate) as [Hsent _].
    pose proof (lingo_pass_accepted_outcome attempt w Hgate) as Hfst.
    cbv zeta in Hfst. rewrite Hp in Hsent, Hfst. cbn [fst snd] in *.
    split; [ | exact Hsent ].
    destruct Hfst as [[Hc _] | [Ha _]]; symmetry in Hc || symmetry in Ha.
    + eapply lingo_caught_retry; eassumption.
    + eapply lingo_answered_retry; eassumption.
  - rewrite (lingo_pass_refused net attempt w Hgate) in Hp. discriminate Hp.
Qed.

(** Induction along the attempts of one call of [makeRequest]. *)
Lemma lingo_makeRequest_ind
  (P : nat -> LingoAPI.World ->
       Completion LingoAPI.TranslationResponse * LingoAPI.World -> Prop) :
  (forall attempt w c w',
      LingoAPI.pass net attempt w = (Settled c, w') -> P attempt w (c, w')) ->
  (forall attempt w ms w',
      LingoAPI.pass net attempt w = (RetryAfter ms, w') ->
      (attempt <= LingoAPI.maxRetries)%nat ->
      P (S attempt) (LingoAPI.delay ms w')
        (LingoAPI.makeRequest net (S attempt) (LingoAPI.delay ms w')) ->
      P attempt w (LingoAPI.makeRequest net (S attempt) (LingoAPI.delay ms w'))) ->
  forall attempt w, P attempt w (LingoAPI.makeRequest net attempt w).
Proof.
  intros Hsettled Hretry attempt.
  remember (S LingoAPI.maxRetries - attempt)%nat as left eqn:Hleft.
  revert attempt Hleft.
  induction left as [left IH] using lt_wf_ind.
  intros attempt Hleft w.
  rewrite lingo_makeRequest_unfold.
  destruct (LingoAPI.pass net attempt w) as [[c | ms] w'] eqn:Hp.
  - apply Hsettled. exact Hp.
  - destruct (lingo_pass_retry attempt w w' ms Hp) as [Hle _].
    apply Hretry; [ exact Hp | exact Hle | ].
    apply (IH (S LingoAPI.maxRetries - S attempt)%nat); [ lia | reflexivity ].
Qed.

End LingoLoop.

Lemma tavus_pass_quota (net : Network) (endpoint : jsstring) (method : Method)
  (attempt : nat) (w : TavusAPI.World) :
  0 <= TavusAPI.requestCount (TavusAPI.fields w) <= TavusAPI.rateLimit ->
  0 <= TavusAPI.requestCount
         (TavusAPI.fields (snd (TavusAPI.pass net endpoint method attempt w)))
    <= TavusAPI.rateLimit.
Proof.
  intros Hinv.
  destruct (fst (TavusAPI.checkRateLimit (TavusAPI.clock w) (TavusAPI.fields w)))
    eqn:Hgate.
  - destruct (tavus_pass_accepted net endpoint method attempt w Hgate)
      as [_ [Hf _]].
    rewrite Hf. cbn [TavusAPI.requestCount].
    revert Hgate. unfold TavusAPI.checkRateLimit.
    destruct (TavusAPI.clock w - TavusAPI.lastResetTime (TavusAPI.fields w)
              >=? 1000 * 60 * 60); cbn [fst snd TavusAPI.requestCount].
    + intros _. unfold TavusAPI.rateLimit. lia.
    + intros Hlt. apply Z.ltb_lt in Hlt. lia.
  - rewrite (tavus_pass_refused net endpoint method attempt w Hgate). exact Hinv.
Qed.

Lemma lingo_pass_quota (net : Network) (attempt : nat) (w : LingoAPI.World) :
  0 <= LingoAPI.requestCount (LingoAPI.fields w) <= LingoAPI.rateLimit ->
  0 <= LingoAPI.requestCount (LingoAPI.fields (snd (LingoAPI.pass net attempt w)))
    <= LingoAPI.rateLimit.
Proof.
  intros Hinv.
  destruct (fst (LingoAPI.checkRateLimit (LingoAPI.clock w) (LingoAPI.fields w)))
    eqn:Hgate.
  - destruct (lingo_pass_accepted net attempt w Hgate) as [_ Hf].
    rewrite Hf. cbn [LingoAPI.requestCount].
    revert Hgate. unfold LingoAPI.checkRateLimit.
    destruct (LingoAPI.clock w - LingoAPI.lastResetTime (LingoAPI.fields w)
              >=? 1000 * 60 * 60); cbn [fst snd LingoAPI.requestCount].
    + intros _. unfold LingoAPI.rateLimit. lia.
    + intros Hlt. apply Z.ltb_lt in Hlt. lia.
  - rewrite (lingo_pass_refused net attempt w Hgate). exact Hinv.
Qed.

(** X9.  The request counter stays within the quota: if it lies between 0
    and the quota before a call of [makeRequest], it does so after, with
    any network, for both clients; [getUsageStats] then reports
    [remainingRequests = quota - requestCount], and right after
    [resetUsageStats] the whole quota. *)
Theorem request_count_within_quota :
  (forall (net : Network) (endpoint : jsstring) (method : Method)
          (attempt : nat) (w : TavusAPI.World),
      0 <= TavusAPI.requestCount (TavusAPI.fields w) <= TavusAPI.rateLimit ->
      let f' := TavusAPI.fields
                  (snd (TavusAPI.makeRequest net endpoint method attempt w)) in
      0 <= TavusAPI.requestCount f' <= TavusAPI.rateLimit
      /\ TavusAPI.us_remainingRequests (TavusAPI.getUsageStats f')
         = TavusAPI.rateLimit - TavusAPI.requestCount f'
      /\ forall now,
           TavusAPI.us_remainingRequests
             (TavusAPI.getUsageStats (TavusAPI.resetUsageStats now f'))
           = TavusAPI.rateLimit)
  /\ (forall (net : Network) (attempt : nat) (w : LingoAPI.World),
      0 <= LingoAPI.requestCount (LingoAPI.fields w) <= LingoAPI.rateLimit ->
      let f' := LingoAPI.fields (snd (LingoAPI.makeRequest net attempt w)) in
      0 <= LingoAPI.requestCount f' <= LingoAPI.rateLimit
      /\ LingoAPI.us_remainingRequests (LingoAPI.getUsageStats f')
         = LingoAPI.rateLimit - LingoAPI.requestCount f'
      /\ forall now,
           LingoAPI.us_remainingRequests
             (LingoAPI.getUsageStats (LingoAPI.resetUsageStats now f'))
           = LingoAPI.rateLimit).
Proof.
  split.
  - intros net endpoint method attempt w Hinv f'.
    assert (Hq : 0 <= TavusAPI.requestCount f' <= TavusAPI.rateLimit).
    { subst f'. revert Hinv.
      apply (tavus_makeRequest_ind net endpoint method
               (fun attempt w r =>
                  0 <= TavusAPI.requestCount (TavusAPI.fields w) <= TavusAPI.rateLimit ->
                  0 <= TavusAPI.requestCount (TavusAPI.fields (snd r))
                    <= TavusAPI.rateLimit)).
      - intros a w0 c w' Hp Hinv.
        pose proof (tavus_pass_quota net endpoint method a w0 Hinv) as H.
        rewrite Hp in H. exact H.
      - intros a w0 ms w' Hp _ IH Hinv. apply IH.
        pose proof (tavus_pass_quota net endpoint method a w0 Hinv) as H.
        rewrite Hp in H. exact H. }
    split; [ exact Hq | split ].
    + unfold TavusAPI.getUsageStats. cbn [TavusAPI.us_remainingRequests]. lia.
    + intros now. reflexivity.
  - intros net attempt w Hinv f'.
    assert (Hq : 0 <= LingoAPI.requestCount f' <= LingoAPI.rateLimit).
    { subst f'. revert Hinv.
      apply (lingo_makeRequest_ind net
               (fun attempt w r =>
                  0 <= LingoAPI.requestCount (LingoAPI.fields w) <= LingoAPI.rateLimit ->
                  0 <= LingoAPI.requestCount (LingoAPI.fields (snd r))
                    <= LingoAPI.rateLimit)).
      - intros a w0 c w' Hp Hinv.
        pose proof (lingo_pass_quota net a w0 Hinv) as H.
        rewrite Hp in H. exact H.
      - intros a w0 ms w' Hp _ IH Hinv. apply IH.
        pose proof (lingo_pass_quota net a w0 Hinv) as H.
        rewrite Hp in H. exact H. }
    split; [ exact Hq | split ].
    + unfold LingoAPI.getUsageStats. cbn [LingoAPI.us_remainingRequests]. lia.
    + intros now. reflexivity.
Qed.

Lemma request_count_within_quota_witness :
  let net : Network := fun _ => mkExchange 80 (Response 503 JsonNull) in
  let w := TavusAPI.mkWorld
             (TavusAPI.mkFields 48 0 (TavusAPI.mkConversationUsage 0 250 250 0))
             1000 [] in
  0 <= TavusAPI.requestCount
         (TavusAPI.fields
            (snd (TavusAPI.makeRequest net (JS.lit "/conversations") POST 1 w)))
    <= TavusAPI.rateLimit.
Proof.
  intros net w.
  apply (proj1 request_count_within_quota net (JS.lit "/conversations") POST 1%nat w).
  vm_compute. split; intro H; discriminate H.
Defined.

Section TavusBackoff.

Variable net : Network.
Variable endpoint : jsstring.
Variable method : Method.

Lemma tavus_gate_open (w : TavusAPI.World) :
  0 <= TavusAPI.requestCount (TavusAPI.fields w) < TavusAPI.rateLimit ->
  fst (TavusAPI.checkRateLimit (TavusAPI.clock w) (TavusAPI.fields w)) = true
  /\ 0 <= TavusAPI.requestCount
            (snd (TavusAPI.checkRateLimit (TavusAPI.clock w) (TavusAPI.fields w)))
       <= TavusAPI.requestCount (TavusAPI.fields w).
Proof.
  intros Hroom. unfold TavusAPI.checkRateLimit.
  destruct (TavusAPI.clock w - TavusAPI.lastResetTime (TavusAPI.fields w)
            >=? 1000 * 60 * 60); cbn [fst snd TavusAPI.requestCount].
  - split; [ reflexivity | lia ].
  - split; [ apply Z.ltb_lt; lia | lia ].
Qed.



End TavusBackoff.


Section LingoBackoff.

Variable net : Network.

Lemma lingo_gate_open (w : LingoAPI.World) :
  0 <= LingoAPI.requestCount (LingoAPI.fields w) < LingoAPI.rateLimit ->
  fst (LingoAPI.checkRateLimit (LingoAPI.clock w) (LingoAPI.fields w)) = true
  /\ 0 <= LingoAPI.requestCount
            (snd (LingoAPI.checkRateLimit (LingoAPI.clock w) (LingoAPI.fields w)))
       <= LingoAPI.requestCount (LingoAPI.fields w).
Proof.
  intros Hroom. unfold LingoAPI.checkRateLimit.
  destruct (LingoAPI.clock w - LingoAPI.lastResetTime (LingoAPI.fields w)
            >=? 1000 * 60 * 60); cbn [fst snd LingoAPI.requestCount].
  - split; [ reflexivity | lia ].
  - split; [ apply Z.ltb_lt; lia | lia ].
Qed.



End LingoBackoff.


(** The two texts that make the [catch] block of [TavusAPI.makeRequest]
    take an error for a network failure. *)
Lemma tavus_caught_plain (attempt : nat) (message : jsstring) :
  TavusAPI.caught attempt (mkError (JS.lit "Error") message)
  = if JS.includes message (JS.lit "Failed to fetch")
       || JS.includes message (JS.lit "NetworkError")
    then if (attempt <=? TavusAPI.maxRetries)%nat
         then RetryAfter (TavusAPI.retryDelay * Z.of_nat attempt)
         else Settled (Raises (mkError (JS.lit "Error")
                (JS.lit "Unable to connect to conversation service. Please check your internet connection.")))
    else Settled (Raises (mkError (JS.lit "Error") message)).
Proof. reflexivity. Qed.

(** X12.  A response with a status outside 2xx and below 500, answered in
    time and let through by the limiter.  The translation client never
    retries it: one request, and the failure with the message of the
    status is returned.  The conversation client throws that message after
    one request too, for 401, 402, 404 and 429 always; but since it throws
    inside its own [try], a message that contains "Failed to fetch" or
    "NetworkError" (it can come from the response body) is taken for a
    network failure and retried like one. *)
Theorem client_errors_are_not_retried
  (net : Network) (status : Z) (body : Body) :
  ok status = false -> status < 500 ->
  (forall (endpoint : jsstring) (method : Method) (attempt : nat) (w : TavusAPI.World),
      0 <= TavusAPI.requestCount (TavusAPI.fields w) < TavusAPI.rateLimit ->
      took (net (List.length (TavusAPI.sent w))) < TavusAPI.timeout ->
      outcome (net (List.length (TavusAPI.sent w))) = Response status body ->
      let message := TavusAPI.httpErrorMessage status body in
      let marked := JS.includes message (JS.lit "Failed to fetch")
                    || JS.includes message (JS.lit "NetworkError") in
      let r := TavusAPI.makeRequest net endpoint method attempt w in
      (marked = false ->
         fst r = Raises (mkError (JS.lit "Error") message)
         /\ TavusAPI.sent (snd r) = (method, endpoint) :: TavusAPI.sent w)
      /\ (status = 401 \/ status = 402 \/ status = 404 \/ status = 429 ->
          marked = false)
      /\ (marked = true -> (attempt <= TavusAPI.maxRetries)%nat ->
          fst (TavusAPI.pass net endpoint method attempt w)
          = RetryAfter (TavusAPI.retryDelay * Z.of_nat attempt)))
  /\ (forall (attempt : nat) (w : LingoAPI.World),
      0 <= LingoAPI.requestCount (LingoAPI.fields w) < LingoAPI.rateLimit ->
      took (net (LingoAPI.sent w)) < LingoAPI.timeout ->
      outcome (net (LingoAPI.sent w)) = Response status body ->
      let r := LingoAPI.makeRequest net attempt w in
      fst r = Returns (LingoAPI.failure (LingoAPI.httpErrorMessage status body))
      /\ LingoAPI.sent (snd r) = S (LingoAPI.sent w)).
Proof.
  intros Hbad Hlow. split.
  - intros endpoint method attempt w Hroom Htook Hout message marked r.
    destruct (tavus_gate_open w Hroom) as [Hgate _].
    destruct (tavus_pass_accepted net endpoint method attempt w Hgate)
      as [Hsent [_ Hfst]].
    assert (Hpass : fst (TavusAPI.pass net endpoint method attempt w)
                    = TavusAPI.caught attempt (mkError (JS.lit "Error") message)).
    { clear Hfst Hsent. unfold TavusAPI.pass.
      destruct (TavusAPI.checkRateLimit (TavusAPI.clock w) (TavusAPI.fields w))
        as [g f]. cbn [fst] in Hgate. subst g. cbn [negb].
      destruct (Z.geb_spec (took (net (List.length (TavusAPI.sent w))))
                  TavusAPI.timeout); [ lia | ].
      cbn [fst]. rewrite Hout. unfold TavusAPI.answered. rewrite Hbad.
      cbn [negb]. destruct (Z.geb_spec status 500); [ lia | reflexivity ]. }
    rewrite tavus_caught_plain in Hpass. fold marked in Hpass.
    split; [ | split ].
    + intros Hplain. rewrite Hplain in Hpass. subst r.
      rewrite tavus_makeRequest_unfold.
      destruct (TavusAPI.pass net endpoint method attempt w) as [p w'].
      cbn [fst snd] in *. subst p. split; [ reflexivity | exact Hsent ].
    + subst marked message. unfold TavusAPI.httpErrorMessage.
      intros [-> | [-> | [-> | ->]]]; reflexivity.
    + intros Hmarked Hle. rewrite Hpass, Hmarked.
      apply Nat.leb_le in Hle. rewrite Hle. reflexivity.
  - intros attempt w Hroom Htook Hout r.
    destruct (lingo_gate_open w Hroom) as [Hgate _].
    destruct (lingo_pass_accepted net attempt w Hgate) as [Hsent _].
    pose proof (lingo_pass_accepted_outcome net attempt w Hgate) as Hfst.
    cbv zeta in Hfst.
    subst r. rewrite lingo_makeRequest_unfold.
    destruct (LingoAPI.pass net attempt w) as [p w'].
    cbn [fst snd] in *.
    destruct Hfst as [[_ [Hlate _]] | [Ha _]]; [ lia | ].
    rewrite Hout in Ha. unfold LingoAPI.answered in Ha. rewrite Hbad in Ha.
    cbn [negb] in Ha.
    destruct (Z.geb_spec status 500); [ lia | ].
    cbn [andb] in Ha. subst p. split; [ reflexivity | exact Hsent ].
Qed.

Lemma client_errors_are_not_retried_witness :
  let quirk := NotJson (JS.lit "NetworkError: upstream") (JS.lit "Unexpected token") in
  let net : Network := fun _ => mkExchange 90 (Response 403 quirk) in
  let w := TavusAPI.mkWorld
             (TavusAPI.mkFields 0 0 (TavusAPI.mkConversationUsage 0 250 250 0))
             1000 [] in
  let l := LingoAPI.mkWorld (LingoAPI.mkFields 0 0) 1000 0%nat in
  fst (TavusAPI.pass net (JS.lit "/conversations") POST 1 w) = RetryAfter 2000
  /\ LingoAPI.sent (snd (LingoAPI.makeRequest net 1 l)) = 1%nat.
Proof.
  intros quirk net w l.
  destruct (client_errors_are_not_retried net 403 quirk eq_refl eq_refl) as [Ht Hl].
  split.
  - apply (Ht (JS.lit "/conversations") POST 1%nat w);
      try reflexivity; try (vm_compute; split; [ intro H; discriminate H | reflexivity ]).
    apply Nat.leb_le. reflexivity.
  - apply (Hl 1%nat l);
      try reflexivity; try (vm_compute; split; [ intro H; discriminate H | reflexivity ]).
Defined.

Lemma tavus_pass_usage (net : Network) (endpoint : jsstring) (method : Method)
  (attempt : nat) (w : TavusAPI.World) :
  TavusAPI.conversationUsage
    (TavusAPI.fields (snd (TavusAPI.pass net endpoint method attempt w)))
  = TavusAPI.conversationUsage (TavusAPI.fields w).
Proof.
  unfold TavusAPI.pass, TavusAPI.checkRateLimit.
  destruct (TavusAPI.clock w - TavusAPI.lastResetTime (TavusAPI.fields w)
            >=? 1000 * 60 * 60); cbn [TavusAPI.requestCount];
    match goal with
    | |- context [negb ?b] => destruct b
    end; cbn [negb];
    try destruct (took _ >=? TavusAPI.timeout); reflexivity.
Qed.

Lemma tavus_makeRequest_usage (net : Network) (endpoint : jsstring)
  (method : Method) (attempt : nat) (w : TavusAPI.World) :
  TavusAPI.conversationUsage
    (TavusAPI.fields (snd (TavusAPI.makeRequest net endpoint method attempt w)))
  = TavusAPI.conversationUsage (TavusAPI.fields w).
Proof.
  apply (tavus_makeRequest_ind net endpoint method
           (fun attempt w r =>
              TavusAPI.conversationUsage (TavusAPI.fields (snd r))
              = TavusAPI.conversationUsage (TavusAPI.fields w))).
  - intros a w0 c w' Hp.
    pose proof (tavus_pass_usage net endpoint method a w0) as H.
    rewrite Hp in H. exact H.
  - intros a w0 ms w' Hp _ IH. rewrite IH.
    pose proof (tavus_pass_usage net endpoint method a w0) as H.
    rewrite Hp in H. exact H.
Qed.

(** X13.  What [createConversation] can come to.  It reports success
    exactly when it reports no error; a success needs a request that
    passes validation and minutes remaining, carries a status ("creating"
    when the provider names none) and counts one conversation more in the
    month's usage; a failure counts nothing.  The remaining minutes are
    never changed by the call, and all it sends is at most four POSTs to
    [/conversations]. *)
Theorem createConversation_outcomes
  (net : Network) (request : TavusAPI.ConversationRequest) (w : TavusAPI.World) :
  let response := fst (TavusAPI.createConversation net request w) in
  let w' := snd (TavusAPI.createConversation net request w) in
  let usage := TavusAPI.conversationUsage (TavusAPI.fields w) in
  let usage' := TavusAPI.conversationUsage (TavusAPI.fields w') in
  (TavusAPI.success response = true <-> TavusAPI.error response = None)
  /\ (TavusAPI.success response = true ->
      TavusAPI.validateConversationRequest request = None
      /\ 0 < TavusAPI.remaining_minutes usage
      /\ TavusAPI.status response <> None
      /\ TavusAPI.current_month_usage usage'
         = TavusAPI.current_month_usage usage + 1)
  /\ (TavusAPI.success response = false ->
      TavusAPI.conversation_id response = None
      /\ TavusAPI.conversation_url response = None
      /\ usage' = usage)
  /\ TavusAPI.remaining_minutes usage' = TavusAPI.remaining_minutes usage
  /\ exists k, (k <= 4)%nat
       /\ TavusAPI.sent w'
          = repeat (POST, JS.lit "/conversations") k ++ TavusAPI.sent w.
Proof.
  cbv zeta. unfold TavusAPI.createConversation.
  destruct (TavusAPI.validateConversationRequest request) as [message |].
  { cbn [fst snd TavusAPI.failure TavusAPI.success TavusAPI.error
         TavusAPI.conversation_id TavusAPI.conversation_url].
    split; [ split; intro H; discriminate H | ].
    split; [ intro H; discriminate H | ].
    split; [ intros _; repeat split | ].
    split; [ reflexivity | ].
    exists 0%nat. split; [ lia | reflexivity ]. }
  destruct (Z.leb_spec
              (TavusAPI.remaining_minutes
                 (TavusAPI.conversationUsage (TavusAPI.fields w))) 0) as [Hout | Hleft].
  { cbn [fst snd TavusAPI.failure TavusAPI.success TavusAPI.error
         TavusAPI.conversation_id TavusAPI.conversation_url].
    split; [ split; intro H; discriminate H | ].
    split; [ intro H; discriminate H | ].
    split; [ intros _; repeat split | ].
    split; [ reflexivity | ].
    exists 0%nat. split; [ lia | reflexivity ]. }
  pose proof (tavus_makeRequest_usage net (JS.lit "/conversations") POST 1 w) as Hu.
  destruct (tavus_makeRequest_sends net (JS.lit "/conversations") POST 1 w)
    as [k [Hk Hs]].
  destruct (TavusAPI.makeRequest net (JS.lit "/conversations") POST 1 w)
    as [[[data |] | e] w1]; cbn [fst snd] in *.
  - cbn [TavusAPI.updateUsageTracking TavusAPI.fields TavusAPI.conversationUsage
         TavusAPI.success TavusAPI.error TavusAPI.status
         TavusAPI.current_month_usage TavusAPI.remaining_minutes TavusAPI.sent].
    rewrite Hu.
    split; [ split; reflexivity | ].
    split; [ intros _; repeat split; [ exact Hleft | intro H; discriminate H ] | ].
    split; [ intro H; discriminate H | ].
    split; [ reflexivity | ].
    exists k. split; [ exact Hk | exact Hs ].
  - cbn [TavusAPI.failure TavusAPI.success TavusAPI.error
         TavusAPI.conversation_id TavusAPI.conversation_url].
    rewrite Hu.
    split; [ split; intro H; discriminate H | ].
    split; [ intro H; discriminate H | ].
    split; [ intros _; repeat split | ].
    split; [ reflexivity | ].
    exists k. split; [ exact Hk | exact Hs ].
  - cbn [TavusAPI.failure TavusAPI.success TavusAPI.error
         TavusAPI.conversation_id TavusAPI.conversation_url].
    rewrite Hu.
    split; [ split; intro H; discriminate H | ].
    split; [ intro H; discriminate H | ].
    split; [ intros _; repeat split | ].
    split; [ reflexivity | ].
    exists k. split; [ exact Hk | exact Hs ].
Qed.

Lemma createConversation_outcomes_witness :
  let created := mkPayload None None None (Some (JS.lit "c42"))
                   (Some (JS.lit "https://tavus.daily.co/c42")) None
                   None None None None None in
  let net : Network := fun _ => mkExchange 400 (Response 200 (JsonValue created)) in
  let w := TavusAPI.mkWorld
             (TavusAPI.mkFields 0 0 (TavusAPI.mkConversationUsage 0 250 250 0))
             1000 [] in
  let r := TavusAPI.mkConversationRequest (JS.lit "r9") (JS.lit "Demo")
             (JS.lit "Hello!") None in
  TavusAPI.current_month_usage
    (TavusAPI.conversationUsage
       (TavusAPI.fields (snd (TavusAPI.createConversation net r w)))) = 1.
Proof.
  intros created net w r.
  apply (createConversation_outcomes net r w). reflexivity.
Defined.

(** X14.  [updateConversationUsage] always leaves
    [remaining_minutes = total_minutes_available - total_minutes_used],
    whatever value the caller passed for [remaining_minutes], and keeps the
    request counter; and once the minutes used reach the minutes available,
    [createConversation] refuses every valid request with the quota message
    before anything is sent. *)
Theorem usage_update_gates_creation
  (net : Network) (usage : TavusAPI.PartialUsage)
  (request : TavusAPI.ConversationRequest) (w : TavusAPI.World) :
  let f' := TavusAPI.updateConversationUsage usage (TavusAPI.fields w) in
  let u' := TavusAPI.getConversationUsage f' in
  let w' := TavusAPI.mkWorld f' (TavusAPI.clock w) (TavusAPI.sent w) in
  TavusAPI.remaining_minutes u'
    = TavusAPI.total_minutes_available u' - TavusAPI.total_minutes_used u'
  /\ TavusAPI.requestCount f' = TavusAPI.requestCount (TavusAPI.fields w)
  /\ (TavusAPI.validateConversationRequest request = None ->
      TavusAPI.total_minutes_available u' <= TavusAPI.total_minutes_used u' ->
      TavusAPI.createConversation net request w'
      = (TavusAPI.failure (JS.lit
           "No conversation minutes remaining. Please check your Tavus account."),
         w')).
Proof.
  cbv zeta. split; [ reflexivity | split; [ reflexivity | ] ].
  intros Hvalid Hspent. unfold TavusAPI.createConversation. rewrite Hvalid.
  cbn [TavusAPI.fields TavusAPI.updateConversationUsage
       TavusAPI.conversationUsage TavusAPI.remaining_minutes
       TavusAPI.getConversationUsage TavusAPI.total_minutes_available
       TavusAPI.total_minutes_used] in *.
  match goal with
  | |- (if ?b then _ else _) = _ => destruct b eqn:Hb
  end; [ reflexivity | ].
  apply Z.leb_gt in Hb. lia.
Qed.

Lemma usage_update_gates_creation_witness :
  let net : Network := fun _ => mkExchange 400 (Response 200 (JsonValue noPayload)) in
  let w := TavusAPI.mkWorld
             (TavusAPI.mkFields 0 0 (TavusAPI.mkConversationUsage 0 250 250 0))
             1000 [] in
  let spent := TavusAPI.mkPartialUsage (Some 250) None (Some 99) None in
  let r := TavusAPI.mkConversationRequest (JS.lit "r9") (JS.lit "Demo")
             (JS.lit "Hello!") None in
  let w' := TavusAPI.mkWorld (TavusAPI.updateConversationUsage spent (TavusAPI.fields w))
              1000 [] in
  TavusAPI.sent (snd (TavusAPI.createConversation net r w')) = [].
Proof.
  intros net w spent r w'.
  destruct (usage_update_gates_creation net spent r w) as [_ [_ Hgate]].
  cbv zeta in Hgate.
  change (TavusAPI.mkWorld
            (TavusAPI.updateConversationUsage spent (TavusAPI.fields w))
            (TavusAPI.clock w) (TavusAPI.sent w)) with w' in Hgate.
  rewrite Hgate; [ reflexivity | reflexivity | ].
  vm_compute. intro H. discriminate H.
Defined.

Lemma lingo_answered_wellFormed (attempt : nat) (o : Outcome)
  (c : Completion LingoAPI.TranslationResponse) :
  LingoAPI.answered attempt o = Settled c ->
  exists resp, c = Returns resp /\ Spec.wellFormed resp.
Proof.
  unfold LingoAPI.answered. intros H.
  assert (Hfail : forall message,
             Spec.wellFormed (LingoAPI.failure message))
    by (intros message; right; exists message; reflexivity).
  assert (Hcaught : forall e, LingoAPI.caught attempt e = Settled c ->
             exists resp, c = Returns resp /\ Spec.wellFormed resp).
  { intros e He. destruct (lingo_caught_returns attempt e c He) as [m ->].
    eexists. split; [ reflexivity | apply Hfail ]. }
  destruct o as [st body | e]; [ | eapply Hcaught; eassumption ].
  destruct (negb (ok st)).
  - destruct ((st >=? 500) && (attempt <=? LingoAPI.maxRetries)%nat);
      [ discriminate H | ].
    inversion H. eexists. split; [ reflexivity | apply Hfail ].
  - destruct body as [raw why | | data]; try (eapply Hcaught; eassumption).
    destruct (p_translated_text data) as [tr |].
    + destruct tr as [| c0 tr]; cbn [JS.truthy] in H; inversion H;
        (eexists; split; [ reflexivity | ]); [ apply Hfail | ].
      left. exists (c0 :: tr).
      repeat split. intro Habs. discriminate Habs.
    + inversion H. eexists. split; [ reflexivity | apply Hfail ].
Qed.

Lemma lingo_makeRequest_wellFormed (net : Network) (attempt : nat) (w : LingoAPI.World) :
  let r := LingoAPI.makeRequest net attempt w in
  (forall resp, fst r = Returns resp -> Spec.wellFormed resp)
  /\ (LingoAPI.sent w <= LingoAPI.sent (snd r)
      <= LingoAPI.sent w + S (S LingoAPI.maxRetries - attempt))%nat.
Proof.
  apply (lingo_makeRequest_ind net
           (fun attempt w r =>
              (forall resp, fst r = Returns resp -> Spec.wellFormed resp)
              /\ (LingoAPI.sent w <= LingoAPI.sent (snd r)
                  <= LingoAPI.sent w + S (S LingoAPI.maxRetries - attempt))%nat)).
  - intros a w0 c w' Hp.
    destruct (fst (LingoAPI.checkRateLimit (LingoAPI.clock w0) (LingoAPI.fields w0)))
      eqn:Hgate.
    + destruct (lingo_pass_accepted net a w0 Hgate) as [Hsent _].
      pose proof (lingo_pass_accepted_outcome net a w0 Hgate) as Hfst.
      cbv zeta in Hfst. rewrite Hp in Hsent, Hfst. cbn [fst snd] in *.
      split; [ | lia ].
      intros resp ->.
      destruct Hfst as [[Hc _] | [Ha _]]; symmetry in Hc || symmetry in Ha.
      * destruct (lingo_caught_returns a _ _ Hc) as [m Hm].
        inversion Hm. right. exists m. reflexivity.
      * destruct (lingo_answered_wellFormed a _ _ Ha) as [resp' [Hr Hwf]].
        inversion Hr. exact Hwf.
    + rewrite (lingo_pass_refused net a w0 Hgate) in Hp. inversion Hp.
      cbn [fst snd]. split; [ intros resp H; discriminate H | lia ].
  - intros a w0 ms w' Hp Hle [IHshape IHsent].
    destruct (lingo_pass_retry net a w0 w' ms Hp) as [_ Hsent].
    split; [ exact IHshape | ].
    cbn [LingoAPI.delay LingoAPI.sent] in IHsent. rewrite Hsent in IHsent.
    unfold LingoAPI.maxRetries in *. lia.
Qed.

Lemma present_nonempty (s : jsstring) : Spec.present s = true -> s <> [].
Proof.
  intros Hp ->. discriminate Hp.
Qed.

Lemma validateRequest_firstViolation (r : LingoAPI.TranslationRequest) :
  LingoAPI.validateRequest r = Spec.firstTranslationViolation r.
Proof.
  unfold LingoAPI.validateRequest, Spec.firstTranslationViolation,
    Spec.translationRules, LingoAPI.getLanguageByCode.
  rewrite blank_test, over_length_test.
  cbn [find fst snd].
  destruct (Spec.present (LingoAPI.text r)); cbn [negb]; [ | reflexivity ].
  destruct (JS.length (LingoAPI.text r) <=? 1000); cbn [negb]; [ | reflexivity ].
  destruct (JS.truthy (LingoAPI.target_language r)); cbn [negb]; [ | reflexivity ].
  assert (Hfind : forall c,
            existsb (fun lang => JS.eqb (LingoAPI.code lang) c)
              LingoAPI.supportedLanguages
            = match find (fun lang => JS.eqb (LingoAPI.code lang) c)
                      LingoAPI.supportedLanguages with
              | Some _ => true
              | None => false
              end).
  { intros c. induction LingoAPI.supportedLanguages as [| lang rest IH];
      [ reflexivity | ].
    cbn [existsb find]. destruct (JS.eqb (LingoAPI.code lang) c);
      [ reflexivity | exact IH ]. }
  rewrite !Hfind.
  destruct (find _ LingoAPI.supportedLanguages); cbn [negb]; [ | reflexivity ].
  destruct (LingoAPI.source_language r) as [source |]; [ | reflexivity ].
  rewrite Hfind.
  destruct (JS.truthy source); cbn [negb orb]; [ | reflexivity ].
  destruct (find _ LingoAPI.supportedLanguages); reflexivity.
Qed.

(** X15.  Every answer of [translateText] is well formed, with any network:
    either a success that carries a translated text that is not empty and
    no error, or a failure that carries a message and nothing else; a
    success is only given to a request that passes validation; and one call
    puts at most four requests on the network. *)
Theorem translateText_outcomes
  (net : Network) (request : LingoAPI.TranslationRequest) (w : LingoAPI.World) :
  let r := LingoAPI.translateText net request w in
  Spec.wellFormed (fst r)
  /\ (LingoAPI.success (fst r) = true -> LingoAPI.validateRequest request = None)
  /\ (LingoAPI.sent w <= LingoAPI.sent (snd r) <= LingoAPI.sent w + 4)%nat.
Proof.
  cbv zeta. unfold LingoAPI.translateText.
  destruct (LingoAPI.validateRequest request) as [message |] eqn:Hv.
  { cbn [fst snd]. split; [ right; exists message; reflexivity | ].
    split; [ intro H; discriminate H | lia ]. }
  match goal with
  | |- context [if ?b then _ else _] => destruct b
  end.
  - cbn [fst snd]. split; [ | split; [ reflexivity | lia ] ].
    left. exists (LingoAPI.text request).
    split; [ | repeat split ].
    apply present_nonempty.
    rewrite validateRequest_firstViolation in Hv.
    unfold Spec.firstTranslationViolation, Spec.translationRules in Hv.
    cbn [find fst snd] in Hv.
    destruct (Spec.present (LingoAPI.text request));
      [ reflexivity | discriminate Hv ].
  - destruct (lingo_makeRequest_wellFormed net 1 w) as [Hshape Hsent].
    destruct (LingoAPI.makeRequest net 1 w) as [[resp | e] w'];
      cbn [fst snd] in *.
    + split; [ apply Hshape; reflexivity | split; [ reflexivity | exact Hsent ] ].
    + split; [ right; eexists; reflexivity | ].
      split; [ reflexivity | exact Hsent ].
Qed.

Lemma translateText_outcomes_witness :
  let hola := mkPayload None None None None None None None None None
                (Some (JS.lit "Hola")) (Some (JS.lit "en")) in
  let net : Network := fun _ => mkExchange 300 (Response 200 (JsonValue hola)) in
  let w := LingoAPI.mkWorld (LingoAPI.mkFields 0 0) 1000 0%nat in
  let r := LingoAPI.mkTranslationRequest (JS.lit "Hello") (JS.lit "es") None in
  LingoAPI.validateRequest r = None.
Proof.
  intros hola net w r.
  apply (translateText_outcomes net r w). reflexivity.
Defined.

(** X16.  The validation of [translateText] is the search for the first
    violated rule in the order text present, text length, target language
    present, target language supported, source language supported; a
    request that violates a rule gets the message of the first rule it
    violates and nothing is sent or counted. *)
Theorem translateText_first_violation
  (net : Network) (request : LingoAPI.TranslationRequest) (w : LingoAPI.World) :
  LingoAPI.validateRequest request = Spec.firstTranslationViolation request
  /\ (forall message,
        Spec.firstTranslationViolation request = Some message ->
        LingoAPI.translateText net request w = (LingoAPI.failure message, w)).
Proof.
  pose proof (validateRequest_firstViolation request) as Hv.
  split; [ exact Hv | ].
  intros message Hm. unfold LingoAPI.translateText. rewrite Hv, Hm. reflexivity.
Qed.

Lemma translateText_first_violation_witness :
  let net : Network := fun _ => mkExchange 300 (Response 200 (JsonValue noPayload)) in
  let w := LingoAPI.mkWorld (LingoAPI.mkFields 0 0) 1000 0%nat in
  let r := LingoAPI.mkTranslationRequest (JS.lit "Hello") (JS.lit "xx")
             (Some (JS.lit "yy")) in
  LingoAPI.translateText net r w
  = (LingoAPI.failure (JS.lit "Unsupported target language"), w).
Proof.
  intros net w r.
  apply (translateText_first_violation net r w). reflexivity.
Defined.

(** * Further properties of the profile store *)

Section Base64.

Local Ltac Zify.zify_post_hook ::= Z.to_euclidean_division_equations.

Lemma base64Value_base64Char (v : N) :
  (v < 64)%N -> Spec.base64Value (JS.base64Char v) = v.
Proof.
  intros Hv. unfold JS.base64Char, Spec.base64Value.
  destruct (N.ltb_spec v 26).
  { replace ((65 <=? 65 + v) && (65 + v <=? 90))%N with true; [ lia | ].
    symmetry. apply andb_true_intro. split; apply N.leb_le; lia. }
  destruct (N.ltb_spec v 52).
  { replace ((65 <=? 97 + (v - 26)) && (97 + (v - 26) <=? 90))%N with false.
    - replace ((97 <=? 97 + (v - 26)) && (97 + (v - 26) <=? 122))%N with true;
        [ lia | ].
      symmetry. apply andb_true_intro. split; apply N.leb_le; lia.
    - symmetry. apply andb_false_intro2. apply N.leb_gt. lia. }
  destruct (N.ltb_spec v 62).
  { replace ((65 <=? 48 + (v - 52)) && (48 + (v - 52) <=? 90))%N with false
      by (symmetry; apply andb_false_intro1; apply N.leb_gt; lia).
    replace ((97 <=? 48 + (v - 52)) && (48 + (v - 52) <=? 122))%N with false
      by (symmetry; apply andb_false_intro1; apply N.leb_gt; lia).
    replace ((48 <=? 48 + (v - 52)) && (48 + (v - 52) <=? 57))%N with true;
      [ lia | ].
    symmetry. apply andb_true_intro. split; apply N.leb_le; lia. }
  destruct (N.eqb_spec v 62) as [-> | Hne]; [ reflexivity | ].
  assert (v = 63%N) as -> by lia. reflexivity.
Qed.

Lemma base64Char_not_padding (v : N) : (JS.base64Char v =? 61)%N = false.
Proof.
  apply N.eqb_neq. unfold JS.base64Char.
  destruct (N.ltb_spec v 26); [ lia | ].
  destruct (N.ltb_spec v 52); [ lia | ].
  destruct (N.ltb_spec v 62); [ lia | ].
  destruct (v =? 62)%N; lia.
Qed.

Lemma unbase64_base64_group (a b c : N) (more : list N) :
  (a <= 255)%N -> (b <= 255)%N -> (c <= 255)%N ->
  Spec.unbase64 (JS.base64 (a :: b :: c :: more))
  = a :: b :: c :: Spec.unbase64 (JS.base64 more).
Proof.
  intros Ha Hb Hc. cbn [JS.base64 app Spec.unbase64].
  rewrite !base64Char_not_padding.
  rewrite !base64Value_base64Char by lia.
  cbn [app]. f_equal; [ lia | ]. f_equal; [ lia | ]. f_equal. lia.
Qed.

(** Base64 can be read back: decoding what [btoa] made gives the bytes. *)
Lemma unbase64_base64 (bytes : list N) :
  Spec.latin1 bytes = true -> Spec.unbase64 (JS.base64 bytes) = bytes.
Proof.
  remember (List.length bytes) as n eqn:Hn. revert bytes Hn.
  induction n as [n IH] using lt_wf_ind. intros bytes Hn Hl.
  destruct bytes as [| a [| b [| c more]]].
  - reflexivity.
  - cbn [Spec.latin1 forallb] in Hl. apply andb_prop in Hl. destruct Hl as [Ha _].
    apply N.leb_le in Ha.
    cbn [JS.base64 Spec.unbase64].
    rewrite !base64Value_base64Char by lia.
    change (61 =? 61)%N with true. cbv iota. f_equal. lia.
  - cbn [Spec.latin1 forallb] in Hl.
    apply andb_prop in Hl. destruct Hl as [Ha Hl].
    apply andb_prop in Hl. destruct Hl as [Hb _].
    apply N.leb_le in Ha. apply N.leb_le in Hb.
    cbn [JS.base64 Spec.unbase64]. rewrite !base64Char_not_padding.
    rewrite !base64Value_base64Char by lia.
    change (61 =? 61)%N with true. cbv iota. f_equal; [ lia | ]. f_equal. lia.
  - cbn [Spec.latin1 forallb] in Hl.
    apply andb_prop in Hl. destruct Hl as [Ha Hl].
    apply andb_prop in Hl. destruct Hl as [Hb Hl].
    apply andb_prop in Hl. destruct Hl as [Hc Hl].
    apply N.leb_le in Ha. apply N.leb_le in Hb. apply N.leb_le in Hc.
    rewrite unbase64_base64_group by assumption.
    do 3 f_equal.
    apply (IH (List.length more)); [ subst n; cbn [List.length]; lia | reflexivity | ].
    exact Hl.
Qed.

End Base64.

Lemma jsstring_eqb_eq (a b : jsstring) : JS.eqb a b = true <-> a = b.
Proof.
  split; [ | intros ->; apply jsstring_eqb_refl ].
  revert b. induction a as [| x a IH]; intros [| y b] H;
    try reflexivity; try discriminate H.
  cbn [JS.eqb] in H. apply andb_prop in H. destruct H as [Hxy Hab].
  apply N.eqb_eq in Hxy. subst y. f_equal. apply IH. exact Hab.
Qed.

Lemma latin1_app (a b : jsstring) :
  Spec.latin1 (a ++ b) = Spec.latin1 a && Spec.latin1 b.
Proof. unfold Spec.latin1. apply forallb_app. Qed.

Lemma hashPassword_latin1 (password : jsstring) :
  UserStorageManager.hashPassword password
  = if Spec.latin1 password
    then Some (JS.base64 (password ++ JS.lit "voiceverse_salt"))
    else None.
Proof.
  unfold UserStorageManager.hashPassword, JS.btoa.
  change (forallb (fun c => (c <=? 255)%N) (password ++ JS.lit "voiceverse_salt"))
    with (Spec.latin1 (password ++ JS.lit "voiceverse_salt")).
  rewrite latin1_app. change (Spec.latin1 (JS.lit "voiceverse_salt")) with true.
  rewrite andb_true_r. reflexivity.
Qed.

(** X17.  The stored password "hash" is an encoding, not a hash: for every
    password [btoa] accepts (code units up to 255), base64-decoding the
    stored text and dropping the 15 characters of the fixed salt gives the
    password back.  Accordingly [verifyPassword] accepts exactly the
    password that was stored; with a password [btoa] does not accept it
    throws. *)
Theorem password_hash_is_reversible (password attempt : jsstring) :
  Spec.latin1 password = true ->
  exists hashed,
    UserStorageManager.hashPassword password = Some hashed
    /\ Spec.recoverPassword hashed = password
    /\ (Spec.latin1 attempt = true ->
        (UserStorageManager.verifyPassword attempt hashed = Some true
           <-> attempt = password)
        /\ (UserStorageManager.verifyPassword attempt hashed = Some false
           <-> attempt <> password))
    /\ (Spec.latin1 attempt = false ->
        UserStorageManager.verifyPassword attempt hashed = None).
Proof.
  intros Hl. exists (JS.base64 (password ++ JS.lit "voiceverse_salt")).
  assert (Hback : forall p, Spec.latin1 p = true ->
            Spec.unbase64 (JS.base64 (p ++ JS.lit "voiceverse_salt"))
            = p ++ JS.lit "voiceverse_salt").
  { intros p Hp. apply unbase64_base64. rewrite latin1_app, Hp. reflexivity. }
  split; [ rewrite hashPassword_latin1, Hl; reflexivity | ].
  split.
  { unfold Spec.recoverPassword. rewrite (Hback password Hl).
    rewrite length_app. change (List.length (JS.lit "voiceverse_salt")) with 15%nat.
    replace (List.length password + 15 - 15)%nat with (List.length password + 0)%nat
      by lia.
    rewrite firstn_app_2. cbn [firstn]. apply app_nil_r. }
  split.
  - intros Ha. unfold UserStorageManager.verifyPassword.
    rewrite hashPassword_latin1, Ha.
    assert (Hiff : JS.eqb (JS.base64 (attempt ++ JS.lit "voiceverse_salt"))
                     (JS.base64 (password ++ JS.lit "voiceverse_salt")) = true
                   <-> attempt = password).
    { rewrite jsstring_eqb_eq. split; [ | intros ->; reflexivity ].
      intros Heq. apply (f_equal Spec.unbase64) in Heq.
      rewrite (Hback attempt Ha), (Hback password Hl) in Heq.
      apply app_inv_tail in Heq. exact Heq. }
    destruct (JS.eqb (JS.base64 (attempt ++ JS.lit "voiceverse_salt"))
                (JS.base64 (password ++ JS.lit "voiceverse_salt"))).
    + split; split; intro H; try reflexivity; try discriminate H.
      * apply Hiff. reflexivity.
      * exfalso. apply H. apply Hiff. reflexivity.
    + split; split; intro H; try reflexivity; try discriminate H.
      * apply Hiff in H. discriminate H.
      * intro Heq. apply Hiff in Heq. discriminate Heq.
  - intros Ha. unfold UserStorageManager.verifyPassword.
    rewrite hashPassword_latin1, Ha. reflexivity.
Qed.

Lemma password_hash_is_reversible_witness :
  exists hashed,
    UserStorageManager.hashPassword (JS.lit "s3cret!") = Some hashed
    /\ Spec.recoverPassword hashed = JS.lit "s3cret!".
Proof.
  destruct (password_hash_is_reversible (JS.lit "s3cret!") (JS.lit "guess") eq_refl)
    as [hashed [Hh [Hr _]]].
  exists hashed. split; [ exact Hh | exact Hr ].
Defined.

Lemma truthy_trim_present (s : jsstring) : JS.truthy (JS.trim s) = Spec.present s.
Proof. unfold Spec.present. destruct (JS.trim s); reflexivity. Qed.

Section ProfileStore.

Variable toLowerCase : jsstring -> jsstring.

Lemma createUser_fields (generatedId isoNow name email password : jsstring)
  (ls : LocalStorage) :
  UserStorageManager.createUser toLowerCase generatedId isoNow name email password ls
  = match Spec.firstRegistrationViolation name email password with
    | Some message => (UserStorageManager.failure message, ls)
    | None =>
        if fst (UserStorageManager.emailExists toLowerCase email ls) then
          (UserStorageManager.failure
             (JS.lit "An account with this email address already exists"), ls)
        else
          match UserStorageManager.hashPassword password with
          | None =>
              (UserStorageManager.failure
                 (JS.lit "Failed to create account. Please try again."), ls)
          | Some hashed =>
              let newUser :=
                mkStoredUser generatedId (JS.trim (toLowerCase email))
                  (JS.trim name) hashed isoNow isoNow in
              (UserStorageManager.mkResult true None
                 (Some (UserStorageManager.profileOf newUser)),
               UserStorageManager.saveAllUsers
                 (fst (UserStorageManager.getAllUsers ls) ++ [newUser]) ls)
          end
    end.
Proof.
  unfold UserStorageManager.createUser, Spec.firstRegistrationViolation,
    Spec.registrationRules.
  cbn [find fst snd]. rewrite !truthy_trim_present.
  destruct (Spec.present name); cbn [negb]; [ | reflexivity ].
  rewrite (Z.ltb_antisym 2 (JS.length (JS.trim name))).
  destruct (2 <=? JS.length (JS.trim name)); cbn [negb]; [ | reflexivity ].
  destruct (Spec.present email); cbn [negb]; [ | reflexivity ].
  rewrite <- negb_andb.
  destruct (JS.includes email (JS.lit "@") && JS.includes email (JS.lit "."));
    cbn [negb]; [ | reflexivity ].
  destruct (JS.truthy password); cbn [negb]; [ | reflexivity ].
  rewrite (Z.ltb_antisym 6 (JS.length password)).
  destruct (6 <=? JS.length password); cbn [negb]; [ | reflexivity ].
  unfold UserStorageManager.emailExists, UserStorageManager.getAllUsers.
  destruct (read (USERS_KEY ls)) eqn:Hread; cbn [fst snd];
    match goal with
    | |- (if ?b then _ else _) = _ => destruct b
    end; rewrite ?Hread; reflexivity.
Qed.

(** X18.  [createUser] checks the fields in the order name, name length,
    e-mail, e-mail shape, password, password length and reports the first
    that fails; then a taken address; then a password [btoa] cannot encode.
    Whenever it fails, storage is what it was.  When it succeeds, exactly
    one record is appended to the table read (an unreadable table counts as
    empty and is replaced), holding the trimmed name, the lower-cased and
    trimmed address and the encoded password; the other three keys are
    never touched. *)
Theorem createUser_effect
  (generatedId isoNow name email password : jsstring) (ls : LocalStorage) :
  let r := UserStorageManager.createUser toLowerCase generatedId isoNow
             name email password ls in
  (forall message,
      Spec.firstRegistrationViolation name email password = Some message ->
      r = (UserStorageManager.failure message, ls))
  /\ (UserStorageManager.success (fst r) = false ->
      snd r = ls /\ UserStorageManager.user (fst r) = None
      /\ UserStorageManager.error (fst r) <> None)
  /\ (UserStorageManager.success (fst r) = true ->
      exists hashed,
        UserStorageManager.hashPassword password = Some hashed
        /\ Spec.firstRegistrationViolation name email password = None
        /\ fst (UserStorageManager.emailExists toLowerCase email ls) = false
        /\ USERS_KEY (snd r)
           = Some (Encoded
               (fst (UserStorageManager.getAllUsers ls)
                ++ [mkStoredUser generatedId (JS.trim (toLowerCase email))
                      (JS.trim name) hashed isoNow isoNow]))
        /\ UserStorageManager.user (fst r)
           = Some (mkUserProfile generatedId (JS.trim (toLowerCase email))
                     (JS.trim name) isoNow isoNow)
        /\ UserStorageManager.error (fst r) = None)
  /\ (Spec.latin1 password = false -> UserStorageManager.success (fst r) = false)
  /\ CURRENT_USER_KEY (snd r) = CURRENT_USER_KEY ls
  /\ SESSION_KEY (snd r) = SESSION_KEY ls
  /\ WORK_BACKUP_KEY (snd r) = WORK_BACKUP_KEY ls.
Proof.
  intros r. subst r. rewrite createUser_fields.
  destruct (Spec.firstRegistrationViolation name email password) as [m |].
  { cbn [fst snd UserStorageManager.failure UserStorageManager.success
         UserStorageManager.user UserStorageManager.error].
    split; [ intros message H; inversion H; reflexivity | ].
    split; [ intros _; repeat split; intro H; discriminate H | ].
    split; [ intro H; discriminate H | ].
    repeat split. }
  destruct (fst (UserStorageManager.emailExists toLowerCase email ls)).
  { cbn [fst snd UserStorageManager.failure UserStorageManager.success
         UserStorageManager.user UserStorageManager.error].
    split; [ intros message H; discriminate H | ].
    split; [ intros _; repeat split; intro H; discriminate H | ].
    split; [ intro H; discriminate H | ].
    repeat split. }
  rewrite hashPassword_latin1.
  destruct (Spec.latin1 password).
  - cbv zeta.
    cbn [fst snd UserStorageManager.success UserStorageManager.user
         UserStorageManager.error UserStorageManager.profileOf
         su_id su_email su_name su_createdAt su_updatedAt].
    split; [ intros message H; discriminate H | ].
    split; [ intro H; discriminate H | ].
    split; [ intros _; eexists; repeat split | ].
    split; [ intro H; discriminate H | ].
    repeat split.
  - cbn [fst snd UserStorageManager.failure UserStorageManager.success
         UserStorageManager.user UserStorageManager.error].
    split; [ intros message H; discriminate H | ].
    split; [ intros _; repeat split; intro H; discriminate H | ].
    split; [ intro H; discriminate H | ].
    repeat split.
Qed.

Lemma find_app_miss {A : Type} (p : A -> bool) (l l' : list A) :
  existsb p l = false -> find p (l ++ l') = find p l'.
Proof.
  induction l as [| x l IH]; [ reflexivity | ].
  cbn [existsb app find]. intros H. apply orb_false_elim in H.
  destruct H as [Hx Hl]. rewrite Hx. apply IH. exact Hl.
Qed.

Lemma createUser_success
  (generatedId isoNow name email password : jsstring) (ls : LocalStorage) :
  let r := UserStorageManager.createUser toLowerCase generatedId isoNow
             name email password ls in
  UserStorageManager.success (fst r) = true ->
  exists hashed,
    UserStorageManager.hashPassword password = Some hashed
    /\ Spec.firstRegistrationViolation name email password = None
    /\ fst (UserStorageManager.emailExists toLowerCase email ls) = false
    /\ USERS_KEY (snd r)
       = Some (Encoded
           (fst (UserStorageManager.getAllUsers ls)
            ++ [mkStoredUser generatedId (JS.trim (toLowerCase email))
                  (JS.trim name) hashed isoNow isoNow]))
    /\ UserStorageManager.user (fst r)
       = Some (mkUserProfile generatedId (JS.trim (toLowerCase email))
                 (JS.trim name) isoNow isoNow).
Proof.
  cbv zeta. rewrite createUser_fields.
  destruct (Spec.firstRegistrationViolation name email password) as [m |];
    [ intros H; discriminate H | ].
  destruct (fst (UserStorageManager.emailExists toLowerCase email ls));
    [ intros H; discriminate H | ].
  destruct (UserStorageManager.hashPassword password) as [hashed |];
    [ | intros H; discriminate H ].
  intros _. exists hashed. repeat split.
Qed.

Hypothesis lower_idempotent : forall s, toLowerCase (toLowerCase s) = toLowerCase s.
Hypothesis lower_trim : forall s, JS.trim (toLowerCase s) = toLowerCase (JS.trim s).

(** X19.  Registration and sign-in agree.  Given a case folding that is
    idempotent and commutes with [trim], a user created with an address
    without surrounding white space can sign in with the same password
    under any spelling of the address that differs only by case or
    surrounding white space, and gets the profile that [createUser]
    returned; a second registration of the address in any case is refused,
    and storage stays as it is. *)
Theorem create_then_authenticate
  (generatedId isoNow name email password : jsstring) (ls : LocalStorage) :
  JS.trim email = email ->
  let created := UserStorageManager.createUser toLowerCase generatedId isoNow
                   name email password ls in
  UserStorageManager.success (fst created) = true ->
  (forall spelled,
      Spec.present spelled = true ->
      toLowerCase (JS.trim spelled) = toLowerCase email ->
      UserStorageManager.authenticateUser toLowerCase spelled password (snd created)
      = (UserStorageManager.mkResult true None (UserStorageManager.user (fst created)),
         snd created))
  /\ (forall id2 iso2 name2 spelled password2,
      toLowerCase spelled = toLowerCase email ->
      Spec.firstRegistrationViolation name2 spelled password2 = None ->
      UserStorageManager.createUser toLowerCase id2 iso2 name2 spelled password2
        (snd created)
      = (UserStorageManager.failure
           (JS.lit "An account with this email address already exists"),
         snd created)).
Proof.
  intros Htrim created Hok.
  destruct (createUser_success generatedId isoNow name email password ls Hok)
    as [hashed [Hh [Hv [Hfree [Hk Hu]]]]].
  fold created in Hk, Hu.
  set (newUser := mkStoredUser generatedId (JS.trim (toLowerCase email))
                    (JS.trim name) hashed isoNow isoNow) in *.
  set (users := fst (UserStorageManager.getAllUsers ls)) in *.
  assert (Hstored : toLowerCase (su_email newUser) = toLowerCase email).
  { cbn [newUser su_email]. rewrite lower_trim, Htrim. apply lower_idempotent. }
  assert (Hmiss : existsb (fun u => JS.eqb (toLowerCase (su_email u))
                                     (toLowerCase email)) users = false).
  { revert Hfree. unfold UserStorageManager.emailExists. subst users.
    destruct (UserStorageManager.getAllUsers ls) as [us ls0]. cbn [fst]. auto. }
  assert (Hread : UserStorageManager.getAllUsers (snd created)
                  = (users ++ [newUser], snd created)).
  { unfold UserStorageManager.getAllUsers. rewrite Hk. reflexivity. }
  assert (Hpw : JS.truthy password = true).
  { revert Hv. unfold Spec.firstRegistrationViolation, Spec.registrationRules.
    cbn [find fst snd].
    repeat match goal with
           | |- context [if negb ?b then _ else _] =>
               destruct b; cbn [negb]; try (intro H; discriminate H)
           end.
    reflexivity. }
  split.
  - intros spelled Hpresent Hsame.
    unfold UserStorageManager.authenticateUser.
    rewrite truthy_trim_present, Hpresent, Hpw. cbn [negb].
    rewrite Hread, lower_trim, Hsame.
    rewrite find_app_miss by exact Hmiss.
    cbn [find]. rewrite Hstored, jsstring_eqb_refl.
    unfold UserStorageManager.verifyPassword. rewrite Hh.
    cbn [newUser su_password]. rewrite jsstring_eqb_refl.
    rewrite Hu. reflexivity.
  - intros id2 iso2 name2 spelled password2 Hsame Hfields.
    rewrite createUser_fields, Hfields.
    unfold UserStorageManager.emailExists. rewrite Hread. cbn [fst].
    rewrite existsb_app. cbn [existsb].
    rewrite Hstored, Hsame, jsstring_eqb_refl.
    rewrite orb_true_r. reflexivity.
Qed.

End ProfileStore.

(** The case folding of the examples meets what X19 asks of one. *)
Lemma asciiLower_idempotent (s : jsstring) :
  Scenario.asciiLower (Scenario.asciiLower s) = Scenario.asciiLower s.
Proof.
  unfold Scenario.asciiLower. rewrite map_map. apply map_ext. intros c.
  destruct ((65 <=? c) && (c <=? 90))%N eqn:Hc; [ | rewrite Hc; reflexivity ].
  apply andb_prop in Hc. destruct Hc as [H1 H2].
  apply N.leb_le in H1. apply N.leb_le in H2.
  replace ((65 <=? c + 32) && (c + 32 <=? 90))%N with false; [ reflexivity | ].
  symmetry. apply andb_false_intro2. apply N.leb_gt. lia.
Qed.

Lemma letters_are_not_white_space (c : N) :
  (65 <= c <= 122)%N -> JS.isWhiteSpace c = false.
Proof.
  intros Hc. unfold JS.isWhiteSpace.
  repeat (apply orb_false_intro);
    try (apply N.eqb_neq; lia);
    try (apply andb_false_intro1; apply N.leb_gt; lia);
    try (apply andb_false_intro2; apply N.leb_gt; lia).
Qed.

Lemma trimStart_map (f : N -> N) (s : jsstring) :
  (forall c, JS.isWhiteSpace (f c) = JS.isWhiteSpace c) ->
  JS.trimStart (map f s) = map f (JS.trimStart s).
Proof.
  intros Hf. induction s as [| c s IH]; [ reflexivity | ].
  cbn [map JS.trimStart]. rewrite Hf.
  destruct (JS.isWhiteSpace c); [ exact IH | reflexivity ].
Qed.

Lemma asciiLower_trim (s : jsstring) :
  JS.trim (Scenario.asciiLower s) = Scenario.asciiLower (JS.trim s).
Proof.
  assert (Hf : forall c,
             JS.isWhiteSpace (if (65 <=? c) && (c <=? 90) then c + 32 else c)%N
             = JS.isWhiteSpace c).
  { intros c. destruct ((65 <=? c) && (c <=? 90))%N eqn:Hc; [ | reflexivity ].
    apply andb_prop in Hc. destruct Hc as [H1 H2].
    apply N.leb_le in H1. apply N.leb_le in H2.
    rewrite !letters_are_not_white_space by lia. reflexivity. }
  unfold JS.trim, JS.trimEnd, Scenario.asciiLower.
  rewrite (trimStart_map _ _ Hf), <- map_rev, (trimStart_map _ _ Hf), map_rev.
  reflexivity.
Qed.

Lemma createUser_effect_witness :
  let r := UserStorageManager.createUser Scenario.asciiLower
             (JS.lit "user_1_k") (JS.lit "2024-01-01T00:00:00.000Z")
             (JS.lit " Ann Lee ") (JS.lit "Ann@X.com") (JS.lit "s3cret!")
             (mkLocalStorage (Some (Garbled (JS.lit "{oops"))) None None None) in
  USERS_KEY (snd r)
  = Some (Encoded
      [mkStoredUser (JS.lit "user_1_k") (JS.lit "ann@x.com") (JS.lit "Ann Lee")
         (JS.lit "czNjcmV0IXZvaWNldmVyc2Vfc2FsdA==")
         (JS.lit "2024-01-01T00:00:00.000Z") (JS.lit "2024-01-01T00:00:00.000Z")]).
Proof.
  intros r.
  destruct (createUser_effect Scenario.asciiLower
              (JS.lit "user_1_k") (JS.lit "2024-01-01T00:00:00.000Z")
              (JS.lit " Ann Lee ") (JS.lit "Ann@X.com") (JS.lit "s3cret!")
              (mkLocalStorage (Some (Garbled (JS.lit "{oops"))) None None None))
    as [_ [_ [Hsucc _]]].
  destruct (Hsucc eq_refl) as [hashed [Hh [_ [_ [Hk _]]]]].
  fold r in Hk. rewrite Hk.
  vm_compute in Hh. inversion Hh. reflexivity.
Defined.

Lemma create_then_authenticate_witness :
  let created := UserStorageManager.createUser Scenario.asciiLower
                   (JS.lit "user_1_k") (JS.lit "2024-01-01T00:00:00.000Z")
                   (JS.lit "Ann Lee") (JS.lit "Ann@X.com") (JS.lit "s3cret!")
                   Storage.empty in
  UserStorageManager.authenticateUser Scenario.asciiLower
    (JS.lit "  ANN@x.COM ") (JS.lit "s3cret!") (snd created)
  = (UserStorageManager.mkResult true None (UserStorageManager.user (fst created)),
     snd created)
  /\ UserStorageManager.success
       (fst (UserStorageManager.createUser Scenario.asciiLower
               (JS.lit "user_2_k") (JS.lit "2024-01-02T00:00:00.000Z")
               (JS.lit "Impostor") (JS.lit "ann@X.COM") (JS.lit "another1")
               (snd created))) = false.
Proof.
  intros created.
  destruct (create_then_authenticate Scenario.asciiLower
              asciiLower_idempotent asciiLower_trim
              (JS.lit "user_1_k") (JS.lit "2024-01-01T00:00:00.000Z")
              (JS.lit "Ann Lee") (JS.lit "Ann@X.com") (JS.lit "s3cret!")
              Storage.empty eq_refl eq_refl) as [Hin Hdup].
  split.
  - apply Hin; reflexivity.
  - fold created in Hdup.
    rewrite (Hdup (JS.lit "user_2_k") (JS.lit "2024-01-02T00:00:00.000Z")
               (JS.lit "Impostor") (JS.lit "ann@X.COM") (JS.lit "another1")
               eq_refl eq_refl).
    reflexivity.
Defined.

Section UntrimmedAddress.

Variable toLowerCase : jsstring -> jsstring.
Hypothesis lower_idempotent : forall s, toLowerCase (toLowerCase s) = toLowerCase s.
Hypothesis lower_trim : forall s, JS.trim (toLowerCase s) = toLowerCase (JS.trim s).

(** X20.  The duplicate check of [createUser] compares the address as
    typed, while the record stores it trimmed.  So when the table already
    holds the trimmed, lower-cased form of an address that the check does
    not find (as for an address typed with a leading blank), the
    registration succeeds and a second record with the same stored address
    is appended; sign-in with that address then meets the older record
    first, and the new password is refused as incorrect. *)
Theorem untrimmed_address_is_registered_twice
  (generatedId isoNow name email password : jsstring) (ls : LocalStorage)
  (users : list StoredUser) (older : StoredUser) :
  USERS_KEY ls = Some (Encoded users) ->
  In older users ->
  su_email older = JS.trim (toLowerCase email) ->
  fst (UserStorageManager.emailExists toLowerCase email ls) = false ->
  Spec.firstRegistrationViolation name email password = None ->
  Spec.latin1 password = true ->
  (forall u, In u users ->
     UserStorageManager.hashPassword password <> Some (su_password u)) ->
  let created := UserStorageManager.createUser toLowerCase generatedId isoNow
                   name email password ls in
  UserStorageManager.success (fst created) = true
  /\ (exists hashed,
        USERS_KEY (snd created)
        = Some (Encoded
            (users ++ [mkStoredUser generatedId (su_email older) (JS.trim name)
                         hashed isoNow isoNow])))
  /\ UserStorageManager.authenticateUser toLowerCase email password (snd created)
     = (UserStorageManager.failure (JS.lit "Incorrect password. Please try again."),
        snd created).
Proof.
  intros Hcell Hin Hsame Hfree Hfields Hl Hother created.
  assert (Hall : UserStorageManager.getAllUsers ls = (users, ls))
    by (unfold UserStorageManager.getAllUsers; rewrite Hcell; reflexivity).
  assert (Hcreated : created
            = (UserStorageManager.mkResult true None
                 (Some (UserStorageManager.profileOf
                    (mkStoredUser generatedId (JS.trim (toLowerCase email))
                       (JS.trim name)
                       (JS.base64 (password ++ JS.lit "voiceverse_salt"))
                       isoNow isoNow))),
               UserStorageManager.saveAllUsers
                 (users ++ [mkStoredUser generatedId (JS.trim (toLowerCase email))
                              (JS.trim name)
                              (JS.base64 (password ++ JS.lit "voiceverse_salt"))
                              isoNow isoNow]) ls)).
  { subst created. rewrite createUser_fields, Hfields, Hfree.
    rewrite hashPassword_latin1, Hl, Hall. reflexivity. }
  rewrite Hcreated. cbn [fst snd UserStorageManager.success].
  split; [ reflexivity | ].
  split; [ eexists; rewrite Hsame; reflexivity | ].
  unfold UserStorageManager.authenticateUser.
  assert (Hpe : Spec.present email = true /\ JS.truthy password = true).
  { revert Hfields. unfold Spec.firstRegistrationViolation, Spec.registrationRules.
    cbn [find fst snd].
    repeat match goal with
           | |- context [if negb ?b then _ else _] =>
               destruct b eqn:?; cbn [negb]; try (intro H; discriminate H)
           end.
    intros _. split; reflexivity. }
  destruct Hpe as [Hpe Hpw].
  rewrite truthy_trim_present, Hpe, Hpw. cbn [negb].
  cbn [UserStorageManager.getAllUsers UserStorageManager.saveAllUsers
       set_USERS_KEY USERS_KEY read].
  set (p := fun u => JS.eqb (toLowerCase (su_email u)) (JS.trim (toLowerCase email))).
  assert (Hp : p older = true).
  { subst p. cbv beta. rewrite Hsame, lower_trim.
    rewrite lower_idempotent. apply jsstring_eqb_refl. }
  assert (Hfound : exists first, find p users = Some first /\ In first users).
  { destruct (find p users) as [first |] eqn:Hf.
    - exists first. split; [ reflexivity | ].
      apply (find_some _ _ Hf).
    - exfalso. pose proof (find_none _ _ Hf older Hin) as Hno.
      rewrite Hp in Hno. discriminate Hno. }
  destruct Hfound as [first [Hf Hfirst]].
  assert (Hfind : find p (users ++ [mkStoredUser generatedId
                     (JS.trim (toLowerCase email)) (JS.trim name)
                     (JS.base64 (password ++ JS.lit "voiceverse_salt"))
                     isoNow isoNow]) = Some first).
  { clear - Hf. induction users as [| u us IH]; [ discriminate Hf | ].
    cbn [app find] in *. destruct (p u); [ exact Hf | apply IH; exact Hf ]. }
  rewrite Hfind.
  unfold UserStorageManager.verifyPassword.
  pose proof (Hother first Hfirst) as Hne.
  rewrite hashPassword_latin1, Hl in *.
  destruct (JS.eqb (JS.base64 (password ++ JS.lit "voiceverse_salt"))
              (su_password first)) eqn:Heq; [ | reflexivity ].
  exfalso. apply Hne. f_equal. apply jsstring_eqb_eq. exact Heq.
Qed.

End UntrimmedAddress.

Lemma untrimmed_address_is_registered_twice_witness :
  let first := mkStoredUser (JS.lit "user_1_k") (JS.lit "ann@x.com") (JS.lit "Ann")
                 (JS.lit "Zmlyc3QxIXZvaWNldmVyc2Vfc2FsdA==")
                 (JS.lit "2024-01-01T00:00:00.000Z") (JS.lit "2024-01-01T00:00:00.000Z") in
  let ls := mkLocalStorage (Some (Encoded [first])) None None None in
  let created := UserStorageManager.createUser Scenario.asciiLower
                   (JS.lit "user_2_k") (JS.lit "2024-01-02T00:00:00.000Z")
                   (JS.lit "Bob") (JS.lit " ann@x.com") (JS.lit "second2") ls in
  UserStorageManager.success (fst created) = true
  /\ UserStorageManager.authenticateUser Scenario.asciiLower
       (JS.lit " ann@x.com") (JS.lit "second2") (snd created)
     = (UserStorageManager.failure (JS.lit "Incorrect password. Please try again."),
        snd created).
Proof.
  intros first ls created.
  destruct (untrimmed_address_is_registered_twice Scenario.asciiLower
              asciiLower_idempotent asciiLower_trim
              (JS.lit "user_2_k") (JS.lit "2024-01-02T00:00:00.000Z")
              (JS.lit "Bob") (JS.lit " ann@x.com") (JS.lit "second2") ls
              [first] first eq_refl (or_introl eq_refl) eq_refl eq_refl eq_refl eq_refl)
    as [Hok [_ Hauth]].
  - intros u [<- | []]. vm_compute. intro H. discriminate H.
  - split; [ exact Hok | exact Hauth ].
Defined.

(** ** [updateUser] *)

Lemma replaceFirst_map {B : Type} (g : StoredUser -> B) (p : StoredUser -> bool)
  (found renamed : StoredUser) (users : list StoredUser) :
  find p users = Some found -> g renamed = g found ->
  map g (UserStorageManager.replaceFirst p (fun _ => renamed) users) = map g users.
Proof.
  intros Hf Hg. induction users as [| u us IH]; [ reflexivity | ].
  cbn [find UserStorageManager.replaceFirst] in *. destruct (p u).
  - inversion Hf; subst. cbn [map]. rewrite Hg. reflexivity.
  - cbn [map]. rewrite (IH Hf). reflexivity.
Qed.

Lemma replaceFirst_find (p : StoredUser -> bool) (found renamed : StoredUser)
  (users : list StoredUser) :
  find p users = Some found -> p renamed = true ->
  find p (UserStorageManager.replaceFirst p (fun _ => renamed) users) = Some renamed.
Proof.
  intros Hf Hp. induction users as [| u us IH]; [ discriminate Hf | ].
  cbn [find UserStorageManager.replaceFirst] in *. destruct (p u) eqn:Hu.
  - cbn [find]. rewrite Hp. reflexivity.
  - cbn [find]. rewrite Hu. apply IH. exact Hf.
Qed.

Lemma replaceFirst_In (p : StoredUser -> bool) (renamed : StoredUser)
  (users : list StoredUser) (u : StoredUser) :
  In u (UserStorageManager.replaceFirst p (fun _ => renamed) users) ->
  u = renamed \/ In u users.
Proof.
  induction users as [| v vs IH]; [ intros [] | ].
  cbn [UserStorageManager.replaceFirst]. destruct (p v).
  - intros [<- | H]; [ left; reflexivity | right; right; exact H ].
  - intros [<- | H]; [ right; left; reflexivity | ].
    destruct (IH H) as [-> | H']; [ left; reflexivity | right; right; exact H' ].
Qed.

Lemma updateUser_fields (isoNow userId : jsstring) (newName : option jsstring)
  (ls : LocalStorage) :
  UserStorageManager.updateUser isoNow userId newName ls
  = if negb (Spec.nameAccepted newName) then
      (UserStorageManager.failure
         (match newName with
          | Some n => if Spec.present n
                      then JS.lit "Full name must be at least 2 characters long"
                      else JS.lit "Full name is required"
          | None => []
          end), ls)
    else
      let users := fst (UserStorageManager.getAllUsers ls) in
      match find (fun u => JS.eqb (su_id u) userId) users with
      | None => (UserStorageManager.failure (JS.lit "User not found"), ls)
      | Some found =>
          let renamed :=
            mkStoredUser (su_id found) (su_email found)
              (match newName with Some n => JS.trim n | None => su_name found end)
              (su_password found) (su_createdAt found) isoNow in
          let saved :=
            UserStorageManager.saveAllUsers
              (UserStorageManager.replaceFirst (fun u => JS.eqb (su_id u) userId)
                 (fun _ => renamed) users) ls in
          (UserStorageManager.mkResult true None
             (Some (UserStorageManager.profileOf renamed)),
           match read (CURRENT_USER_KEY ls) with
           | Parsed current =>
               if JS.eqb (up_id current) userId
               then UserStorageManager.setCurrentUser
                      (UserStorageManager.profileOf renamed) saved
               else saved
           | _ => saved
           end)
      end.
Proof.
  unfold UserStorageManager.updateUser, Spec.nameAccepted.
  assert (Hcore : forall pick : StoredUser -> jsstring,
    (let (users, ls0) := UserStorageManager.getAllUsers ls in
     match find (fun u => JS.eqb (su_id u) userId) users with
     | None => (UserStorageManager.failure (JS.lit "User not found"), ls0)
     | Some found =>
         let updated := mkStoredUser (su_id found) (su_email found) (pick found)
                          (su_password found) (su_createdAt found) isoNow in
         let ls1 := UserStorageManager.saveAllUsers
                      (UserStorageManager.replaceFirst
                         (fun u => JS.eqb (su_id u) userId) (fun _ => updated) users)
                      ls0 in
         let (currentUser, ls2) := UserStorageManager.getCurrentUser ls1 in
         let ls3 := match currentUser with
                    | Some current =>
                        if JS.eqb (up_id current) userId
                        then UserStorageManager.setCurrentUser
                               (UserStorageManager.profileOf updated) ls2
                        else ls2
                    | None => ls2
                    end in
         (UserStorageManager.mkResult true None
            (Some (UserStorageManager.profileOf updated)), ls3)
     end)
    = let users := fst (UserStorageManager.getAllUsers ls) in
      match find (fun u => JS.eqb (su_id u) userId) users with
      | None => (UserStorageManager.failure (JS.lit "User not found"), ls)
      | Some found =>
          let renamed := mkStoredUser (su_id found) (su_email found) (pick found)
                           (su_password found) (su_createdAt found) isoNow in
          let saved :=
            UserStorageManager.saveAllUsers
              (UserStorageManager.replaceFirst (fun u => JS.eqb (su_id u) userId)
                 (fun _ => renamed) users) ls in
          (UserStorageManager.mkResult true None
             (Some (UserStorageManager.profileOf renamed)),
           match read (CURRENT_USER_KEY ls) with
           | Parsed current =>
               if JS.eqb (up_id current) userId
               then UserStorageManager.setCurrentUser
                      (UserStorageManager.profileOf renamed) saved
               else saved
           | _ => saved
           end)
      end).
  { intros pick. unfold UserStorageManager.getAllUsers.
    destruct (read (USERS_KEY ls)) as [| | users]; cbn [fst find]; try reflexivity.
    destruct (find (fun u => JS.eqb (su_id u) userId) users) as [found |];
      [ | reflexivity ].
    cbv zeta. unfold UserStorageManager.getCurrentUser,
      UserStorageManager.saveAllUsers, set_USERS_KEY.
    cbn [CURRENT_USER_KEY].
    destruct (read (CURRENT_USER_KEY ls)) as [| | current]; reflexivity. }
  destruct newName as [n |].
  - rewrite truthy_trim_present.
    destruct (Spec.present n); cbn [negb andb]; [ | reflexivity ].
    rewrite (Z.ltb_antisym 2 (JS.length (JS.trim n))).
    destruct (2 <=? JS.length (JS.trim n)); cbn [negb]; [ | reflexivity ].
    apply (Hcore (fun _ => JS.trim n)).
  - cbn [negb]. apply (Hcore su_name).
Qed.

(** X21.  [updateUser] never adds or removes an account and never changes
    an id, an address, a password or a creation date; the session and the
    work backup are not touched; when it fails the storage is what it was.
    It succeeds exactly when the name is acceptable and a record has the
    given id; then the first such record, and only it, takes the trimmed
    name and the new update date, the result is its profile, and the
    pointer to the current user is rewritten when it is readable and has
    that id, and kept otherwise. *)
Theorem updateUser_effect
  (isoNow userId : jsstring) (newName : option jsstring) (ls : LocalStorage) :
  let out := UserStorageManager.updateUser isoNow userId newName ls in
  let before := fst (UserStorageManager.getAllUsers ls) in
  let after := fst (UserStorageManager.getAllUsers (snd out)) in
  let sameId := fun u => JS.eqb (su_id u) userId in
  map su_id after = map su_id before
  /\ map su_email after = map su_email before
  /\ map su_password after = map su_password before
  /\ map su_createdAt after = map su_createdAt before
  /\ SESSION_KEY (snd out) = SESSION_KEY ls
  /\ WORK_BACKUP_KEY (snd out) = WORK_BACKUP_KEY ls
  /\ (UserStorageManager.success (fst out) = false -> snd out = ls)
  /\ (UserStorageManager.success (fst out) = true
      <-> Spec.nameAccepted newName = true
          /\ exists found, find sameId before = Some found)
  /\ (forall found,
        UserStorageManager.success (fst out) = true ->
        find sameId before = Some found ->
        let renamed :=
          mkStoredUser (su_id found) (su_email found)
            (match newName with Some n => JS.trim n | None => su_name found end)
            (su_password found) (su_createdAt found) isoNow in
        UserStorageManager.user (fst out)
        = Some (UserStorageManager.profileOf renamed)
        /\ find sameId after = Some renamed
        /\ (forall u, In u after -> u = renamed \/ In u before)
        /\ CURRENT_USER_KEY (snd out)
           = match read (CURRENT_USER_KEY ls) with
             | Parsed current =>
                 if JS.eqb (up_id current) userId
                 then Some (Encoded (UserStorageManager.profileOf renamed))
                 else CURRENT_USER_KEY ls
             | _ => CURRENT_USER_KEY ls
             end).
Proof.
  intros out before after sameId. subst out after.
  rewrite updateUser_fields.
  destruct (Spec.nameAccepted newName); cbn [negb].
  2:{ cbn [fst snd UserStorageManager.failure UserStorageManager.success].
      repeat (split; [ reflexivity | ]).
      split; [ split; [ intro H; discriminate H | intros [H _]; discriminate H ] | ].
      intros found H; discriminate H. }
  cbv zeta. fold before. fold sameId.
  destruct (find sameId before) as [found |] eqn:Hfind.
  2:{ cbn [fst snd UserStorageManager.failure UserStorageManager.success].
      repeat (split; [ reflexivity | ]).
      split; [ split; [ intro H; discriminate H
                      | intros [_ [x H]]; discriminate H ] | ].
      intros found H; discriminate H. }
  set (renamed := mkStoredUser (su_id found) (su_email found)
         (match newName with Some n => JS.trim n | None => su_name found end)
         (su_password found) (su_createdAt found) isoNow).
  assert (Hid : sameId renamed = true).
  { apply find_some in Hfind. exact (proj2 Hfind). }
  assert (Hafter : forall ls',
            USERS_KEY ls' = Some (Encoded
              (UserStorageManager.replaceFirst sameId (fun _ => renamed) before)) ->
            fst (UserStorageManager.getAllUsers ls')
            = UserStorageManager.replaceFirst sameId (fun _ => renamed) before).
  { intros ls' H. unfold UserStorageManager.getAllUsers. rewrite H. reflexivity. }
  assert (Hcell : USERS_KEY
            (match read (CURRENT_USER_KEY ls) with
             | Parsed current =>
                 if JS.eqb (up_id current) userId
                 then UserStorageManager.setCurrentUser
                        (UserStorageManager.profileOf renamed)
                        (UserStorageManager.saveAllUsers
                           (UserStorageManager.replaceFirst sameId
                              (fun _ => renamed) before) ls)
                 else UserStorageManager.saveAllUsers
                        (UserStorageManager.replaceFirst sameId
                           (fun _ => renamed) before) ls
             | _ => UserStorageManager.saveAllUsers
                      (UserStorageManager.replaceFirst sameId
                         (fun _ => renamed) before) ls
             end)
          = Some (Encoded
              (UserStorageManager.replaceFirst sameId (fun _ => renamed) before))).
  { destruct (read (CURRENT_USER_KEY ls)) as [| | current]; try reflexivity.
    destruct (JS.eqb (up_id current) userId); reflexivity. }
  cbn [fst snd UserStorageManager.success UserStorageManager.user].
  rewrite (Hafter _ Hcell).
  split; [ apply (replaceFirst_map su_id _ found); [ exact Hfind | reflexivity ] | ].
  split; [ apply (replaceFirst_map su_email _ found); [ exact Hfind | reflexivity ] | ].
  split; [ apply (replaceFirst_map su_password _ found); [ exact Hfind | reflexivity ] | ].
  split; [ apply (replaceFirst_map su_createdAt _ found); [ exact Hfind | reflexivity ] | ].
  split; [ destruct (read (CURRENT_USER_KEY ls)) as [| | current]; try reflexivity;
           destruct (JS.eqb (up_id current) userId); reflexivity | ].
  split; [ destruct (read (CURRENT_USER_KEY ls)) as [| | current]; try reflexivity;
           destruct (JS.eqb (up_id current) userId); reflexivity | ].
  split; [ intro H; discriminate H | ].
  split; [ split; [ intros _; split; [ reflexivity | exists found; reflexivity ]
                  | intros _; reflexivity ] | ].
  intros found' _ Hf'. inversion Hf'; subst found'. cbv zeta. fold renamed.
  split; [ reflexivity | ].
  split; [ apply (replaceFirst_find _ found); [ exact Hfind | exact Hid ] | ].
  split; [ intros u; apply replaceFirst_In | ].
  destruct (read (CURRENT_USER_KEY ls)) as [| | current]; try reflexivity.
  destruct (JS.eqb (up_id current) userId); reflexivity.
Qed.

Lemma updateUser_effect_witness :
  let ann := mkStoredUser (JS.lit "user_1_k") (JS.lit "ann@x.com") (JS.lit "Ann")
               (JS.lit "Zmlyc3QxIXZvaWNldmVyc2Vfc2FsdA==")
               (JS.lit "2024-01-01T00:00:00.000Z") (JS.lit "2024-01-01T00:00:00.000Z") in
  let ls := mkLocalStorage (Some (Encoded [ann]))
              (Some (Encoded (UserStorageManager.profileOf ann))) None None in
  let out := UserStorageManager.updateUser (JS.lit "2024-02-01T00:00:00.000Z")
               (JS.lit "user_1_k") (Some (JS.lit " Anna ")) ls in
  UserStorageManager.success (fst out) = true
  /\ CURRENT_USER_KEY (snd out)
     = Some (Encoded (mkUserProfile (JS.lit "user_1_k") (JS.lit "ann@x.com")
                        (JS.lit "Anna") (JS.lit "2024-01-01T00:00:00.000Z")
                        (JS.lit "2024-02-01T00:00:00.000Z"))).
Proof.
  intros ann ls out.
  destruct (updateUser_effect (JS.lit "2024-02-01T00:00:00.000Z")
              (JS.lit "user_1_k") (Some (JS.lit " Anna ")) ls)
    as [_ [_ [_ [_ [_ [_ [_ [_ H]]]]]]]].
  destruct (H ann eq_refl eq_refl) as [_ [_ [_ Hptr]]].
  split; [ reflexivity | exact Hptr ].
Defined.

(** * The provider of [AuthContext.tsx] *)

Ltac branches :=
  repeat (match goal with
          | |- context [JS.truthy ?t] =>
              destruct (JS.truthy t) eqn:?; try congruence
          | |- context [?a >? ?b] => destruct (Z.gtb_spec a b); try lia
          | |- context [?a <? ?b] => destruct (Z.ltb_spec a b); try lia
          end; cbn -[Z.gtb Z.ltb Z.add Z.sub]).

Lemma mount_cases (now : Z) (w : SessionManager.World) :
  let out := AuthContext.mount now w in
  match Spec.resumable now (SessionManager.storage w) with
  | Some u =>
      fst out = AuthContext.mkState (Some u) true false
      /\ SessionManager.storage (snd out) = SessionManager.storage w
  | None =>
      fst out = AuthContext.mkState None false false
      /\ SESSION_KEY (SessionManager.storage (snd out)) = None
      /\ CURRENT_USER_KEY (SessionManager.storage (snd out)) = None
  end.
Proof.
  destruct w as [[uk ck sk bk] [at_ wt et la wcb ecb] n].
  unfold AuthContext.mount, AuthContext.registerCallbacks, AuthContext.initializeAuth,
    Spec.resumable, SessionManager.isSessionValid, SessionManager.getCurrentSession,
    UserStorageManager.getCurrentUser.
  destruct sk as [[stext | s] |]; destruct ck as [[ctext | u] |];
    cbn -[Z.gtb Z.ltb Z.add Z.sub];
    branches; repeat split; reflexivity.
Qed.

(** X22.  When the provider mounts, it resumes exactly when the stored
    session is readable and has not reached its expiry and the stored
    profile is readable: then the state is authenticated with that profile
    and the storage is what it was.  In every other case the state is
    signed out and both the session and the profile pointer are removed,
    with the warning and the expiry timer cleared.  Loading always ends,
    and the accounts and the work backup are never touched. *)
Theorem mount_resumes_or_clears (now : Z) (w : SessionManager.World) :
  let out := AuthContext.mount now w in
  AuthContext.isLoading (fst out) = false
  /\ USERS_KEY (SessionManager.storage (snd out))
     = USERS_KEY (SessionManager.storage w)
  /\ WORK_BACKUP_KEY (SessionManager.storage (snd out))
     = WORK_BACKUP_KEY (SessionManager.storage w)
  /\ match Spec.resumable now (SessionManager.storage w) with
     | Some u =>
         fst out = AuthContext.mkState (Some u) true false
         /\ SessionManager.storage (snd out) = SessionManager.storage w
         /\ SessionManager.notified (snd out) = SessionManager.notified w
     | None =>
         fst out = AuthContext.mkState None false false
         /\ SESSION_KEY (SessionManager.storage (snd out)) = None
         /\ CURRENT_USER_KEY (SessionManager.storage (snd out)) = None
         /\ SessionManager.warningTimer (SessionManager.fields (snd out)) = None
         /\ SessionManager.expiryTimer (SessionManager.fields (snd out)) = None
     end.
Proof.
  destruct w as [[uk ck sk bk] [at_ wt et la wcb ecb] n].
  unfold AuthContext.mount, AuthContext.registerCallbacks, AuthContext.initializeAuth,
    Spec.resumable, SessionManager.isSessionValid, SessionManager.getCurrentSession,
    UserStorageManager.getCurrentUser.
  cbn [SessionManager.with_fields SessionManager.storage SessionManager.fields
       SessionManager.notified SESSION_KEY CURRENT_USER_KEY
       SessionManager.activityTimer SessionManager.warningTimer
       SessionManager.expiryTimer SessionManager.lastActivityTime].
  destruct sk as [[stext | s] |]; destruct ck as [[ctext | u] |];
    cbn -[Z.gtb Z.ltb Z.add Z.sub];
    branches; repeat split; reflexivity.
Qed.


Lemma constructor_cases (loaded : Z) (ls : LocalStorage) :
  let w := SessionManager.constructor loaded ls in
  match read (SESSION_KEY ls) with
  | Parsed s =>
      if loaded >? expiresAt s then
        SessionManager.storage w = set_SESSION_KEY None ls
      else
        SessionManager.storage w = ls
        /\ (loaded < expiresAt s ->
            SessionManager.expiryTimer (SessionManager.fields w)
            = Some (loaded + (expiresAt s - loaded)))
  | Throws => SessionManager.storage w = set_SESSION_KEY None ls
  | Missing => SessionManager.storage w = ls
  end.
Proof.
  destruct ls as [uk ck sk bk].
  unfold SessionManager.constructor, SessionManager.checkExistingSession,
    SessionManager.startSessionTimers, SessionManager.showSessionWarning,
    SessionManager.getCurrentSession.
  destruct sk as [[stext | s] |]; cbn -[Z.gtb Z.ltb Z.add Z.sub];
    branches; repeat split; try reflexivity; intros; try lia.
Qed.

Lemma reload_cases (loaded mounted : Z) (ls : LocalStorage) :
  loaded <= mounted ->
  let again := Scenario.reload loaded mounted ls in
  match Spec.resumable mounted ls with
  | Some u =>
      fst again = AuthContext.mkState (Some u) true false
      /\ SessionManager.storage (snd again) = ls
  | None =>
      fst again = AuthContext.mkState None false false
      /\ SESSION_KEY (SessionManager.storage (snd again)) = None
      /\ CURRENT_USER_KEY (SessionManager.storage (snd again)) = None
  end.
Proof.
  intros Hle again. subst again. unfold Scenario.reload.
  pose proof (constructor_cases loaded ls) as Hc. cbv zeta in Hc.
  pose proof (mount_cases mounted (SessionManager.constructor loaded ls)) as Hm.
  cbv zeta in Hm.
  assert (Hres : Spec.resumable mounted
                   (SessionManager.storage (SessionManager.constructor loaded ls))
                 = Spec.resumable mounted ls
                 /\ (Spec.resumable mounted ls <> None ->
                     SessionManager.storage (SessionManager.constructor loaded ls) = ls)).
  { unfold Spec.resumable in *.
    destruct (read (SESSION_KEY ls)) as [| | s] eqn:Hs.
    - rewrite Hc, Hs. split; [ reflexivity | intros _; reflexivity ].
    - rewrite Hc. cbn [set_SESSION_KEY SESSION_KEY read].
      split; [ reflexivity | intros H; exfalso; apply H; reflexivity ].
    - destruct (Z.gtb_spec loaded (expiresAt s)) as [Hgt | Hng].
      + rewrite Hc. cbn [set_SESSION_KEY SESSION_KEY CURRENT_USER_KEY read].
        destruct (Z.ltb_spec mounted (expiresAt s)) as [Hlt | _]; [ lia | ].
        destruct (read (CURRENT_USER_KEY ls));
          (split; [ reflexivity | intros H; exfalso; apply H; reflexivity ]).
      + destruct Hc as [Hc _]. rewrite Hc, Hs.
        split; [ reflexivity | intros _; reflexivity ]. }
  destruct Hres as [Hres Hsame]. rewrite Hres in Hm.
  destruct (Spec.resumable mounted ls) as [u |].
  - destruct Hm as [Hst Hsto]. split; [ exact Hst | ].
    rewrite Hsto. apply Hsame. intro H; discriminate H.
  - exact Hm.
Qed.

Lemma enter_effect (now : Z) (sessionId device : jsstring)
  (result : UserStorageManager.Result) (a : AuthContext.State)
  (w : SessionManager.World) :
  let r := AuthContext.enter now sessionId device result a w in
  AuthContext.success (fst (fst r)) = true ->
  exists u,
    UserStorageManager.user result = Some u
    /\ snd (fst r) = AuthContext.mkState (Some u) true (AuthContext.isLoading a)
    /\ SessionManager.storage (snd r)
       = mkLocalStorage
           (USERS_KEY (SessionManager.storage w))
           (Some (Encoded u))
           (Some (Encoded (mkSessionData (up_id u) (up_email u) (up_name u) now now
                             (now + SessionManager.SESSION_DURATION)
                             sessionId device)))
           (WORK_BACKUP_KEY (SessionManager.storage w))
    /\ SessionManager.expiryTimer (SessionManager.fields (snd r))
       = Some (now + 86400000).
Proof.
  cbv zeta. unfold AuthContext.enter.
  destruct (UserStorageManager.success result);
    [ | intros H; discriminate H ].
  destruct (UserStorageManager.user result) as [u |];
    [ | intros H; discriminate H ].
  pose proof (createSession_world now sessionId device
                (up_id u) (up_email u) (up_name u) w) as Hw.
  destruct (SessionManager.createSession now sessionId device
              (up_id u) (up_email u) (up_name u) w) as [s w'].
  cbn [snd] in Hw. subst w'. intros _. cbn [fst snd].
  exists u. repeat split.
Qed.

Lemma authenticateUser_reads_only (toLowerCase : jsstring -> jsstring)
  (email password : jsstring) (ls : LocalStorage) :
  snd (UserStorageManager.authenticateUser toLowerCase email password ls) = ls.
Proof.
  unfold UserStorageManager.authenticateUser, UserStorageManager.getAllUsers.
  destruct (negb (JS.truthy (JS.trim email))); [ reflexivity | ].
  destruct (negb (JS.truthy password)); [ reflexivity | ].
  destruct (read (USERS_KEY ls)) as [| | users]; cbn [find]; try reflexivity.
  destruct (find _ users) as [found |]; [ | reflexivity ].
  destruct (UserStorageManager.verifyPassword password (su_password found))
    as [[|] |]; reflexivity.
Qed.

(** X23.  A successful [login] outlives a reload of the page for 24 hours
    and no longer.  After it the state is authenticated with the profile
    of the account, the storage holds a session that expires 24 hours
    after the login and the profile, and the accounts and the work backup
    are what they were.  A page loaded later, over that storage, mounts
    authenticated with the same profile exactly when it mounts before the
    24 hours are over; from then on it mounts signed out and removes the
    session and the profile. *)
Theorem login_survives_reload
  (toLowerCase : jsstring -> jsstring)
  (now loaded mounted : Z) (sessionId device email password : jsstring)
  (a : AuthContext.State) (w : SessionManager.World) :
  let r := AuthContext.login toLowerCase now sessionId device email password a w in
  AuthContext.success (fst (fst r)) = true ->
  loaded <= mounted ->
  let again := Scenario.reload loaded mounted (SessionManager.storage (snd r)) in
  (exists u,
      fst (UserStorageManager.authenticateUser toLowerCase email password
             (SessionManager.storage w))
      = UserStorageManager.mkResult true None (Some u)
      /\ snd (fst r) = AuthContext.mkState (Some u) true (AuthContext.isLoading a)
      /\ fst again
         = if mounted <? now + SessionManager.SESSION_DURATION
           then AuthContext.mkState (Some u) true false
           else AuthContext.mkState None false false)
  /\ USERS_KEY (SessionManager.storage (snd r)) = USERS_KEY (SessionManager.storage w)
  /\ WORK_BACKUP_KEY (SessionManager.storage (snd r))
     = WORK_BACKUP_KEY (SessionManager.storage w)
  /\ (mounted < now + SessionManager.SESSION_DURATION ->
      SessionManager.storage (snd again) = SessionManager.storage (snd r))
  /\ (now + SessionManager.SESSION_DURATION <= mounted ->
      SESSION_KEY (SessionManager.storage (snd again)) = None
      /\ CURRENT_USER_KEY (SessionManager.storage (snd again)) = None).
Proof.
  cbv zeta. unfold AuthContext.login.
  pose proof (authenticateUser_reads_only toLowerCase email password
                (SessionManager.storage w)) as Hro.
  destruct (UserStorageManager.authenticateUser toLowerCase email password
              (SessionManager.storage w)) as [result ls] eqn:Hauth.
  cbn [snd fst] in Hro. subst ls.
  assert (Hw : SessionManager.with_storage (fun _ => SessionManager.storage w) w = w)
    by (destruct w; reflexivity).
  rewrite Hw. cbn [fst].
  set (r := AuthContext.enter now sessionId device result a w).
  intros Hok Hle.
  destruct (enter_effect now sessionId device result a w Hok)
    as [u [Hu [Hst [Hsto _]]]].
  fold r in Hst, Hsto.
  pose proof (reload_cases loaded mounted (SessionManager.storage (snd r)) Hle) as Hre.
  cbv zeta in Hre. unfold Spec.resumable in Hre. rewrite Hsto in Hre.
  cbn [SESSION_KEY CURRENT_USER_KEY read expiresAt] in Hre.
  rewrite <- Hsto in Hre.
  assert (Hresult : result = UserStorageManager.mkResult true None (Some u)).
  { revert Hauth Hu. unfold UserStorageManager.authenticateUser,
      UserStorageManager.getAllUsers.
    destruct (negb (JS.truthy (JS.trim email)));
      [ intros H; inversion H; subst; intros H'; discriminate H' | ].
    destruct (negb (JS.truthy password));
      [ intros H; inversion H; subst; intros H'; discriminate H' | ].
    destruct (read (USERS_KEY (SessionManager.storage w))) as [| | users];
      cbn [find];
      try (intros H; inversion H; subst; intros H'; discriminate H').
    destruct (find _ users) as [found |];
      [ | intros H; inversion H; subst; intros H'; discriminate H' ].
    destruct (UserStorageManager.verifyPassword password (su_password found))
      as [[|] |];
      intros H; inversion H; subst; intros H'; try discriminate H'.
    cbn [UserStorageManager.user] in H'. rewrite H'. reflexivity. }
  split.
  { exists u. split; [ exact Hresult | ]. split; [ exact Hst | ].
    destruct (mounted <? now + SessionManager.SESSION_DURATION);
      destruct Hre as [Hre _]; exact Hre. }
  split; [ rewrite Hsto; reflexivity | ].
  split; [ rewrite Hsto; reflexivity | ].
  split.
  - intros Hlt. apply Z.ltb_lt in Hlt. rewrite Hlt in Hre. exact (proj2 Hre).
  - intros Hge. apply Z.ltb_ge in Hge. rewrite Hge in Hre. exact (proj2 Hre).
Qed.

Lemma login_survives_reload_witness :
  let ann := mkStoredUser (JS.lit "user_1_k") (JS.lit "ann@x.com") (JS.lit "Ann")
               (JS.lit "Zmlyc3Qxdm9pY2V2ZXJzZV9zYWx0")
               (JS.lit "2024-01-01T00:00:00.000Z") (JS.lit "2024-01-01T00:00:00.000Z") in
  let w := SessionManager.mkWorld
             (mkLocalStorage (Some (Encoded [ann])) None None None)
             (SessionManager.mkFields None None None 0 true true) [] in
  let r := AuthContext.login Scenario.asciiLower 1000 (JS.lit "session_1000_k")
             (JS.lit "Linux") (JS.lit "Ann@X.com ") (JS.lit "first1")
             (AuthContext.mkState None false false) w in
  SessionManager.storage
    (snd (Scenario.reload 5000 5001 (SessionManager.storage (snd r))))
  = SessionManager.storage (snd r)
  /\ SESSION_KEY
       (SessionManager.storage
          (snd (Scenario.reload 86401000 86401000 (SessionManager.storage (snd r)))))
     = None.
Proof.
  intros ann w r. split.
  - destruct (login_survives_reload Scenario.asciiLower 1000 5000 5001
                (JS.lit "session_1000_k") (JS.lit "Linux") (JS.lit "Ann@X.com ")
                (JS.lit "first1") (AuthContext.mkState None false false) w
                eq_refl ltac:(lia)) as [_ [_ [_ [Hkeep _]]]].
    apply Hkeep. reflexivity.
  - destruct (login_survives_reload Scenario.asciiLower 1000 86401000 86401000
                (JS.lit "session_1000_k") (JS.lit "Linux") (JS.lit "Ann@X.com ")
                (JS.lit "first1") (AuthContext.mkState None false false) w
                eq_refl ltac:(lia)) as [_ [_ [_ [_ Hgone]]]].
    apply Hgone. intro H; discriminate H.
Defined.

(** X24.  [logout] ends the session for good: the state is signed out,
    the session and the profile pointer are removed from the storage, the
    warning and expiry timers are cleared and the warning is hidden, while the
    accounts and the work backup stay; a page loaded afterwards, whenever
    that is, mounts signed out. *)
Theorem logout_ends_the_session
  (a : AuthContext.State) (w : SessionManager.World) (loaded mounted : Z) :
  loaded <= mounted ->
  let out := AuthContext.logout a w in
  AuthContext.user (fst out) = None
  /\ AuthContext.isAuthenticated (fst out) = false
  /\ SessionManager.storage (snd out)
     = mkLocalStorage (USERS_KEY (SessionManager.storage w)) None None
         (WORK_BACKUP_KEY (SessionManager.storage w))
  /\ SessionManager.warningTimer (SessionManager.fields (snd out)) = None
  /\ SessionManager.expiryTimer (SessionManager.fields (snd out)) = None
  /\ SessionManager.notified (snd out) = WarningHidden :: SessionManager.notified w
  /\ fst (Scenario.reload loaded mounted (SessionManager.storage (snd out)))
     = AuthContext.mkState None false false.
Proof.
  intros Hle out.
  assert (Hsto : SessionManager.storage (snd out)
                 = mkLocalStorage (USERS_KEY (SessionManager.storage w)) None None
                     (WORK_BACKUP_KEY (SessionManager.storage w)))
    by (destruct w as [[uk ck sk bk] f n]; reflexivity).
  split; [ reflexivity | ].
  split; [ reflexivity | ].
  split; [ exact Hsto | ].
  split; [ destruct w as [ls [at_ wt et la wcb ecb] n]; reflexivity | ].
  split; [ destruct w as [ls [at_ wt et la wcb ecb] n]; reflexivity | ].
  split; [ destruct w as [ls [at_ wt et la wcb ecb] n]; reflexivity | ].
  pose proof (reload_cases loaded mounted (SessionManager.storage (snd out)) Hle) as Hre.
  cbv zeta in Hre. rewrite Hsto in *. exact (proj1 Hre).
Qed.

Lemma logout_ends_the_session_witness :
  let ls := mkLocalStorage None
              (Some (Encoded (mkUserProfile (JS.lit "user_1_k") (JS.lit "ann@x.com")
                                (JS.lit "Ann") (JS.lit "2024") (JS.lit "2024"))))
              (Some (Encoded (mkSessionData (JS.lit "user_1_k") (JS.lit "ann@x.com")
                                (JS.lit "Ann") 1000 1000 86401000
                                (JS.lit "session_1000_k") (JS.lit "Linux"))))
              None in
  let w := SessionManager.mkWorld ls
             (SessionManager.mkFields None (Some 86101000) (Some 86401000) 1000
                true true) [] in
  fst (Scenario.reload 2000 2001 ls)
  = AuthContext.mkState
      (Some (mkUserProfile (JS.lit "user_1_k") (JS.lit "ann@x.com")
               (JS.lit "Ann") (JS.lit "2024") (JS.lit "2024"))) true false
  /\ fst (Scenario.reload 2000 2001
            (SessionManager.storage
               (snd (AuthContext.logout (AuthContext.mkState None true false) w))))
     = AuthContext.mkState None false false.
Proof.
  intros ls w. split; [ reflexivity | ].
  destruct (logout_ends_the_session (AuthContext.mkState None true false) w
              2000 2001 ltac:(lia)) as [_ [_ [_ [_ [_ [_ H]]]]]].
  exact H.
Defined.

(** X25.  A change of name made through [updateProfile] is what a reload
    shows.  When the provider holds a user whose account is in the table,
    the profile pointer is readable with the same id, the session can
    still be resumed, and the new name has two characters after trimming,
    then [updateProfile] succeeds, the state holds the profile with the
    trimmed name and the new update date, and a page loaded afterwards
    mounts authenticated with that same profile. *)
Theorem profile_update_survives_reload
  (isoNow newName : jsstring) (a : AuthContext.State) (w : SessionManager.World)
  (u old current : UserProfile) (found : StoredUser) (loaded mounted : Z) :
  AuthContext.user a = Some u ->
  find (fun x => JS.eqb (su_id x) (up_id u))
    (fst (UserStorageManager.getAllUsers (SessionManager.storage w))) = Some found ->
  CURRENT_USER_KEY (SessionManager.storage w) = Some (Encoded current) ->
  up_id current = up_id u ->
  Spec.nameAccepted (Some newName) = true ->
  Spec.resumable mounted (SessionManager.storage w) = Some old ->
  loaded <= mounted ->
  let r := AuthContext.updateProfile isoNow newName a w in
  let shown := mkUserProfile (up_id u) (su_email found) (JS.trim newName)
                 (su_createdAt found) isoNow in
  fst (fst r) = AuthContext.mkOutcome true None
  /\ AuthContext.user (snd (fst r)) = Some shown
  /\ AuthContext.isAuthenticated (snd (fst r)) = AuthContext.isAuthenticated a
  /\ fst (Scenario.reload loaded mounted (SessionManager.storage (snd r)))
     = AuthContext.mkState (Some shown) true false.
Proof.
  intros Hu Hfind Hptr Hid Hname Hres Hle.
  assert (Hsame : su_id found = up_id u).
  { apply find_some in Hfind. apply jsstring_eqb_eq. exact (proj2 Hfind). }
  cbv zeta. unfold AuthContext.updateProfile. rewrite Hu.
  rewrite updateUser_fields, Hname. cbn [negb]. cbv zeta.
  rewrite Hfind, Hptr. cbn [read]. rewrite Hid, jsstring_eqb_refl.
  cbn [fst snd UserStorageManager.success UserStorageManager.user
       SessionManager.with_storage SessionManager.storage AuthContext.user
       AuthContext.isAuthenticated].
  unfold UserStorageManager.profileOf.
  cbn [su_id su_email su_name su_createdAt su_updatedAt]. rewrite Hsame.
  split; [ reflexivity | ].
  split; [ reflexivity | ].
  split; [ reflexivity | ].
  match goal with
  | |- fst (Scenario.reload _ _ ?ls) = _ =>
      pose proof (reload_cases loaded mounted ls Hle) as Hre
  end.
  cbv zeta in Hre. unfold Spec.resumable in Hre, Hres.
  unfold UserStorageManager.setCurrentUser, UserStorageManager.saveAllUsers in Hre.
  cbn [set_CURRENT_USER_KEY set_USERS_KEY SESSION_KEY CURRENT_USER_KEY read] in Hre.
  rewrite Hptr in Hres. cbn [read] in Hres.
  destruct (read (SESSION_KEY (SessionManager.storage w))) as [| | s];
    try discriminate Hres.
  destruct (mounted <? expiresAt s); [ | discriminate Hres ].
  exact (proj1 Hre).
Qed.

Lemma profile_update_survives_reload_witness :
  let ann := mkStoredUser (JS.lit "user_1_k") (JS.lit "ann@x.com") (JS.lit "Ann")
               (JS.lit "Zmlyc3Qxdm9pY2V2ZXJzZV9zYWx0")
               (JS.lit "2024-01-01T00:00:00.000Z") (JS.lit "2024-01-01T00:00:00.000Z") in
  let profile := UserStorageManager.profileOf ann in
  let ls := mkLocalStorage (Some (Encoded [ann])) (Some (Encoded profile))
              (Some (Encoded (mkSessionData (JS.lit "user_1_k") (JS.lit "ann@x.com")
                                (JS.lit "Ann") 1000 1000 86401000
                                (JS.lit "session_1000_k") (JS.lit "Linux"))))
              None in
  let w := SessionManager.mkWorld ls
             (SessionManager.mkFields None (Some 86101000) (Some 86401000) 1000
                true true) [] in
  let r := AuthContext.updateProfile (JS.lit "2024-02-01T00:00:00.000Z")
             (JS.lit " Anna ") (AuthContext.mkState (Some profile) true false) w in
  fst (Scenario.reload 9000 9001 (SessionManager.storage (snd r)))
  = AuthContext.mkState
      (Some (mkUserProfile (JS.lit "user_1_k") (JS.lit "ann@x.com") (JS.lit "Anna")
               (JS.lit "2024-01-01T00:00:00.000Z") (JS.lit "2024-02-01T00:00:00.000Z")))
      true false.
Proof.
  intros ann profile ls w r.
  destruct (profile_update_survives_reload (JS.lit "2024-02-01T00:00:00.000Z")
              (JS.lit " Anna ") (AuthContext.mkState (Some profile) true false) w
              profile profile profile ann 9000 9001
              eq_refl eq_refl eq_refl eq_refl eq_refl eq_refl ltac:(lia))
    as [_ [_ [_ H]]].
  exact H.
Defined.

(** * Helpers of the Tavus client *)

Section Masking.

Lemma concat_repeat_singleton {A : Type} (x : A) (k : nat) :
  List.concat (List.repeat [x] k) = List.repeat x k.
Proof.
  induction k as [| k IH]; [ reflexivity | ].
  cbn [List.repeat List.concat app]. rewrite IH. reflexivity.
Qed.

(** X26.  [maskApiKey] shows eight code units of a key and no more: a key
    longer than eight is masked to the same length, its first four and
    last four code units kept and every one between them replaced by [*];
    a key of eight code units or fewer, the empty one included, is masked
    to [***]. *)
Theorem maskApiKey_reveals_eight (apiKey : jsstring) :
  (JS.length apiKey <= 8 -> TavusAPI.maskApiKey apiKey = JS.lit "***")
  /\ (8 < JS.length apiKey ->
      TavusAPI.maskApiKey apiKey
      = firstn 4 apiKey
        ++ List.repeat 42%N (List.length apiKey - 8)
        ++ skipn (List.length apiKey - 4) apiKey
      /\ JS.length (TavusAPI.maskApiKey apiKey) = JS.length apiKey).
Proof.
  unfold TavusAPI.maskApiKey, JS.length. split.
  - intros Hshort.
    destruct (Z.leb_spec (Z.of_nat (List.length apiKey)) 8) as [_ | Hgt]; [ | lia ].
    rewrite orb_true_r. reflexivity.
  - intros Hlong.
    destruct (Z.leb_spec (Z.of_nat (List.length apiKey)) 8) as [Hle | _]; [ lia | ].
    destruct apiKey as [| c rest] eqn:Hkey; [ cbn in Hlong; lia | ].
    rewrite <- Hkey in *. cbn [JS.truthy negb orb].
    assert (Hkey' : JS.truthy apiKey = true) by (rewrite Hkey; reflexivity).
    rewrite Hkey'. cbn [negb orb].
    set (n := List.length apiKey) in *.
    assert (Hmask :
      JS.substring apiKey 0 4
      ++ JS.repeat (JS.lit "*") (Z.max 0 (Z.of_nat n - 8))
      ++ JS.substring apiKey (Z.of_nat n - 4) (Z.of_nat n)
      = firstn 4 apiKey ++ List.repeat 42%N (n - 8) ++ skipn (n - 4) apiKey).
    { unfold JS.substring, JS.repeat, JS.length. fold n.
      replace (Z.to_nat (Z.min (Z.max 0 0) (Z.of_nat n))) with 0%nat by lia.
      replace (Z.to_nat (Z.min (Z.max 0 4) (Z.of_nat n))) with 4%nat by lia.
      replace (Z.to_nat (Z.min (Z.max 0 (Z.of_nat n - 4)) (Z.of_nat n)))
        with (n - 4)%nat by lia.
      replace (Z.to_nat (Z.min (Z.max 0 (Z.of_nat n)) (Z.of_nat n)))
        with n by lia.
      replace (Z.to_nat (Z.max 0 (Z.of_nat n - 8))) with (n - 8)%nat by lia.
      replace (Nat.max 0 4 - Nat.min 0 4)%nat with 4%nat by reflexivity.
      replace (Nat.min 0 4) with 0%nat by reflexivity.
      replace (Nat.max (n - 4) n - Nat.min (n - 4) n)%nat with 4%nat by lia.
      replace (Nat.min (n - 4) n) with (n - 4)%nat by lia.
      cbn [skipn]. change (JS.lit "*") with [42%N].
      unfold JS.jsstring. rewrite concat_repeat_singleton.
      rewrite (firstn_all2 (n := 4) (skipn (n - 4) apiKey))
        by (rewrite length_skipn; fold n; lia).
      reflexivity. }
    rewrite Hmask. split; [ reflexivity | ].
    rewrite !length_app, repeat_length, length_skipn, length_firstn. fold n. lia.
Qed.

End Masking.

Lemma maskApiKey_reveals_eight_witness :
  TavusAPI.maskApiKey (JS.lit "key_0123456789abcdefghij") = JS.lit "key_****************ghij"
  /\ TavusAPI.maskApiKey (JS.lit "12345678") = JS.lit "***".
Proof.
  split.
  - destruct (maskApiKey_reveals_eight (JS.lit "key_0123456789abcdefghij"))
      as [_ Hlong].
    destruct (Hlong ltac:(vm_compute; reflexivity)) as [Heq _].
    rewrite Heq. reflexivity.
  - destruct (maskApiKey_reveals_eight (JS.lit "12345678")) as [Hshort _].
    apply Hshort. vm_compute. intro H; discriminate H.
Defined.

Section Durations.

Local Ltac Zify.zify_post_hook ::= Z.to_euclidean_division_equations.

(** X27.  [formatDuration] splits a number of seconds that is not negative
    into hours, minutes below 60 and seconds below 60, and shows the hours
    only when there are some and the minutes only when there are hours or
    minutes; for a negative number it shows one field only, the remainder
    of the seconds modulo 60 (between -59 and 0), whatever the hours and
    minutes are. *)
Theorem formatDuration_fields (seconds : Z) :
  (0 <= seconds ->
   exists h m s,
     seconds = 3600 * h + 60 * m + s
     /\ 0 <= h /\ 0 <= m < 60 /\ 0 <= s < 60
     /\ TavusAPI.formatDuration seconds
        = if 0 <? h then
            JS.ofZ h ++ JS.lit "h " ++ JS.ofZ m ++ JS.lit "m "
            ++ JS.ofZ s ++ JS.lit "s"
          else if 0 <? m then
            JS.ofZ m ++ JS.lit "m " ++ JS.ofZ s ++ JS.lit "s"
          else JS.ofZ s ++ JS.lit "s")
  /\ (seconds < 0 ->
      exists s,
        -60 < s <= 0 /\ (seconds - s) mod 60 = 0
        /\ TavusAPI.formatDuration seconds = JS.ofZ s ++ JS.lit "s").
Proof.
  unfold TavusAPI.formatDuration. split.
  - intros Hpos.
    exists (seconds / 3600), (Z.rem seconds 3600 / 60), (Z.rem seconds 60).
    split; [ lia | ]. split; [ lia | ]. split; [ lia | ]. split; [ lia | ].
    rewrite !(Z.gtb_ltb _ 0). reflexivity.
  - intros Hneg. exists (Z.rem seconds 60).
    split; [ lia | ]. split; [ lia | ].
    destruct (Z.gtb_spec (seconds / 3600) 0) as [H | _]; [ lia | ].
    destruct (Z.gtb_spec (Z.rem seconds 3600 / 60) 0) as [H | _]; [ lia | ].
    reflexivity.
Qed.

End Durations.

Lemma formatDuration_fields_witness :
  TavusAPI.formatDuration (-3700) = JS.lit "-40s"
  /\ exists h m s,
       3725 = 3600 * h + 60 * m + s /\ 0 <= h /\ 0 <= m < 60 /\ 0 <= s < 60
       /\ TavusAPI.formatDuration 3725
          = if 0 <? h then
              JS.ofZ h ++ JS.lit "h " ++ JS.ofZ m ++ JS.lit "m "
              ++ JS.ofZ s ++ JS.lit "s"
            else if 0 <? m then
              JS.ofZ m ++ JS.lit "m " ++ JS.ofZ s ++ JS.lit "s"
            else JS.ofZ s ++ JS.lit "s".
Proof.
  split; [ reflexivity | ].
  destruct (formatDuration_fields 3725) as [Hpos _].
  apply Hpos. lia.
Defined.

(** * Loading the page during a session *)



(** * The validator of Lingo API keys *)

Section ValidatorLoop.

Variable net : Network.

Lemma validator_unfold (attempt : nat) (w : LingoValidator.World) :
  LingoValidator.validateWithApi net attempt w =
  match LingoValidator.pass net attempt w with
  | (Settled c, w') => (c, w')
  | (RetryAfter ms, w') =>
      LingoValidator.validateWithApi net (S attempt) (LingoValidator.delay ms w')
  end.
Proof.
  rewrite LingoValidator.validateWithApi_equation_1.
  generalize (inspect (LingoValidator.pass net attempt w)).
  intros [[[c | ms] w'] E]; simpl; rewrite E; reflexivity.
Qed.

Lemma validator_caught_cases (attempt : nat) (e : Error) :
  (exists r, LingoValidator.caught attempt e = Settled (Returns r)
             /\ LingoValidator.isValid r = false)
  \/ (LingoValidator.caught attempt e = RetryAfter LingoValidator.RETRY_DELAY
      /\ (attempt <= LingoValidator.MAX_RETRIES)%nat).
Proof.
  unfold LingoValidator.caught.
  destruct (Nat.leb_spec attempt LingoValidator.MAX_RETRIES) as [Hle | Hgt];
    repeat match goal with
           | |- context [if ?b then _ else _] => destruct b
           end;
    try (right; split; [ reflexivity | exact Hle ]);
    left; eexists; split; reflexivity.
Qed.

Lemma validator_answered_cases (attempt : nat) (o : Outcome) :
  (exists r, LingoValidator.answered attempt o = Settled (Returns r)
             /\ (LingoValidator.isValid r = true ->
                 exists status body, o = Response status body /\ ok status = true))
  \/ (LingoValidator.answered attempt o = RetryAfter LingoValidator.RETRY_DELAY
      /\ (attempt <= LingoValidator.MAX_RETRIES)%nat).
Proof.
  destruct o as [status body | e].
  - unfold LingoValidator.answered.
    destruct (ok status) eqn:Hok.
    { left. eexists. split; [ reflexivity | ].
      intros _. exists status, body. split; [ reflexivity | exact Hok ]. }
    destruct (Nat.leb_spec attempt LingoValidator.MAX_RETRIES) as [Hle | Hgt];
      repeat match goal with
             | |- context [if ?b then _ else _] => destruct b
             end;
      try (right; split; [ reflexivity | exact Hle ]);
      left; eexists; (split; [ reflexivity | intros H; discriminate H ]).
  - cbn [LingoValidator.answered].
    destruct (validator_caught_cases attempt e) as [[r [Hr Hv]] | Hretry].
    + left. exists r. split; [ exact Hr | ].
      intros H. rewrite Hv in H. discriminate H.
    + right. exact Hretry.
Qed.

Lemma validator_pass_cases (attempt : nat) (w : LingoValidator.World) :
  let w' := snd (LingoValidator.pass net attempt w) in
  LingoValidator.sent w' = S (LingoValidator.sent w)
  /\ LingoValidator.lastValidationTime w' = LingoValidator.lastValidationTime w
  /\ ((exists r, fst (LingoValidator.pass net attempt w) = Settled (Returns r)
                 /\ (LingoValidator.isValid r = true ->
                     exists status body,
                       outcome (net (LingoValidator.sent w)) = Response status body
                       /\ ok status = true
                       /\ took (net (LingoValidator.sent w))
                          < LingoValidator.VALIDATION_TIMEOUT))
      \/ (fst (LingoValidator.pass net attempt w)
          = RetryAfter LingoValidator.RETRY_DELAY
          /\ (attempt <= LingoValidator.MAX_RETRIES)%nat)).
Proof.
  unfold LingoValidator.pass. cbv zeta.
  destruct (Z.geb_spec (took (net (LingoValidator.sent w)))
              LingoValidator.VALIDATION_TIMEOUT) as [Hslow | Hfast];
    cbn [fst snd LingoValidator.sent LingoValidator.lastValidationTime].
  - split; [ reflexivity | ]. split; [ reflexivity | ].
    destruct (validator_caught_cases attempt abortError) as [[r [Hr Hv]] | Hretry].
    + left. exists r. split; [ exact Hr | ].
      intros H. rewrite Hv in H. discriminate H.
    + right. exact Hretry.
  - split; [ reflexivity | ]. split; [ reflexivity | ].
    destruct (validator_answered_cases attempt (outcome (net (LingoValidator.sent w))))
      as [[r [Hr Hv]] | Hretry].
    + left. exists r. split; [ exact Hr | ].
      intros H. destruct (Hv H) as [status [body [Ho Hok]]].
      exists status, body. split; [ exact Ho | ]. split; [ exact Hok | exact Hfast ].
    + right. exact Hretry.
Qed.

Lemma validateWithApi_cases (attempt : nat) (w : LingoValidator.World) :
  (1 <= attempt <= 3)%nat ->
  let out := LingoValidator.validateWithApi net attempt w in
  (LingoValidator.sent w < LingoValidator.sent (snd out))%nat
  /\ (LingoValidator.sent (snd out) + attempt <= LingoValidator.sent w + 4)%nat
  /\ LingoValidator.lastValidationTime (snd out) = LingoValidator.lastValidationTime w
  /\ exists r,
       fst out = Returns r
       /\ (LingoValidator.isValid r = true ->
           exists status body,
             outcome (net (pred (LingoValidator.sent (snd out))))
             = Response status body
             /\ ok status = true
             /\ took (net (pred (LingoValidator.sent (snd out))))
                < LingoValidator.VALIDATION_TIMEOUT).
Proof.
  remember (S LingoValidator.MAX_RETRIES - attempt)%nat as left eqn:Hleft.
  revert attempt w Hleft.
  induction left as [left IH] using lt_wf_ind.
  intros attempt w Hleft Hattempt. cbv zeta.
  rewrite validator_unfold.
  pose proof (validator_pass_cases attempt w) as Hp. cbv zeta in Hp.
  destruct (LingoValidator.pass net attempt w) as [p w'].
  cbn [fst snd] in Hp. destruct Hp as [Hsent [Hlast Hp]].
  destruct Hp as [[r [Hr Hv]] | [Hr Hle]]; subst p.
  - cbn [fst snd]. rewrite Hsent, Hlast. cbn [pred].
    split; [ lia | ].
    split; [ lia | ].
    split; [ reflexivity | ].
    exists r. split; [ reflexivity | exact Hv ].
  - unfold LingoValidator.MAX_RETRIES in *.
    destruct (IH (3 - S attempt)%nat ltac:(lia) (S attempt)
                (LingoValidator.delay LingoValidator.RETRY_DELAY w')
                eq_refl ltac:(lia)) as [H1 [H2 [H3 H4]]].
    cbn [LingoValidator.delay LingoValidator.sent
         LingoValidator.lastValidationTime] in H1, H2, H3.
    split; [ lia | ]. split; [ lia | ].
    split; [ rewrite H3; exact Hlast | exact H4 ].
Qed.

End ValidatorLoop.

(** X29.  One call of [validateApiKey] puts at most three requests on the
    network, and none exactly when it is refused by its own interval check
    or by the format check.  A key of the wrong format changes nothing,
    not even the time of the last validation.  The answer is valid only
    for a well-formed key whose last request came back, before the
    ten-second timeout, with a status from 200 to 299. *)
Theorem validateApiKey_requests
  (net : Network) (apiKey : jsstring) (w : LingoValidator.World) :
  let out := LingoValidator.validateApiKey net apiKey w in
  (LingoValidator.sent w <= LingoValidator.sent (snd out)
   <= LingoValidator.sent w + 3)%nat
  /\ (LingoValidator.sent (snd out) = LingoValidator.sent w
      <-> LingoValidator.isValid
            (LingoValidator.checkRateLimit (LingoValidator.clock w) w) = false
          \/ LingoValidator.isValid (LingoValidator.validateFormat apiKey) = false)
  /\ (LingoValidator.isValid (LingoValidator.validateFormat apiKey) = false ->
      snd out = w /\ LingoValidator.isValid (fst out) = false)
  /\ (LingoValidator.isValid (fst out) = true ->
      LingoValidator.isValid (LingoValidator.validateFormat apiKey) = true
      /\ exists status body,
           outcome (net (pred (LingoValidator.sent (snd out))))
           = Response status body
           /\ ok status = true
           /\ took (net (pred (LingoValidator.sent (snd out))))
              < LingoValidator.VALIDATION_TIMEOUT).
Proof.
  cbv zeta. unfold LingoValidator.validateApiKey.
  destruct (LingoValidator.isValid
              (LingoValidator.checkRateLimit (LingoValidator.clock w) w)) eqn:Hrl;
    cbn [negb].
  2:{ cbn [fst snd]. split; [ lia | ].
      split; [ split; [ intros _; left; reflexivity | intros _; reflexivity ] | ].
      split; [ intros _; split; [ reflexivity | exact Hrl ] | ].
      intros H. rewrite Hrl in H. discriminate H. }
  destruct (LingoValidator.isValid (LingoValidator.validateFormat apiKey)) eqn:Hf;
    cbn [negb].
  2:{ cbn [fst snd]. split; [ lia | ].
      split; [ split; [ intros _; right; reflexivity | intros _; reflexivity ] | ].
      split; [ intros _; split; [ reflexivity | exact Hf ] | ].
      intros H. rewrite Hf in H. discriminate H. }
  destruct (validateWithApi_cases net 1
              (LingoValidator.mkWorld (LingoValidator.clock w)
                 (LingoValidator.clock w) (LingoValidator.sent w))
              ltac:(lia)) as [H1 [H2 [_ [r [Hr Hv]]]]].
  destruct (LingoValidator.validateWithApi net 1
              (LingoValidator.mkWorld (LingoValidator.clock w)
                 (LingoValidator.clock w) (LingoValidator.sent w))) as [c w'].
  cbn [fst snd LingoValidator.sent] in *. subst c.
  cbn [fst snd LingoValidator.sent].
  split; [ lia | ].
  split; [ split; [ intros H; lia
                  | intros [H | H]; discriminate H ] | ].
  split; [ intros H; discriminate H | ].
  intros Hvalid. split; [ reflexivity | exact (Hv Hvalid) ].
Qed.

Lemma validateApiKey_requests_witness :
  let net := fun k : nat =>
               match k with
               | 0%nat => mkExchange 200 (Response 503 JsonNull)
               | _ => mkExchange 300 (Response 200 JsonNull)
               end in
  let w := LingoValidator.mkWorld 0 5000 0 in
  let out := LingoValidator.validateApiKey net (JS.lit " API_abc123 ") w in
  LingoValidator.isValid (fst out) = true
  /\ LingoValidator.sent (snd out) = 2%nat
  /\ LingoValidator.clock (snd out) = 6500
  /\ snd (LingoValidator.validateApiKey net (JS.lit "api-abc123") w) = w.
Proof.
  intros net w out.
  split; [ reflexivity | ]. split; [ reflexivity | ]. split; [ reflexivity | ].
  destruct (validateApiKey_requests net (JS.lit "api-abc123") w)
    as [_ [_ [Hformat _]]].
  exact (proj1 (Hformat eq_refl)).
Defined.

Section ValidationInterval.

Local Ltac Zify.zify_post_hook ::= Z.to_euclidean_division_equations.

(** X30.  The two seconds between validations are counted from the start
    of the last validation that passed the format check, not from its end.
    Such a validation records its starting time; a validation asked for
    when it resolves is refused, with no request sent, exactly when the
    first took less than two seconds, and is then told to wait 2 seconds
    during the first second and 1 second during the next; once the first
    has taken two seconds the next one, if well formed, goes to the
    network at once. *)
Theorem validation_interval
  (net : Network) (apiKey next : jsstring) (w : LingoValidator.World) :
  LingoValidator.isValid (LingoValidator.validateFormat apiKey) = true ->
  LingoValidator.MIN_VALIDATION_INTERVAL
  <= LingoValidator.clock w - LingoValidator.lastValidationTime w ->
  let first := LingoValidator.validateApiKey net apiKey w in
  let second := LingoValidator.validateApiKey net next (snd first) in
  let elapsed := LingoValidator.clock (snd first) - LingoValidator.clock w in
  LingoValidator.lastValidationTime (snd first) = LingoValidator.clock w
  /\ (elapsed < 2000 ->
      snd second = snd first
      /\ LingoValidator.isValid (fst second) = false
      /\ LingoValidator.errorType (fst second) = Some LingoValidator.network)
  /\ (0 <= elapsed < 2000 ->
      LingoValidator.message (fst second)
      = JS.lit "Please wait " ++ JS.ofZ (if elapsed <? 1000 then 2 else 1)
        ++ JS.lit " seconds before validating again")
  /\ (2000 <= elapsed ->
      LingoValidator.isValid (LingoValidator.validateFormat next) = true ->
      (LingoValidator.sent (snd first) < LingoValidator.sent (snd second))%nat).
Proof.
  intros Hf Hgap. cbv zeta.
  assert (Hlast : LingoValidator.lastValidationTime
                    (snd (LingoValidator.validateApiKey net apiKey w))
                  = LingoValidator.clock w).
  { unfold LingoValidator.validateApiKey, LingoValidator.checkRateLimit.
    destruct (Z.ltb_spec (LingoValidator.clock w - LingoValidator.lastValidationTime w)
                LingoValidator.MIN_VALIDATION_INTERVAL) as [Hlt | _]; [ lia | ].
    cbn [LingoValidator.isValid negb]. rewrite Hf. cbn [negb].
    destruct (validateWithApi_cases net 1
                (LingoValidator.mkWorld (LingoValidator.clock w)
                   (LingoValidator.clock w) (LingoValidator.sent w))
                ltac:(lia)) as [_ [_ [H3 [r [Hr _]]]]].
    destruct (LingoValidator.validateWithApi net 1
                (LingoValidator.mkWorld (LingoValidator.clock w)
                   (LingoValidator.clock w) (LingoValidator.sent w))) as [c w'].
    cbn [fst snd LingoValidator.lastValidationTime] in *. subst c.
    cbn [fst snd]. exact H3. }
  set (w1 := snd (LingoValidator.validateApiKey net apiKey w)) in *.
  split; [ exact Hlast | ].
  unfold LingoValidator.validateApiKey at 1 2 3 4 5.
  unfold LingoValidator.checkRateLimit. rewrite Hlast.
  unfold LingoValidator.MIN_VALIDATION_INTERVAL.
  split; [ | split ].
  - intros Hshort.
    destruct (Z.ltb_spec (LingoValidator.clock w1 - LingoValidator.clock w) 2000)
      as [_ | Hge]; [ | lia ].
    cbn [LingoValidator.isValid negb fst snd LingoValidator.errorType].
    repeat split.
  - intros [Hpos Hshort].
    destruct (Z.ltb_spec (LingoValidator.clock w1 - LingoValidator.clock w) 2000)
      as [_ | Hge]; [ | lia ].
    cbn [LingoValidator.isValid negb fst snd LingoValidator.message].
    do 2 f_equal.
    destruct (Z.ltb_spec (LingoValidator.clock w1 - LingoValidator.clock w) 1000);
      f_equal; lia.
  - intros Hlong Hnext.
    destruct (Z.ltb_spec (LingoValidator.clock w1 - LingoValidator.clock w) 2000)
      as [Hlt | _]; [ lia | ].
    cbn [LingoValidator.isValid negb]. rewrite Hnext. cbn [negb].
    destruct (validateWithApi_cases net 1
                (LingoValidator.mkWorld (LingoValidator.clock w1)
                   (LingoValidator.clock w1) (LingoValidator.sent w1))
                ltac:(lia)) as [H1 [_ [_ [r [Hr _]]]]].
    destruct (LingoValidator.validateWithApi net 1
                (LingoValidator.mkWorld (LingoValidator.clock w1)
                   (LingoValidator.clock w1) (LingoValidator.sent w1))) as [c w'].
    cbn [fst snd LingoValidator.sent] in *. subst c.
    cbn [fst snd]. exact H1.
Qed.

End ValidationInterval.

Lemma validation_interval_witness :
  let slow := fun k : nat =>
                match k with
                | 0%nat => mkExchange 1200 (Response 503 JsonNull)
                | _ => mkExchange 300 (Response 200 JsonNull)
                end in
  let fast := fun _ : nat => mkExchange 300 (Response 200 JsonNull) in
  let w := LingoValidator.mkWorld 0 5000 0 in
  let key := JS.lit "api_abc123" in
  (LingoValidator.sent
     (snd (LingoValidator.validateApiKey slow key w)) = 2
   /\ LingoValidator.sent
        (snd (LingoValidator.validateApiKey slow key
                (snd (LingoValidator.validateApiKey slow key w)))) > 2)%nat
  /\ snd (LingoValidator.validateApiKey fast key
            (snd (LingoValidator.validateApiKey fast key w)))
     = snd (LingoValidator.validateApiKey fast key w).
Proof.
  intros slow fast w key. split.
  - split; [ reflexivity | ].
    destruct (validation_interval slow key key w eq_refl
                ltac:(vm_compute; intro H; discriminate H)) as [_ [_ [_ Hgo]]].
    apply Hgo; [ vm_compute; intro H; discriminate H | reflexivity ].
  - destruct (validation_interval fast key key w eq_refl
                ltac:(vm_compute; intro H; discriminate H)) as [_ [Hstop _]].
    apply Hstop. vm_compute. reflexivity.
Defined.
